(** * Verification of the CSV ingestion pipeline (csv_loader.py)

    A shallow embedding of [CSVLoader] and of the parts of Python, pandas
    and SQLAlchemy it relies on, followed by the properties of the loader.

    Conventions of the embedding:
    - a Python [str] is a [string]; its characters are read as the code
      points below 256;
    - a computation that may raise is a [result]: [Ok v] or [Raise e];
    - a dataframe cell is [NA] (pandas NaN / None) or a string [Str s],
      as a read with [dtype=str] and the line-by-line reader give them;
      cells that pandas has converted to numbers are not covered;
    - the SQLAlchemy session is an explicit state: the committed store
      and the list of pending (added, not yet flushed) objects;
    - a Python [float] is the binary64 value, written as the rational it
      equals; the sign of a zero is not kept ([0.0 == -0.0] in Python);
    - [print] calls are left out, and the messages of exceptions are
      written in ASCII and abridged where a library builds them.

    The definitions come first, the lemmas and theorems follow. *)

From Stdlib Require Import ZArith List String Ascii Bool Lia QArith DecimalString.
Import ListNotations.
Close Scope Q_scope.
Local Open Scope string_scope.
Local Open Scope Z_scope.

(* ================================================================== *)
(** * Python: exceptions and results *)

Inductive exn : Type :=
| ValueError (msg : string)
| KeyError (key : string)
| AttributeError (msg : string)
| TypeError (msg : string)
| OverflowError (msg : string)
| IntegrityError (msg : string)
| UnicodeDecodeError (msg : string)
| OtherException (msg : string).

(** [str(e)] *)
Definition exn_str (e : exn) : string :=
  match e with
  | ValueError m | AttributeError m | TypeError m | OverflowError m
  | IntegrityError m | UnicodeDecodeError m | OtherException m => m
  | KeyError k => "'" ++ k ++ "'"
  end.

Inductive result (A : Type) : Type :=
| Ok (a : A)
| Raise (e : exn).
Arguments Ok {A} a.
Arguments Raise {A} e.

Definition bind {A B : Type} (m : result A) (k : A -> result B) : result B :=
  match m with
  | Ok a => k a
  | Raise e => Raise e
  end.

Notation "x <- m ;; k" := (bind m (fun x => k))
  (at level 61, m at next level, right associativity).

(** [try: m  except Exception as e: h e] *)
Definition try_except {A : Type} (m : result A) (h : exn -> result A) : result A :=
  match m with
  | Ok a => Ok a
  | Raise e => h e
  end.

Definition is_ValueError (e : exn) : bool :=
  match e with ValueError _ => true | _ => false end.

Definition is_OverflowError (e : exn) : bool :=
  match e with OverflowError _ => true | _ => false end.

Definition is_TypeError (e : exn) : bool :=
  match e with TypeError _ => true | _ => false end.

(* ================================================================== *)
(** * Python: strings *)

(** [str.isspace] on the code points below 256. *)
Definition is_space (c : ascii) : bool :=
  let n := nat_of_ascii c in
  (((9 <=? n) && (n <=? 13)) || ((28 <=? n) && (n <=? 32))
   || (n =? 133) || (n =? 160))%nat.

Fixpoint lstrip (s : string) : string :=
  match s with
  | String c r => if is_space c then lstrip r else s
  | EmptyString => EmptyString
  end.

Fixpoint rstrip (s : string) : string :=
  match s with
  | String c r =>
      match rstrip r with
      | EmptyString => if is_space c then EmptyString else String c EmptyString
      | r' => String c r'
      end
  | EmptyString => EmptyString
  end.

(** [s.strip()] *)
Definition strip (s : string) : string := rstrip (lstrip s).

(** The white space [int()] and [float()] skip around a literal: tab to
    carriage return, the space, and of the code points from 128 on the
    two that are white space (NEL and the no-break space).  The four
    separators 28 to 31, which [str.strip] removes, are not skipped. *)
Definition is_num_space (c : ascii) : bool :=
  let n := nat_of_ascii c in
  (((9 <=? n) && (n <=? 13)) || (n =? 32) || (n =? 133) || (n =? 160))%nat.

Fixpoint num_lstrip (s : string) : string :=
  match s with
  | String c r => if is_num_space c then num_lstrip r else s
  | EmptyString => EmptyString
  end.

Fixpoint num_rstrip (s : string) : string :=
  match s with
  | String c r =>
      match num_rstrip r with
      | EmptyString => if is_num_space c then EmptyString else String c EmptyString
      | r' => String c r'
      end
  | EmptyString => EmptyString
  end.

Definition num_strip (s : string) : string := num_rstrip (num_lstrip s).

(** [c in s] for a one-character [c] *)
Fixpoint contains (c : ascii) (s : string) : bool :=
  match s with
  | String d r => Ascii.eqb d c || contains c r
  | EmptyString => false
  end.

(** [s.count(c)] for a one-character [c] *)
Fixpoint count_char (c : ascii) (s : string) : nat :=
  match s with
  | String d r => ((if Ascii.eqb d c then 1 else 0) + count_char c r)%nat
  | EmptyString => 0%nat
  end.

(** [s.replace(a, b)] for one-character [a] and [b] *)
Fixpoint replace (a b : ascii) (s : string) : string :=
  match s with
  | String d r => String (if Ascii.eqb d a then b else d) (replace a b r)
  | EmptyString => EmptyString
  end.

(** [s.split(sep)] for a one-character [sep]: never the empty list *)
Fixpoint split (sep : ascii) (s : string) : list string :=
  match s with
  | String c r =>
      if Ascii.eqb c sep then EmptyString :: split sep r
      else match split sep r with
           | p :: ps => String c p :: ps
           | [] => [String c EmptyString]
           end
  | EmptyString => [EmptyString]
  end.

(** [sep.join(parts)] *)
Fixpoint join (sep : string) (parts : list string) : string :=
  match parts with
  | [] => EmptyString
  | [p] => p
  | p :: ps => p ++ sep ++ join sep ps
  end.

Definition is_digit (c : ascii) : bool :=
  let n := nat_of_ascii c in ((48 <=? n) && (n <=? 57))%nat.

Definition digit_val (c : ascii) : Z := Z.of_nat (nat_of_ascii c) - 48.

(** The grammar [digitpart ::= digit (["_"] digit)*] of int() and
    float() literals; the result is the list of digit values. *)
Fixpoint digitpart (after_digit : bool) (s : string) : option (list Z) :=
  match s with
  | String c r =>
      if is_digit c then option_map (cons (digit_val c)) (digitpart true r)
      else if Ascii.eqb c "_" && after_digit then digitpart false r
      else None
  | EmptyString => if after_digit then Some [] else None
  end.

Definition digits_value (ds : list Z) : Z :=
  fold_left (fun acc d => 10 * acc + d) ds 0.

(** An optional sign in front of a literal. *)
Definition split_sign (s : string) : bool * string :=
  match s with
  | String "-" r => (true, r)
  | String "+" r => (false, r)
  | _ => (false, s)
  end.

(** [sys.get_int_max_str_digits()], as the interpreter starts. *)
Definition int_max_str_digits : Z := 4300.

(** [int(s)] for a string [s], base 10: a literal of more digits than
    the limit is refused. *)
Definition py_int (s : string) : result Z :=
  let (neg, body) := split_sign (num_strip s) in
  match digitpart false body with
  | Some ds =>
      if int_max_str_digits <? Z.of_nat (List.length ds)
      then Raise (ValueError "Exceeds the limit (4300 digits) for integer string conversion")
      else Ok (if neg then - digits_value ds else digits_value ds)
  | None => Raise (ValueError ("invalid literal for int() with base 10: " ++ s))
  end.

(* ================================================================== *)
(** * Python: datetime *)

Record date : Type := mkdate { year : Z; month : Z; day : Z }.

Definition is_leap (y : Z) : bool :=
  ((y mod 4 =? 0) && negb (y mod 100 =? 0)) || (y mod 400 =? 0).

Definition days_in_month (y m : Z) : Z :=
  if m =? 2 then (if is_leap y then 29 else 28)
  else if (m =? 4) || (m =? 6) || (m =? 9) || (m =? 11) then 30
  else 31.

Definition fits_c_int (z : Z) : bool := (- 2147483648 <=? z) && (z <=? 2147483647).

Definition valid_ymd (y m d : Z) : bool :=
  (1 <=? y) && (y <=? 9999) && (1 <=? m) && (m <=? 12)
  && (1 <=? d) && (d <=? days_in_month y m).

(** [datetime(y, m, d).date()] *)
Definition datetime_date (y m d : Z) : result date :=
  if negb (fits_c_int y && fits_c_int m && fits_c_int d)
  then Raise (OverflowError "Python int too large to convert to C int")
  else if valid_ymd y m d then Ok (mkdate y m d)
  else Raise (ValueError "date value out of range").

Definition in_range (lo hi c : ascii) : bool :=
  ((nat_of_ascii lo <=? nat_of_ascii c) && (nat_of_ascii c <=? nat_of_ascii hi))%nat.

(** The directives of [strptime]: each consumes a prefix of the input,
    trying its alternatives in the order of the library's pattern. *)

(** [%Y]: four digits *)
Definition match_Y (s : string) : option (Z * string) :=
  match s with
  | String a (String b (String c (String d r))) =>
      if is_digit a && is_digit b && is_digit c && is_digit d
      then Some (digits_value [digit_val a; digit_val b; digit_val c; digit_val d], r)
      else None
  | _ => None
  end.

(** [%m]: 1[0-2] | 0[1-9] | [1-9] *)
Definition match_m (s : string) : option (Z * string) :=
  match s with
  | String a r =>
      match r with
      | String b r' =>
          if Ascii.eqb a "1" && in_range "0" "2" b then Some (10 + digit_val b, r')
          else if Ascii.eqb a "0" && in_range "1" "9" b then Some (digit_val b, r')
          else if in_range "1" "9" a then Some (digit_val a, r)
          else None
      | EmptyString => if in_range "1" "9" a then Some (digit_val a, r) else None
      end
  | EmptyString => None
  end.

(** [%d]: 3[01] | [12]\d | 0[1-9] | [1-9] | " "[1-9] *)
Definition match_d (s : string) : option (Z * string) :=
  match s with
  | String a r =>
      match r with
      | String b r' =>
          if Ascii.eqb a "3" && in_range "0" "1" b then Some (30 + digit_val b, r')
          else if in_range "1" "2" a && is_digit b
               then Some (10 * digit_val a + digit_val b, r')
          else if Ascii.eqb a "0" && in_range "1" "9" b then Some (digit_val b, r')
          else if in_range "1" "9" a then Some (digit_val a, r)
          else if Ascii.eqb a " " && in_range "1" "9" b then Some (digit_val b, r')
          else None
      | EmptyString => if in_range "1" "9" a then Some (digit_val a, r) else None
      end
  | EmptyString => None
  end.

Definition match_lit (c : ascii) (s : string) : option string :=
  match s with
  | String a r => if Ascii.eqb a c then Some r else None
  | EmptyString => None
  end.

(** The match of the pattern of ['%Y-%m-%d'] at the start of [s]:
    the three numbers and the unconverted rest. *)
Definition match_Ymd (s : string) : option (Z * Z * Z * string) :=
  match match_Y s with
  | Some (y, s1) =>
      match match_lit "-" s1 with
      | Some s2 =>
          match match_m s2 with
          | Some (m, s3) =>
              match match_lit "-" s3 with
              | Some s4 =>
                  match match_d s4 with
                  | Some (d, s5) => Some (y, m, d, s5)
                  | None => None
                  end
              | None => None
              end
          | None => None
          end
      | None => None
      end
  | None => None
  end.

(** [datetime.strptime(s, '%Y-%m-%d').date()] *)
Definition strptime_Ymd (s : string) : result date :=
  match match_Ymd s with
  | Some (y, m, d, EmptyString) =>
      if valid_ymd y m d then Ok (mkdate y m d)
      else Raise (ValueError "day is out of range for month")
  | Some (_, _, _, _) => Raise (ValueError ("unconverted data remains: " ++ s))
  | None => Raise (ValueError ("time data does not match format '%Y-%m-%d': " ++ s))
  end.

(* ================================================================== *)
(** * pandas: cells *)

Inductive cell : Type :=
| NA
| Str (s : string).

(** [pd.isna(v)] *)
Definition isna (v : cell) : bool :=
  match v with NA => true | Str _ => false end.

(** [str(v)]: the text of a NaN is "nan" *)
Definition cell_str (v : cell) : string :=
  match v with NA => "nan" | Str s => s end.

(* ================================================================== *)
(** * CSVLoader: the field normalizers *)

(** [CSVLoader._parse_date] *)
Definition _parse_date (fecha_str : cell) : result date :=
  if isna fecha_str || String.eqb (strip (cell_str fecha_str)) ""
  then Raise (ValueError "Fecha vacia")
  else
    let fecha_str := strip (cell_str fecha_str) in
    if contains "/" fecha_str then
      let fecha_parts := split "/" fecha_str in
      match fecha_parts with
      | [day; month; year] =>
          year <- (if (String.length year =? 2)%nat
                   then (y <- py_int year ;;
                         if 50 <? y then Ok (1900 + y) else Ok (2000 + y))
                   else py_int year) ;;
          month <- py_int month ;;
          day <- py_int day ;;
          datetime_date year month day
      | _ => Raise (ValueError ("Formato de fecha invalido: " ++ fecha_str))
      end
    else if contains "-" fecha_str then strptime_Ymd fecha_str
    else Raise (ValueError ("Formato de fecha no reconocido: " ++ fecha_str)).

(* ================================================================== *)
(** * Python: float() *)

(** A Python float: a finite binary64 value, written as the rational it
    equals in lowest terms, an infinity or a NaN. *)
Inductive pyfloat : Type :=
| FFinite (q : Q)
| FInf (neg : bool)
| FNan.

(** [0.0] *)
Definition float_zero : pyfloat := FFinite (0 # 1).

(** The quotient [a / b] of two naturals rounded to the nearest integer,
    a tie going to the even one. *)
Definition div_half_even (a b : Z) : Z :=
  let (q, r) := Z.div_eucl a b in
  if 2 * r <? b then q
  else if b <? 2 * r then q + 1
  else if Z.even q then q else q + 1.

(** The exponent [e] with [2 ^ e <= n / d < 2 ^ (e + 1)]. *)
Definition floor_log2 (n d : positive) : Z :=
  let e := Z.log2 (Zpos n) - Z.log2 (Zpos d) in
  if (if 0 <=? e then Zpos d * 2 ^ e <=? Zpos n
      else Zpos d <=? Zpos n * 2 ^ (- e))
  then e else e - 1.

(** The binary64 value nearest to the positive rational [n / d] (ties to
    even): 53 significant bits, the last of them worth at least
    [2 ^ -1074]; [None] when the rounded value is beyond the largest
    float. *)
Definition nearest_double (n d : positive) : option Q :=
  let p := Z.max (floor_log2 n d - 52) (- 1074) in
  if 0 <=? p then
    let v := div_half_even (Zpos n) (Zpos d * 2 ^ p) * 2 ^ p in
    if 2 ^ 1024 <=? v then None else Some (inject_Z v)
  else
    Some (Qred (Qmake (div_half_even (Zpos n * 2 ^ (- p)) (Zpos d))
                      (Z.to_pos (2 ^ (- p))))).

(** The float that a decimal literal of value [q] denotes: the nearest
    binary64 value, an infinity on overflow. *)
Definition round_double (q : Q) : pyfloat :=
  match Qnum q with
  | Z0 => float_zero
  | Zpos n => match nearest_double n (Qden q) with
              | Some v => FFinite v
              | None => FInf false
              end
  | Zneg n => match nearest_double n (Qden q) with
              | Some v => FFinite (Qred (Qopp v))
              | None => FInf true
              end
  end.

Definition lower_char (c : ascii) : ascii :=
  if in_range "A" "Z" c then ascii_of_nat (nat_of_ascii c + 32) else c.

Fixpoint lower (s : string) : string :=
  match s with
  | String c r => String (lower_char c) (lower r)
  | EmptyString => EmptyString
  end.

(** The text before the first character satisfying [p], and the text
    after it when there is one. *)
Fixpoint split_first (p : ascii -> bool) (s : string) : string * option string :=
  match s with
  | String c r =>
      if p c then (EmptyString, Some r)
      else let (a, b) := split_first p r in (String c a, b)
  | EmptyString => (EmptyString, None)
  end.

Definition is_e (c : ascii) : bool := Ascii.eqb c "e" || Ascii.eqb c "E".
Definition is_dot (c : ascii) : bool := Ascii.eqb c ".".

(** [exponent ::= ("e" | "E") [sign] digitpart], after the letter *)
Definition float_exponent (oe : option string) : option Z :=
  match oe with
  | None => Some 0
  | Some e =>
      let (neg, body) := split_sign e in
      match digitpart false body with
      | Some ds => Some (if neg then - digits_value ds else digits_value ds)
      | None => None
      end
  end.

(** [number ::= [digitpart] "." digitpart | digitpart ["."]]: the digits
    of the number and how many of them follow the point. *)
Definition float_number (s : string) : option (list Z * Z) :=
  match split_first is_dot s with
  | (ip, None) =>
      match digitpart false ip with
      | Some ds => Some (ds, 0)
      | None => None
      end
  | (ip, Some fp) =>
      match ip, fp with
      | EmptyString, EmptyString => None
      | EmptyString, _ =>
          match digitpart false fp with
          | Some fs => Some (fs, Z.of_nat (List.length fs))
          | None => None
          end
      | _, EmptyString =>
          match digitpart false ip with
          | Some ds => Some (ds, 0)
          | None => None
          end
      | _, _ =>
          match digitpart false ip, digitpart false fp with
          | Some ds, Some fs => Some ((ds ++ fs)%list, Z.of_nat (List.length fs))
          | _, _ => None
          end
      end
  end.

(** [floatnumber ::= number [exponent]] *)
Definition float_literal (s : string) : option Q :=
  let (mant, oe) := split_first is_e s in
  match float_number mant, float_exponent oe with
  | Some (ds, nfrac), Some e =>
      Some (Qred (Qmult (inject_Z (digits_value ds))
                        (Qpower (inject_Z 10) (e - nfrac))))
  | _, _ => None
  end.

(** [float(s)] for a string [s] *)
Definition py_float (s : string) : result pyfloat :=
  let (neg, body) := split_sign (num_strip s) in
  let name := lower body in
  if String.eqb name "inf" || String.eqb name "infinity" then Ok (FInf neg)
  else if String.eqb name "nan" then Ok FNan
  else match float_literal body with
       | Some q => Ok (round_double (if neg then Qopp q else q))
       | None => Raise (ValueError ("could not convert string to float: " ++ s))
       end.

(** [CSVLoader._safe_float_conversion] *)
Definition _safe_float_conversion (value : cell) : result pyfloat :=
  if isna value || String.eqb (strip (cell_str value)) "" then Ok float_zero
  else
    try_except
      (let value_str := replace "," "." (cell_str value) in
       py_float value_str)
      (fun e => if is_ValueError e || is_TypeError e then Ok float_zero
                else Raise e).

(* ================================================================== *)
(** * pandas: dataframes *)

(** A dataframe: its column labels and its rows, each row holding one
    cell per column.  [len(df)] is the number of rows. *)
Record DataFrame : Type := mkDataFrame {
  columns : list string;
  rows : list (list cell)
}.

Definition df_len (df : DataFrame) : nat := List.length (rows df).

(** Position of the first label equal to [name]. *)
Fixpoint index_of (name : string) (labels : list string) : option nat :=
  match labels with
  | [] => None
  | l :: ls => if String.eqb l name then Some 0%nat
               else option_map S (index_of name ls)
  end.

(** [name in df.columns], [name in row.index] *)
Definition has_column (labels : list string) (name : string) : bool :=
  match index_of name labels with Some _ => true | None => false end.

(** [row[name]] for a row of [df.iterrows()] and a label that one column
    carries; of a repeated label the first column is read here. *)
Definition row_get (labels : list string) (row : list cell) (name : string)
  : result cell :=
  match index_of name labels with
  | Some i => match nth_error row i with
              | Some v => Ok v
              | None => Ok NA
              end
  | None => Raise (KeyError name)
  end.

(** How many columns carry the label [name]. *)
Definition label_count (labels : list string) (name : string) : nat :=
  List.length (filter (String.eqb name) labels).

(** A label that more than one column carries: [df[name]] is then a
    frame of these columns, not one column. *)
Definition repeated_label (labels : list string) (name : string) : bool :=
  (1 <? label_count labels name)%nat.

(** [df[name]] for a label that one column carries: the cells of the
    column, top to bottom *)
Definition column (df : DataFrame) (name : string) : list cell :=
  match index_of name (columns df) with
  | Some i => map (fun row => nth i row NA) (rows df)
  | None => []
  end.

(** [Series.dropna()] *)
Fixpoint dropna (cells : list cell) : list string :=
  match cells with
  | [] => []
  | NA :: r => dropna r
  | Str s :: r => s :: dropna r
  end.

Definition mem (s : string) (l : list string) : bool :=
  existsb (String.eqb s) l.

(** [Series.unique()]: the distinct values in order of first appearance *)
Fixpoint unique_from (seen : list string) (l : list string) : list string :=
  match l with
  | [] => []
  | x :: r => if mem x seen then unique_from seen r
              else x :: unique_from (x :: seen) r
  end.

Definition unique (l : list string) : list string := unique_from [] l.

(** Default labels [0, 1, ...] of a frame built without column names,
    written as their decimal text. *)
Fixpoint default_labels (n : nat) : list string :=
  match n with
  | O => []
  | S k => (default_labels k ++ [NilEmpty.string_of_uint (Nat.to_uint k)])%list
  end.

Definition max_width (data : list (list string)) : nat :=
  fold_right (fun r w => Nat.max (List.length r) w) 0%nat data.

Definition pad_row (w : nat) (r : list string) : list cell :=
  (map Str r ++ repeat NA (w - List.length r))%list.

(** [pd.DataFrame(data, columns=labels)] for a list of rows of strings:
    short rows are filled with missing values up to the widest row, and
    the widest row must have as many fields as there are labels. *)
Definition pd_DataFrame (data : list (list string)) (labels : option (list string))
  : result DataFrame :=
  match data with
  | [] => Ok (mkDataFrame (match labels with Some l => l | None => [] end) [])
  | _ =>
      let w := max_width data in
      match labels with
      | None => Ok (mkDataFrame (default_labels w) (map (pad_row w) data))
      | Some l =>
          if (List.length l =? w)%nat
          then Ok (mkDataFrame l (map (pad_row w) data))
          else Raise (ValueError "columns passed do not match the data")
      end
  end.

(* ================================================================== *)
(** * Python: list slices *)

(** [l[:stop]] *)
Definition slice_to {A : Type} (stop : Z) (l : list A) : list A :=
  if stop <? 0 then firstn (Z.to_nat (Z.of_nat (List.length l) + stop)) l
  else firstn (Z.to_nat stop) l.

(** [l[start:]] *)
Definition slice_from {A : Type} (start : Z) (l : list A) : list A :=
  if start <? 0 then skipn (Z.to_nat (Z.of_nat (List.length l) + start)) l
  else skipn (Z.to_nat start) l.

(* ================================================================== *)
(** * The file as the loader sees it *)

(** Keyword arguments of the calls of [pd.read_csv] in the loader. *)
Record read_csv_kwargs : Type := mk_kwargs {
  sep : string;
  encoding : string;
  on_bad_lines : string;
  engine : string;
  quoting : option Z;
  skipinitialspace : bool;
  low_memory : option bool;
  dtype_str : bool
}.

(** What the file at [csv_file_path] answers to the library calls of the
    loader: [os.path.exists], [pd.read_csv] under given arguments, and
    the rows [csv.reader(open(path, 'r', encoding='utf-8'), delimiter=';')]
    yields when iterated to the end (or the exception that iteration
    raises). *)
Record File : Type := mkFile {
  path_exists : bool;
  pd_read_csv : read_csv_kwargs -> result DataFrame;
  csv_reader : result (list (list string))
}.

(* ================================================================== *)
(** * CSVLoader: the row decoder *)

(** State of the loop of [_read_csv_line_by_line]. *)
Record line_state : Type := mk_line_state {
  headers : option (list string);
  expected_cols : Z;
  valid_rows : list (list string);
  problematic_lines : list nat
}.

Definition line_state0 : line_state := mk_line_state None 0 [] [].

(** One iteration of [for line_num, row in enumerate(reader, 1)].  The
    body only measures, slices and joins lists of strings, so the
    [except Exception] around it is never entered. *)
Definition line_step (st : line_state) (line_num : nat) (row : list string)
  : line_state :=
  if (line_num =? 1)%nat then
    mk_line_state (Some row) (Z.of_nat (List.length row))
                  (valid_rows st) (problematic_lines st)
  else
    let n := Z.of_nat (List.length row) in
    let k := expected_cols st in
    if n =? k then
      mk_line_state (headers st) k (valid_rows st ++ [row])%list (problematic_lines st)
    else
      let problematic := (problematic_lines st ++ [line_num])%list in
      if k <? n then
        let repaired_row := (slice_to (k - 1) row ++ [join ";" (slice_from (k - 1) row)])%list in
        mk_line_state (headers st) k (valid_rows st ++ [repaired_row])%list problematic
      else if n <? k then
        let repaired_row := (row ++ repeat EmptyString (Z.to_nat (k - n)))%list in
        mk_line_state (headers st) k (valid_rows st ++ [repaired_row])%list problematic
      else
        mk_line_state (headers st) k (valid_rows st) problematic.

Fixpoint line_loop (st : line_state) (line_num : nat) (lines : list (list string))
  : line_state :=
  match lines with
  | [] => st
  | row :: rest => line_loop (line_step st line_num row) (S line_num) rest
  end.

(** [CSVLoader._read_csv_line_by_line] *)
Definition _read_csv_line_by_line (f : File) : result DataFrame :=
  lines <- csv_reader f ;;
  let st := line_loop line_state0 1 lines in
  pd_DataFrame (valid_rows st) (headers st).

Definition QUOTE_MINIMAL : Z := 0.

Definition kwargs_basic : read_csv_kwargs :=
  mk_kwargs ";" "utf-8" "skip" "python" None false None false.

Definition kwargs_robust : read_csv_kwargs :=
  mk_kwargs ";" "utf-8" "skip" "python" (Some QUOTE_MINIMAL) true (Some false) true.

Definition kwargs_encoding (enc : string) : read_csv_kwargs :=
  mk_kwargs ";" enc "skip" "python" None false None true.

Definition encodings : list string := ["utf-8"; "latin-1"; "cp1252"; "iso-8859-1"].

(** The loop [for encoding in encodings] of strategy 4. *)
Fixpoint read_with_encodings (f : File) (encs : list string) : option DataFrame :=
  match encs with
  | [] => None
  | enc :: rest =>
      match pd_read_csv f (kwargs_encoding enc) with
      | Ok df => Some df
      | Raise _ => read_with_encodings f rest
      end
  end.

(** [CSVLoader._read_csv_robust]: every strategy sits in its own
    [try ... except Exception], and returns its dataframe as soon as the
    call does not raise. *)
Definition _read_csv_robust (f : File) : option DataFrame :=
  match pd_read_csv f kwargs_basic with
  | Ok df => Some df
  | Raise _ =>
      match pd_read_csv f kwargs_robust with
      | Ok df => Some df
      | Raise _ =>
          match _read_csv_line_by_line f with
          | Ok df => Some df
          | Raise _ => read_with_encodings f encodings
          end
      end
  end.

(* ================================================================== *)
(** * models.py: the relational store *)

(** The five reference tables. *)
Inductive table : Type :=
| Aduana | Pais | TipoRegimen | UnidadMedida | CodigoSAC.

(** A row of a reference table: surrogate [id] and the unique, non-null
    natural key ([nombre], or [codigo] for [CodigoSAC]). *)
Record RefRow : Type := mkRef { ref_id : Z; ref_key : string }.

(** [DeclaracionImportacion]; [decl_id] is [None] until the row is
    flushed.  [correlativo] and [descripcion] hold what the loader passed:
    a text, or a missing value that the database receives as NULL. *)
Record DeclaracionImportacion : Type := mkDecl {
  decl_id : option Z;
  correlativo : cell;
  fecha_declaracion : date;
  tipo_cambio_dolar : pyfloat;
  descripcion : cell;
  cantidad_fraccion : pyfloat;
  tasa_dai : pyfloat;
  valor_dai : pyfloat;
  valor_cif_usd : pyfloat;
  tasa_cif_cantidad_fraccion : pyfloat;
  aduana_id : Z;
  pais_id : Z;
  tipo_regimen_id : Z;
  unidad_medida_id : Z;
  codigo_sac_id : Z
}.

(** The committed content of the database. *)
Record Store : Type := mkStore {
  aduanas : list RefRow;
  paises : list RefRow;
  tipos_regimen : list RefRow;
  unidades_medida : list RefRow;
  codigos_sac : list RefRow;
  declaraciones_importacion : list DeclaracionImportacion
}.

Definition empty_store : Store := mkStore [] [] [] [] [] [].

Definition get_refs (t : table) (db : Store) : list RefRow :=
  match t with
  | Aduana => aduanas db
  | Pais => paises db
  | TipoRegimen => tipos_regimen db
  | UnidadMedida => unidades_medida db
  | CodigoSAC => codigos_sac db
  end.

Definition set_refs (t : table) (l : list RefRow) (db : Store) : Store :=
  match t with
  | Aduana => mkStore l (paises db) (tipos_regimen db) (unidades_medida db)
                      (codigos_sac db) (declaraciones_importacion db)
  | Pais => mkStore (aduanas db) l (tipos_regimen db) (unidades_medida db)
                    (codigos_sac db) (declaraciones_importacion db)
  | TipoRegimen => mkStore (aduanas db) (paises db) l (unidades_medida db)
                           (codigos_sac db) (declaraciones_importacion db)
  | UnidadMedida => mkStore (aduanas db) (paises db) (tipos_regimen db) l
                            (codigos_sac db) (declaraciones_importacion db)
  | CodigoSAC => mkStore (aduanas db) (paises db) (tipos_regimen db)
                         (unidades_medida db) l (declaraciones_importacion db)
  end.

Definition set_declaraciones (l : list DeclaracionImportacion) (db : Store) : Store :=
  mkStore (aduanas db) (paises db) (tipos_regimen db) (unidades_medida db)
          (codigos_sac db) l.

(* ================================================================== *)
(** * database.py: the session *)

(** An object handed to [Session.add]. *)
Inductive pending_obj : Type :=
| PRef (t : table) (key : string)
| PDecl (d : DeclaracionImportacion).

(** [SessionLocal = sessionmaker(autocommit=False, autoflush=False, ...)].
    A session knows the database content ([store]) and the objects added
    but not yet flushed ([pending]); [autoflush] tells whether a query
    flushes the pending objects before it reads. *)
Record Session : Type := mkSession {
  autoflush : bool;
  store : Store;
  pending : list pending_obj
}.

(** [SessionLocal()] on a database holding [db] *)
Definition SessionLocal (db : Store) : Session := mkSession false db [].

(** State and exceptions: a method of the loader runs in a session and
    returns or raises, leaving the session as it made it. *)
Definition M (A : Type) : Type := Session -> result A * Session.

Definition ret {A : Type} (a : A) : M A := fun s => (Ok a, s).

Definition raiseM {A : Type} (e : exn) : M A := fun s => (Raise e, s).

Definition bindM {A B : Type} (m : M A) (k : A -> M B) : M B :=
  fun s => match m s with
           | (Ok a, s') => k a s'
           | (Raise e, s') => (Raise e, s')
           end.

Notation "x <-- m ;;; k" := (bindM m (fun x => k))
  (at level 61, m at next level, right associativity).
Notation "m ;;; k" := (bindM m (fun _ => k))
  (at level 61, right associativity).

(** A pure computation that may raise, run inside a method. *)
Definition lift {A : Type} (r : result A) : M A := fun s => (r, s).

(** [try: m  except Exception as e: h e] *)
Definition tryM {A : Type} (m : M A) (h : exn -> M A) : M A :=
  fun s => match m s with
           | (Ok a, s') => (Ok a, s')
           | (Raise e, s') => h e s'
           end.

(** [try: m  finally: f] *)
Definition finallyM {A : Type} (m : M A) (f : M unit) : M A :=
  fun s => match m s with
           | (r, s') => match f s' with
                        | (Ok _, s'') => (r, s'')
                        | (Raise e, s'') => (Raise e, s'')
                        end
           end.

(** Equality of a text column with a bound parameter: never true when
    either side is NULL. *)
Definition sql_eq (stored param : cell) : bool :=
  match stored, param with
  | Str a, Str b => String.eqb a b
  | _, _ => false
  end.

Definition next_id (ids : list Z) : Z := 1 + fold_right Z.max 0 ids.

Definition decl_ids (l : list DeclaracionImportacion) : list Z :=
  flat_map (fun d => match decl_id d with Some i => [i] | None => [] end) l.

Definition is_nan (x : pyfloat) : bool :=
  match x with FNan => true | _ => false end.

(** A NaN among the six numbers of a declaration.  SQLite, the database
    of database.py, binds a NaN as NULL. *)
Definition has_nan (d : DeclaracionImportacion) : bool :=
  is_nan (tipo_cambio_dolar d) || is_nan (cantidad_fraccion d)
  || is_nan (tasa_dai d) || is_nan (valor_dai d)
  || is_nan (valor_cif_usd d) || is_nan (tasa_cif_cantidad_fraccion d).

(** INSERT of one pending object: a reference row needs a key not yet
    in its table (unique constraint); a declaration needs non-null texts
    and numbers (nullable=False).  Ids are assigned by the database. *)
Definition insert_obj (o : pending_obj) (db : Store) : result Store :=
  match o with
  | PRef t key =>
      if existsb (fun r => String.eqb (ref_key r) key) (get_refs t db)
      then Raise (IntegrityError "UNIQUE constraint failed")
      else Ok (set_refs t (get_refs t db
                           ++ [mkRef (next_id (map ref_id (get_refs t db))) key])%list db)
  | PDecl d =>
      if isna (correlativo d) || isna (descripcion d) || has_nan d
      then Raise (IntegrityError "NOT NULL constraint failed")
      else
        let l := declaraciones_importacion db in
        Ok (set_declaraciones
              (l ++ [mkDecl (Some (next_id (decl_ids l)))
                            (correlativo d) (fecha_declaracion d) (tipo_cambio_dolar d)
                            (descripcion d) (cantidad_fraccion d) (tasa_dai d)
                            (valor_dai d) (valor_cif_usd d) (tasa_cif_cantidad_fraccion d)
                            (aduana_id d) (pais_id d) (tipo_regimen_id d)
                            (unidad_medida_id d) (codigo_sac_id d)])%list db)
  end.

Fixpoint insert_all (objs : list pending_obj) (db : Store) : result Store :=
  match objs with
  | [] => Ok db
  | o :: rest => db' <- insert_obj o db ;; insert_all rest db'
  end.

(** [Session.flush()]: the pending objects are inserted in the order they
    were added; when an insert fails nothing of the flush is kept in the
    database and the objects stay pending until a rollback. *)
Definition flush : M unit :=
  fun s => match insert_all (pending s) (store s) with
           | Ok db' => (Ok tt, mkSession (autoflush s) db' [])
           | Raise e => (Raise e, s)
           end.

(** [Session.commit()] *)
Definition commit : M unit := flush.

(** [Session.rollback()]: what was not committed is dropped. *)
Definition rollback : M unit :=
  fun s => (Ok tt, mkSession (autoflush s) (store s) []).

(** [Session.close()] *)
Definition close : M unit :=
  fun s => (Ok tt, mkSession (autoflush s) (store s) []).

(** [Session.add(obj)] *)
Definition add (o : pending_obj) : M unit :=
  fun s => (Ok tt, mkSession (autoflush s) (store s) (pending s ++ [o])%list).

(** Every [Session.query] starts here: with [autoflush] the pending
    objects are flushed first, without it the query reads the database
    as it is. *)
Definition before_query : M unit :=
  fun s => if autoflush s then flush s else (Ok tt, s).

(** [self.db.query(T).filter(T.nombre == v).first()] *)
Definition query_ref_first (t : table) (v : cell) : M (option RefRow) :=
  before_query ;;;
  fun s => (Ok (find (fun r => sql_eq (Str (ref_key r)) v) (get_refs t (store s))), s).

(** [self.db.query(DeclaracionImportacion).filter(correlativo == c,
    codigo_sac_id == sac_id, descripcion == d).first()] *)
Definition natural_key_matches (c : cell) (sac_id : Z) (d : cell)
           (x : DeclaracionImportacion) : bool :=
  sql_eq (correlativo x) c && (codigo_sac_id x =? sac_id) && sql_eq (descripcion x) d.

Definition query_decl_first (c : cell) (sac_id : Z) (d : cell)
  : M (option DeclaracionImportacion) :=
  before_query ;;;
  fun s => (Ok (find (natural_key_matches c sac_id d)
                     (declaraciones_importacion (store s))), s).

(* ================================================================== *)
(** * CSVLoader: loading *)

Definition required_columns : list string :=
  ["aduana"; "pais"; "tipo_regimen"; "tipo_unidad_medida"; "sac"].

(** [for key in keys: if not self.db.query(T).filter(T.nombre == key).first():
    self.db.add(T(nombre=key))] *)
Fixpoint add_missing_refs (t : table) (keys : list string) : M unit :=
  match keys with
  | [] => ret tt
  | key :: rest =>
      found <-- query_ref_first t (Str key) ;;;
      match found with
      | Some _ => ret tt
      | None => add (PRef t key)
      end ;;;
      add_missing_refs t rest
  end.

(** One block of [_load_master_data]:
    [if name in df.columns: for key in df[name].dropna().unique(): ...].
    When the label is repeated, [df[name].dropna()] is a frame, which has
    no [unique]. *)
Definition load_category (df : DataFrame) (name : string) (t : table) : M unit :=
  if has_column (columns df) name
  then if repeated_label (columns df) name
       then raiseM (AttributeError "'DataFrame' object has no attribute 'unique'")
       else add_missing_refs t (unique (dropna (column df name)))
  else ret tt.

(** [CSVLoader._load_master_data] *)
Definition _load_master_data (df : DataFrame) : M unit :=
  let missing_columns :=
    filter (fun col => negb (has_column (columns df) col)) required_columns in
  match missing_columns with
  | _ :: _ => ret tt
  | [] =>
      load_category df "aduana" Aduana ;;;
      load_category df "pais" Pais ;;;
      load_category df "tipo_regimen" TipoRegimen ;;;
      load_category df "tipo_unidad_medida" UnidadMedida ;;;
      load_category df "sac" CodigoSAC ;;;
      commit
  end.

(** The counters [success_count] and [error_count] of [_load_declarations]. *)
Definition counts : Type := (nat * nat)%type.

Definition count_success (c : counts) : counts := (S (fst c), snd c).
Definition count_error (c : counts) : counts := (fst c, S (snd c)).

(** The construction of the [DeclaracionImportacion] object: the keyword
    arguments are evaluated in the order they are written. *)
Definition build_declaracion (labels : list string) (row : list cell) (fecha : date)
           (aduana pais regimen unidad sac : RefRow)
  : result DeclaracionImportacion :=
  v_correlativo <- row_get labels row "correlativo" ;;
  v_tipo_cambio <- (v <- row_get labels row "tipo_cambio_dolar" ;; _safe_float_conversion v) ;;
  v_descripcion <- row_get labels row "descripcion" ;;
  v_cantidad <- (v <- row_get labels row "cantidad_fraccion" ;; _safe_float_conversion v) ;;
  v_tasa_dai <- (v <- row_get labels row "tasa_dai" ;; _safe_float_conversion v) ;;
  v_valor_dai <- (v <- row_get labels row "valor_dai" ;; _safe_float_conversion v) ;;
  v_valor_cif <- (v <- row_get labels row "valor_cif_uds" ;; _safe_float_conversion v) ;;
  v_tasa_cif <- (v <- row_get labels row "tasa_cif_cantidad_fraccion" ;;
                 _safe_float_conversion v) ;;
  Ok (mkDecl None v_correlativo fecha v_tipo_cambio v_descripcion v_cantidad
             v_tasa_dai v_valor_dai v_valor_cif v_tasa_cif
             (ref_id aduana) (ref_id pais) (ref_id regimen) (ref_id unidad) (ref_id sac)).

(** The body of the loop [for index, row in df.iterrows()]. *)
Definition load_row (labels : list string) (row : list cell) (c : counts) : M counts :=
  tryM
    (if negb (forallb (has_column labels) required_columns) then ret (count_error c)
     else
       v_aduana <-- lift (row_get labels row "aduana") ;;;
       aduana <-- query_ref_first Aduana v_aduana ;;;
       v_pais <-- lift (row_get labels row "pais") ;;;
       pais <-- query_ref_first Pais v_pais ;;;
       v_regimen <-- lift (row_get labels row "tipo_regimen") ;;;
       regimen <-- query_ref_first TipoRegimen v_regimen ;;;
       v_unidad <-- lift (row_get labels row "tipo_unidad_medida") ;;;
       unidad <-- query_ref_first UnidadMedida v_unidad ;;;
       v_sac <-- lift (row_get labels row "sac") ;;;
       sac <-- query_ref_first CodigoSAC (Str (cell_str v_sac)) ;;;
       match aduana, pais, regimen, unidad, sac with
       | Some aduana, Some pais, Some regimen, Some unidad, Some sac =>
           parsed <-- tryM (fecha <-- lift (v <- row_get labels row "fecha_declaracion" ;;
                                           _parse_date v) ;;;
                            ret (Some fecha))
                           (fun _ => ret None) ;;;
           match parsed with
           | None => ret (count_error c)
           | Some fecha =>
               v_correlativo <-- lift (row_get labels row "correlativo") ;;;
               v_descripcion <-- lift (row_get labels row "descripcion") ;;;
               existing <-- query_decl_first v_correlativo (ref_id sac) v_descripcion ;;;
               match existing with
               | Some _ => ret c
               | None =>
                   tryM (declaracion <-- lift (build_declaracion labels row fecha
                                                 aduana pais regimen unidad sac) ;;;
                         add (PDecl declaracion) ;;;
                         ret (count_success c))
                        (fun _ => ret (count_error c))
               end
           end
       | _, _, _, _, _ => ret (count_error c)
       end)
    (fun _ => ret (count_error c)).

Fixpoint load_rows (labels : list string) (rs : list (list cell)) (c : counts) : M counts :=
  match rs with
  | [] => ret c
  | row :: rest => c' <-- load_row labels row c ;;; load_rows labels rest c'
  end.

(** [CSVLoader._load_declarations]; the value returned here is the pair
    of counters of its closing report line. *)
Definition _load_declarations (df : DataFrame) : M counts :=
  c <-- load_rows (columns df) (rows df) (0%nat, 0%nat) ;;;
  commit ;;;
  ret c.

(** Values returned by [load_csv_data]. *)
Inductive pyatom : Type :=
| PStr (s : string)
| PInt (z : Z).

Inductive pyvalue : Type :=
| PyNone
| PyDict (items : list (string * pyatom)).

(** [CSVLoader._load_sample_data]: its body is [pass]. *)
Definition _load_sample_data : M pyvalue := ret PyNone.

(** The attributes of a [CSVLoader] object: those [__init__] sets and
    the methods the class defines. *)
Definition CSVLoader_attributes : list string :=
  ["csv_file_path"; "db"; "__init__"; "load_csv_data"; "_read_csv_robust";
   "_read_csv_line_by_line"; "_diagnose_csv_issues"; "_load_master_data";
   "_load_declarations"; "_parse_date"; "_safe_float_conversion";
   "_load_sample_data"].

(** [self.<name>] *)
Definition getattr_self (name : string) : M unit :=
  if mem name CSVLoader_attributes then ret tt
  else raiseM (AttributeError
                 ("'CSVLoader' object has no attribute '" ++ name ++ "'")).

(** [Base.metadata.create_all(bind=engine)]: creates the tables that do
    not exist yet; no row changes. *)
Definition create_all : M unit := ret tt.

(** [CSVLoader.load_csv_data] *)
Definition load_csv_data (f : File) : M pyvalue :=
  finallyM
    (tryM
       (if negb (path_exists f) then _load_sample_data
        else
          match _read_csv_robust f with
          | None => ret (PyDict [("status", PStr "error");
                                 ("message", PStr "No se pudo leer el archivo CSV")])
          | Some df =>
              create_all ;;;
              getattr_self "_clean_existing_data" ;;;
              _load_master_data df ;;;
              _load_declarations df ;;;
              ret (PyDict [("status", PStr "success");
                           ("records_loaded", PInt (Z.of_nat (df_len df)))])
          end)
       (fun e =>
          rollback ;;;
          ret (PyDict [("status", PStr "error"); ("message", PStr (exn_str e))])))
    close.

(** [CSVLoader(path).load_csv_data()] against a database holding [db]:
    the value returned (or the exception that escapes) and the database
    afterwards. *)
Definition run_load_csv_data (f : File) (db : Store) : result pyvalue * Store :=
  let (r, s) := load_csv_data f (SessionLocal db) in (r, store s).

(** The two loading passes as [load_csv_data] sequences them, in a fresh
    session on [db]. *)
Definition load_passes (df : DataFrame) : M counts :=
  _load_master_data df ;;; _load_declarations df.

Definition run_load_passes (df : DataFrame) (db : Store) : result counts * Store :=
  let (r, s) := load_passes df (SessionLocal db) in (r, store s).

(* ================================================================== *)
(** * Definitions used in the statements *)

(** The year [_parse_date] gives to a two-digit year text. *)
Definition pivot_year (y : Z) : Z := if 51 <=? y then 1900 + y else 2000 + y.

(** A date of the calendar. *)
Definition valid_date (d : date) : bool := valid_ymd (year d) (month d) (day d).

(** The line-repair rule in the spec's words: a line of the header's
    width is kept; a longer one keeps its first [k - 1] fields and gets
    the remaining ones joined by the delimiter as its last field; a
    shorter one is padded with empty fields. *)
Definition repair_row (k : nat) (row : list string) : list string :=
  if (List.length row =? k)%nat then row
  else if (k <? List.length row)%nat
       then (firstn (k - 1) row ++ [join ";" (skipn (k - 1) row)])%list
       else (row ++ repeat EmptyString (k - List.length row))%list.

(** The attempts of [_read_csv_robust], in the order it makes them. *)
Definition strategies (f : File) : list (result DataFrame) :=
  [pd_read_csv f kwargs_basic;
   pd_read_csv f kwargs_robust;
   _read_csv_line_by_line f;
   pd_read_csv f (kwargs_encoding "utf-8");
   pd_read_csv f (kwargs_encoding "latin-1");
   pd_read_csv f (kwargs_encoding "cp1252");
   pd_read_csv f (kwargs_encoding "iso-8859-1")].

(** The first attempt that returned, whatever it returned. *)
Fixpoint first_returned (attempts : list (result DataFrame)) : option DataFrame :=
  match attempts with
  | [] => None
  | Ok df :: _ => Some df
  | Raise _ :: rest => first_returned rest
  end.

(** The spec's rule: the first attempt that produced at least one row. *)
Fixpoint spec_first_nonempty (attempts : list (result DataFrame)) : option DataFrame :=
  match attempts with
  | [] => None
  | Ok df :: rest => if (1 <=? df_len df)%nat then Some df
                     else spec_first_nonempty rest
  | Raise _ :: rest => spec_first_nonempty rest
  end.

(** A file made of a header line and one blank line.  [pd.read_csv] skips
    blank lines and returns a frame without rows; [csv.reader] yields the
    blank line as an empty list of fields, which the line-by-line repair
    pads into a row. *)
Definition header_and_blank_line : File :=
  mkFile true
         (fun _ => Ok (mkDataFrame ["a"; "b"] []))
         (Ok [["a"; "b"]; []]).

(** The error record built from the AttributeError of a missing method. *)
Definition missing_method_result : pyvalue :=
  PyDict [("status", PStr "error");
          ("message", PStr "'CSVLoader' object has no attribute '_clean_existing_data'")].

(** A declarations file: the header of the input format and data lines
    whose fields are all texts. *)
Definition declaration_header : list string :=
  ["aduana"; "pais"; "tipo_regimen"; "tipo_unidad_medida"; "sac"; "correlativo";
   "fecha_declaracion"; "tipo_cambio_dolar"; "descripcion"; "cantidad_fraccion";
   "tasa_dai"; "valor_dai"; "valor_cif_uds"; "tasa_cif_cantidad_fraccion"].

(** One data line of such a file. *)
Definition caballos_line : list string :=
  ["PuertoX"; "CountryY"; "Import"; "KG"; "0101.21.00"; "COR001";
   "01/02/23"; "7,85"; "Caballos"; "10,0"; "5,0"; "2,5"; "100,0"; "10,0"].

(** The dataframe decoded from given data lines. *)
Definition frame_of (lines : list (list string)) : DataFrame :=
  mkDataFrame declaration_header (map (map Str) lines).

(** The file as every read attempt decodes it. *)
Definition file_of (present : bool) (lines : list (list string)) : File :=
  mkFile present (fun _ => Ok (frame_of lines)) (Ok (declaration_header :: lines)).

(** What a query for a reference row finds in the database [db]. *)
Definition lookup_ref (t : table) (db : Store) (v : cell) : option RefRow :=
  find (fun r => sql_eq (Str (ref_key r)) v) (get_refs t db).

(** What the duplicate check finds in the database [db]. *)
Definition lookup_decl (db : Store) (c : cell) (sac_id : Z) (d : cell)
  : option DeclaracionImportacion :=
  find (natural_key_matches c sac_id d) (declaraciones_importacion db).

(** The keys of [keys] that have no row in table [t] of [db]. *)
Definition new_keys (t : table) (db : Store) (keys : list string) : list string :=
  filter (fun key => match lookup_ref t db (Str key) with
                     | Some _ => false
                     | None => true
                     end) keys.

(** One of the five reference labels is carried by more than one column. *)
Definition repeated_reference (df : DataFrame) : bool :=
  existsb (repeated_label (columns df)) required_columns.

(** The reference rows one block of [_load_master_data] adds. *)
Definition category_pending (df : DataFrame) (name : string) (t : table) (db : Store)
  : list pending_obj :=
  if has_column (columns df) name
  then map (PRef t) (new_keys t db (unique (dropna (column df name))))
  else [].

(** The reference rows [_load_master_data] adds for [df] on [db]. *)
Definition master_pending (df : DataFrame) (db : Store) : list pending_obj :=
  (category_pending df "aduana" Aduana db
   ++ category_pending df "pais" Pais db
   ++ category_pending df "tipo_regimen" TipoRegimen db
   ++ category_pending df "tipo_unidad_medida" UnidadMedida db
   ++ category_pending df "sac" CodigoSAC db)%list.

(** The fate of one row in [_load_declarations]. *)
Inductive row_result : Type :=
| Staged (d : DeclaracionImportacion)
| Skipped
| Rejected.

(** The fate of [row] when the database holds [db]. *)
Definition classify (labels : list string) (row : list cell) (db : Store) : row_result :=
  if negb (forallb (has_column labels) required_columns) then Rejected
  else
    match (v_aduana <- row_get labels row "aduana" ;;
           v_pais <- row_get labels row "pais" ;;
           v_regimen <- row_get labels row "tipo_regimen" ;;
           v_unidad <- row_get labels row "tipo_unidad_medida" ;;
           v_sac <- row_get labels row "sac" ;;
           match lookup_ref Aduana db v_aduana, lookup_ref Pais db v_pais,
                 lookup_ref TipoRegimen db v_regimen,
                 lookup_ref UnidadMedida db v_unidad,
                 lookup_ref CodigoSAC db (Str (cell_str v_sac)) with
           | Some aduana, Some pais, Some regimen, Some unidad, Some sac =>
               match (v <- row_get labels row "fecha_declaracion" ;; _parse_date v) with
               | Raise _ => Ok Rejected
               | Ok fecha =>
                   v_correlativo <- row_get labels row "correlativo" ;;
                   v_descripcion <- row_get labels row "descripcion" ;;
                   match lookup_decl db v_correlativo (ref_id sac) v_descripcion with
                   | Some _ => Ok Skipped
                   | None =>
                       match build_declaracion labels row fecha
                                               aduana pais regimen unidad sac with
                       | Ok declaracion => Ok (Staged declaracion)
                       | Raise _ => Ok Rejected
                       end
                   end
               end
           | _, _, _, _, _ => Ok Rejected
           end) with
    | Ok r => r
    | Raise _ => Rejected
    end.

(** The counters after a row of the given fate. *)
Definition apply_result (c : counts) (r : row_result) : counts :=
  match r with
  | Staged _ => count_success c
  | Skipped => c
  | Rejected => count_error c
  end.

(** The object a row of the given fate hands to [Session.add]. *)
Definition staged_of (r : row_result) : list pending_obj :=
  match r with
  | Staged d => [PDecl d]
  | _ => []
  end.

(** The objects the loop of [_load_declarations] stages on [db]. *)
Definition staged_rows (labels : list string) (rs : list (list cell)) (db : Store)
  : list pending_obj :=
  flat_map (fun row => staged_of (classify labels row db)) rs.

(** The counters at the end of the loop of [_load_declarations]. *)
Definition final_counts (labels : list string) (rs : list (list cell)) (db : Store)
           (c : counts) : counts :=
  fold_left (fun c row => apply_result c (classify labels row db)) rs c.

(** Two declarations with one natural key. *)
Definition same_key (d d' : DeclaracionImportacion) : Prop :=
  correlativo d' = correlativo d
  /\ codigo_sac_id d' = codigo_sac_id d
  /\ descripcion d' = descripcion d.

(** The fate, on the database a load has produced, of a row that had
    fate [r] in that load. *)
Definition settled (r : row_result) : row_result :=
  match r with
  | Staged _ => Skipped
  | Skipped => Skipped
  | Rejected => Rejected
  end.

(** How many rows of [rs] are rejected on [db]. *)
Definition rejected_count (labels : list string) (rs : list (list cell)) (db : Store)
  : nat :=
  List.length (filter (fun row => match classify labels row db with
                                  | Rejected => true
                                  | _ => false
                                  end) rs).

(* ================================================================== *)
(** * Definitions used in the further statements *)

(** The column of the file that feeds each reference table in
    [_load_master_data]. *)
Definition category_of (t : table) : string :=
  match t with
  | Aduana => "aduana"
  | Pais => "pais"
  | TipoRegimen => "tipo_regimen"
  | UnidadMedida => "tipo_unidad_medida"
  | CodigoSAC => "sac"
  end.

(** A declaration without its surrogate id. *)
Definition forget_id (d : DeclaracionImportacion) : DeclaracionImportacion :=
  mkDecl None (correlativo d) (fecha_declaracion d) (tipo_cambio_dolar d)
         (descripcion d) (cantidad_fraccion d) (tasa_dai d) (valor_dai d)
         (valor_cif_usd d) (tasa_cif_cantidad_fraccion d)
         (aduana_id d) (pais_id d) (tipo_regimen_id d) (unidad_medida_id d)
         (codigo_sac_id d).

(** The declarations the loop of [_load_declarations] stages on [db]. *)
Definition staged_decls (labels : list string) (rs : list (list cell)) (db : Store)
  : list DeclaracionImportacion :=
  flat_map (fun row => match classify labels row db with
                       | Staged d => [d]
                       | _ => []
                       end) rs.

(** The value [v] names a row of table [t] whose id is [id]. *)
Definition resolves (t : table) (db : Store) (v : cell) (id : Z) : Prop :=
  exists r, In r (get_refs t db) /\ Str (ref_key r) = v /\ ref_id r = id.

(** The float column [name] of [row] converts to [x]. *)
Definition float_field (labels : list string) (row : list cell) (name : string)
           (x : pyfloat) : Prop :=
  exists v, row_get labels row name = Ok v /\ _safe_float_conversion v = Ok x.

(** The record [d] holds what [row] says: its texts, its date, its six
    numbers, and the ids of the reference rows its five names resolve to
    in [db]. *)
Definition reflects (labels : list string) (row : list cell) (db : Store)
           (d : DeclaracionImportacion) : Prop :=
  (exists v, row_get labels row "aduana" = Ok v
             /\ resolves Aduana db v (aduana_id d))
  /\ (exists v, row_get labels row "pais" = Ok v
                /\ resolves Pais db v (pais_id d))
  /\ (exists v, row_get labels row "tipo_regimen" = Ok v
                /\ resolves TipoRegimen db v (tipo_regimen_id d))
  /\ (exists v, row_get labels row "tipo_unidad_medida" = Ok v
                /\ resolves UnidadMedida db v (unidad_medida_id d))
  /\ (exists v, row_get labels row "sac" = Ok v
                /\ resolves CodigoSAC db (Str (cell_str v)) (codigo_sac_id d))
  /\ (exists v, row_get labels row "fecha_declaracion" = Ok v
                /\ _parse_date v = Ok (fecha_declaracion d))
  /\ row_get labels row "correlativo" = Ok (correlativo d)
  /\ row_get labels row "descripcion" = Ok (descripcion d)
  /\ float_field labels row "tipo_cambio_dolar" (tipo_cambio_dolar d)
  /\ float_field labels row "cantidad_fraccion" (cantidad_fraccion d)
  /\ float_field labels row "tasa_dai" (tasa_dai d)
  /\ float_field labels row "valor_dai" (valor_dai d)
  /\ float_field labels row "valor_cif_uds" (valor_cif_usd d)
  /\ float_field labels row "tasa_cif_cantidad_fraccion" (tasa_cif_cantidad_fraccion d).

(** The constraints models.py puts on a reference table: primary key and
    unique natural key. *)
Definition table_ok (l : list RefRow) : Prop :=
  NoDup (map ref_id l) /\ NoDup (map ref_key l).

(** The foreign key [id] points to a row of table [t]. *)
Definition fk_ok (t : table) (db : Store) (id : Z) : Prop :=
  exists r, In r (get_refs t db) /\ ref_id r = id.

(** The five foreign keys of a declaration point to rows. *)
Definition fks_ok (db : Store) (d : DeclaracionImportacion) : Prop :=
  fk_ok Aduana db (aduana_id d)
  /\ fk_ok Pais db (pais_id d)
  /\ fk_ok TipoRegimen db (tipo_regimen_id d)
  /\ fk_ok UnidadMedida db (unidad_medida_id d)
  /\ fk_ok CodigoSAC db (codigo_sac_id d).

(** The constraints models.py puts on a row of the fact table. *)
Definition decl_ok (db : Store) (d : DeclaracionImportacion) : Prop :=
  decl_id d <> None
  /\ isna (correlativo d) = false
  /\ isna (descripcion d) = false
  /\ fks_ok db d.

(** A database that satisfies the constraints of models.py. *)
Definition store_ok (db : Store) : Prop :=
  (forall t, table_ok (get_refs t db))
  /\ NoDup (decl_ids (declaraciones_importacion db))
  /\ (forall d, In d (declaraciones_importacion db) -> decl_ok db d).

(** A database holding the reference rows of [caballos_line] and no
    declaration. *)
Definition caballos_references : Store :=
  mkStore [mkRef 1 "PuertoX"] [mkRef 1 "CountryY"] [mkRef 1 "Import"]
          [mkRef 1 "KG"] [mkRef 1 "0101.21.00"] [].

(** The row of [caballos_line] with its correlativo missing. *)
Definition caballos_without_correlativo : DataFrame :=
  mkDataFrame declaration_header
              [[Str "PuertoX"; Str "CountryY"; Str "Import"; Str "KG";
                Str "0101.21.00"; NA; Str "01/02/23"; Str "7,85"; Str "Caballos";
                Str "10,0"; Str "5,0"; Str "2,5"; Str "100,0"; Str "10,0"]].

(** The line of [caballos_line] with the text "nan" as its DAI rate. *)
Definition caballos_nan_line : list string :=
  ["PuertoX"; "CountryY"; "Import"; "KG"; "0101.21.00"; "COR001";
   "01/02/23"; "7,85"; "Caballos"; "10,0"; "nan"; "2,5"; "100,0"; "10,0"].

(** The columns of the file that [_load_declarations] converts to
    floats. *)
Definition float_columns : list string :=
  ["tipo_cambio_dolar"; "cantidad_fraccion"; "tasa_dai"; "valor_dai";
   "valor_cif_uds"; "tasa_cif_cantidad_fraccion"].

(** The database after the two passes have loaded [caballos_line] into an
    empty one. *)
Definition loaded_caballos : Store :=
  snd (run_load_passes (frame_of [caballos_line]) empty_store).

(** A second data line, of the same SAC code under another correlativo. *)
Definition yeguas_line : list string :=
  ["PuertoX"; "CountryY"; "Import"; "KG"; "0101.21.00"; "COR002";
   "01/02/23"; "7,85"; "Yeguas"; "10,0"; "5,0"; "2,5"; "100,0"; "10,0"].

(* ================================================================== *)
(** * main.py: the query endpoints *)

(** schemas.py: [DeclaracionResponse] *)
Record DeclaracionResponse : Type := mkResponse {
  resp_id : Z;
  resp_correlativo : string;
  resp_fecha_declaracion : date;
  resp_tipo_cambio_dolar : pyfloat;
  resp_descripcion : string;
  resp_cantidad_fraccion : pyfloat;
  resp_tasa_dai : pyfloat;
  resp_valor_dai : pyfloat;
  resp_valor_cif_usd : pyfloat;
  resp_tasa_cif_cantidad_fraccion : pyfloat;
  resp_aduana_nombre : string;
  resp_pais_nombre : string;
  resp_tipo_regimen_nombre : string;
  resp_unidad_medida_nombre : string;
  resp_codigo_sac : string
}.

(** What comes out of an endpoint: the value it returns, the
    [HTTPException] it raises, or another exception that escapes it. *)
Inductive http (A : Type) : Type :=
| Returned (a : A)
| HTTPException (status_code : Z) (detail : string)
| Unhandled (e : exn).
Arguments Returned {A} a.
Arguments HTTPException {A} status_code detail.
Arguments Unhandled {A} e.

(** [decl.aduana], [decl.pais], ...: the many-to-one relationship loads
    the row whose primary key is the foreign key, or [None]. *)
Definition related (t : table) (db : Store) (id : Z) : option RefRow :=
  find (fun r => ref_id r =? id) (get_refs t db).

(** [decl.aduana.nombre], ..., [decl.codigo_sac.codigo] *)
Definition related_key (t : table) (db : Store) (id : Z) : result string :=
  match related t db id with
  | Some r => Ok (ref_key r)
  | None => Raise (AttributeError "'NoneType' object has no attribute")
  end.

(** pydantic's check of a field declared [str] *)
Definition validate_str (v : cell) : result string :=
  match v with
  | Str s => Ok s
  | NA => Raise (ValueError "validation error: input should be a valid string")
  end.

(** pydantic's check of a field declared [int] *)
Definition validate_int (v : option Z) : result Z :=
  match v with
  | Some z => Ok z
  | None => Raise (ValueError "validation error: input should be a valid integer")
  end.

(** [DeclaracionResponse(id=decl.id, ..., codigo_sac=decl.codigo_sac.codigo)]:
    the arguments are evaluated first, the five related rows among them,
    then the model validates its fields. *)
Definition build_response (db : Store) (decl : DeclaracionImportacion)
  : result DeclaracionResponse :=
  aduana_nombre <- related_key Aduana db (aduana_id decl) ;;
  pais_nombre <- related_key Pais db (pais_id decl) ;;
  tipo_regimen_nombre <- related_key TipoRegimen db (tipo_regimen_id decl) ;;
  unidad_medida_nombre <- related_key UnidadMedida db (unidad_medida_id decl) ;;
  codigo_sac <- related_key CodigoSAC db (codigo_sac_id decl) ;;
  id <- validate_int (decl_id decl) ;;
  v_correlativo <- validate_str (correlativo decl) ;;
  v_descripcion <- validate_str (descripcion decl) ;;
  Ok (mkResponse id v_correlativo (fecha_declaracion decl) (tipo_cambio_dolar decl)
                 v_descripcion (cantidad_fraccion decl) (tasa_dai decl)
                 (valor_dai decl) (valor_cif_usd decl)
                 (tasa_cif_cantidad_fraccion decl)
                 aduana_nombre pais_nombre tipo_regimen_nombre
                 unidad_medida_nombre codigo_sac).

(** [for decl in declaraciones: result.append(DeclaracionResponse(...))] *)
Fixpoint build_responses (db : Store) (declaraciones : list DeclaracionImportacion)
  : result (list DeclaracionResponse) :=
  match declaraciones with
  | [] => Ok []
  | decl :: rest =>
      r <- build_response db decl ;;
      rs <- build_responses db rest ;;
      Ok (r :: rs)
  end.

Definition respond (declaraciones : result (list DeclaracionResponse))
  : http (list DeclaracionResponse) :=
  match declaraciones with
  | Ok l => Returned l
  | Raise e => Unhandled e
  end.


(** [get_importaciones_por_correlativo] *)
Definition get_importaciones_por_correlativo (wanted : string) (db : Store)
  : http (list DeclaracionResponse) :=
  let declaraciones :=
    filter (fun d => sql_eq (correlativo d) (Str wanted))
           (declaraciones_importacion db) in
  match declaraciones with
  | [] => HTTPException 404 ("No se encontraron importaciones para el correlativo "
                             ++ wanted)
  | _ => respond (build_responses db declaraciones)
  end.




(** The row of table [t] with primary key [id] has the natural key [name]. *)
Definition names (t : table) (db : Store) (id : Z) (name : string) : Prop :=
  exists r, In r (get_refs t db) /\ ref_id r = id /\ ref_key r = name.

(** The response [resp] shows the declaration [d] of the database [db]:
    its own columns, and the names of the five rows it refers to. *)
Definition response_of (db : Store) (d : DeclaracionImportacion)
           (resp : DeclaracionResponse) : Prop :=
  decl_id d = Some (resp_id resp)
  /\ correlativo d = Str (resp_correlativo resp)
  /\ fecha_declaracion d = resp_fecha_declaracion resp
  /\ tipo_cambio_dolar d = resp_tipo_cambio_dolar resp
  /\ descripcion d = Str (resp_descripcion resp)
  /\ cantidad_fraccion d = resp_cantidad_fraccion resp
  /\ tasa_dai d = resp_tasa_dai resp
  /\ valor_dai d = resp_valor_dai resp
  /\ valor_cif_usd d = resp_valor_cif_usd resp
  /\ tasa_cif_cantidad_fraccion d = resp_tasa_cif_cantidad_fraccion resp
  /\ names Aduana db (aduana_id d) (resp_aduana_nombre resp)
  /\ names Pais db (pais_id d) (resp_pais_nombre resp)
  /\ names TipoRegimen db (tipo_regimen_id d) (resp_tipo_regimen_nombre resp)
  /\ names UnidadMedida db (unidad_medida_id d) (resp_unidad_medida_nombre resp)
  /\ names CodigoSAC db (codigo_sac_id d) (resp_codigo_sac resp).

(** The declarations whose correlativo is [wanted]. *)
Definition with_correlativo (wanted : string) (db : Store)
  : list DeclaracionImportacion :=
  filter (fun d => sql_eq (correlativo d) (Str wanted)) (declaraciones_importacion db).

(** [lifespan], up to its [yield]: [create_tables] runs [create_all] on
    the [Base] of database.py, on which no model is declared, so it
    creates no table and touches no row; the loader runs when the file is
    there, and its result is only printed. *)
Definition lifespan (f : File) (db : Store) : result unit * Store :=
  if path_exists f then
    let (result, db') := run_load_csv_data f db in
    match result with
    | Ok _ => (Ok tt, db')
    | Raise e => (Raise e, db')
    end
  else (Ok tt, db).

(* ================================================================== *)
(** * csv_loader.py: the diagnosis *)

(** The diagnosis only prints.  Its output is kept here, one constructor
    per [print] of [_diagnose_csv_issues], each with the values the
    message is formatted from. *)
Inductive printed : Type :=
| Diagnosing
| FirstBytes (raw_data : list Byte.byte)
| LineColumns (line_num : nat) (col_count : Z)
| TotalLines (line_count : Z)
| Distribution (col_counts : list (Z * Z))
| MostCommon (most_common_cols : Z)
| DiagnosisError (e : exn).

(** The file as the diagnosis reads it: its bytes in binary mode, or the
    exception [open] raises; then the lines that iterating it in text
    mode yields, and the exception that ends the iteration early, if any
    (a sequence of bytes that is not UTF-8). *)
Record TextFile : Type := mkTextFile {
  file_bytes : result (list Byte.byte);
  text_lines : list string;
  text_failure : option exn
}.

(** A dict with integer keys and values, in insertion order:
    [d.get(k, default)] and [d[k] = v]. *)
Fixpoint dict_get (d : list (Z * Z)) (k default : Z) : Z :=
  match d with
  | [] => default
  | (k', v) :: rest => if k' =? k then v else dict_get rest k default
  end.

Fixpoint dict_set (d : list (Z * Z)) (k v : Z) : list (Z * Z) :=
  match d with
  | [] => [(k, v)]
  | (k', v') :: rest =>
      if k' =? k then (k', v) :: rest else (k', v') :: dict_set rest k v
  end.

(** [max(iterable, key=d.get)] after its first item: a later item
    replaces the best one only when its count is greater. *)
Fixpoint max_from (d : list (Z * Z)) (best : Z) (rest : list Z) : Z :=
  match rest with
  | [] => best
  | k :: rest' =>
      if dict_get d best 0 <? dict_get d k 0
      then max_from d k rest'
      else max_from d best rest'
  end.

(** [max(col_counts, key=col_counts.get)]: over the keys, in insertion
    order. *)
Definition max_key (d : list (Z * Z)) : result Z :=
  match map fst d with
  | [] => Raise (ValueError "max() arg is an empty sequence")
  | k :: rest => Ok (max_from d k rest)
  end.

Record diag_state : Type := mk_diag_state {
  diag_line_count : Z;
  diag_col_counts : list (Z * Z);
  diag_printed : list printed
}.

(** One iteration of [for line_num, line in enumerate(file, 1)]. *)
Definition diag_step (st : diag_state) (line_num : nat) (line : string)
  : diag_state :=
  let line_count := diag_line_count st + 1 in
  let col_count := Z.of_nat (count_char ";" line) + 1 in
  let col_counts :=
    dict_set (diag_col_counts st) col_count
             (dict_get (diag_col_counts st) col_count 0 + 1) in
  mk_diag_state line_count col_counts
                (if (line_num <=? 10)%nat
                 then (diag_printed st ++ [LineColumns line_num col_count])%list
                 else diag_printed st).

Fixpoint diag_loop (st : diag_state) (line_num : nat) (lines : list string)
  : diag_state :=
  match lines with
  | [] => st
  | line :: rest => diag_loop (diag_step st line_num line) (S line_num) rest
  end.

(** [CSVLoader._diagnose_csv_issues]: every exception is caught and
    printed; the method returns [None]. *)
Definition _diagnose_csv_issues (f : TextFile) : list printed :=
  Diagnosing ::
  match file_bytes f with
  | Raise e => [DiagnosisError e]
  | Ok content =>
      let raw_data := firstn 1000 content in
      let st := diag_loop (mk_diag_state 0 [] []) 1 (text_lines f) in
      (FirstBytes (firstn 100 raw_data) :: diag_printed st)
        ++ match text_failure f with
           | Some e => [DiagnosisError e]
           | None =>
               TotalLines (diag_line_count st)
               :: Distribution (diag_col_counts st)
               :: match max_key (diag_col_counts st) with
                  | Ok most_common_cols => [MostCommon most_common_cols]
                  | Raise e => [DiagnosisError e]
                  end
           end
  end.

(** [diagnose_csv_file] *)
Definition diagnose_csv_file (f : TextFile) : list printed :=
  _diagnose_csv_issues f.

(** The number of columns the diagnosis sees in a line. *)
Definition columns_of (line : string) : Z := Z.of_nat (count_char ";" line) + 1.

(** How many of [lines] have [k] columns. *)
Definition occurrences (k : Z) (lines : list string) : Z :=
  Z.of_nat (List.length (filter (fun line => columns_of line =? k) lines)).

(** What the loop of the diagnosis keeps true, [seen] being the lines read
    so far. *)
Definition counted (st : diag_state) (seen : list string) : Prop :=
  diag_line_count st = Z.of_nat (List.length seen)
  /\ (forall k, dict_get (diag_col_counts st) k 0 = occurrences k seen)
  /\ (forall k, In k (map fst (diag_col_counts st)) <-> 0 < occurrences k seen)
  /\ NoDup (map fst (diag_col_counts st))
  /\ fold_right Z.add 0 (map snd (diag_col_counts st))
     = Z.of_nat (List.length seen)
  /\ (forall p, In p (diag_printed st) -> exists n c, p = LineColumns n c).

(** A readable file with the given lines. *)
Definition text_file_of (lines : list string) : TextFile :=
  mkTextFile (Ok (list_byte_of_string (String.concat "" lines))) lines None.

(* ================================================================== *)
(** * The embedding on concrete inputs *)

Example py_int_examples :
  py_int " +1_0 " = Ok 10
  /\ py_int "-5" = Ok (-5)
  /\ py_int "007" = Ok 7
  /\ (exists e, py_int "1__0" = Raise e)
  /\ (exists e, py_int "" = Raise e)
  /\ (exists e, py_int (String (ascii_of_nat 31) "03") = Raise e).
Proof. repeat split; try reflexivity; eexists; reflexivity. Qed.

Example parse_date_examples :
  _parse_date (Str " 2023-02-28 ") = Ok (mkdate 2023 2 28)
  /\ _parse_date (Str "29/02/2024") = Ok (mkdate 2024 2 29)
  /\ _parse_date (Str "1/2/1999") = Ok (mkdate 1999 2 1)
  /\ _parse_date (Str "29/02/2023") = Raise (ValueError "date value out of range")
  /\ (exists m, _parse_date (Str "2023-13-08") = Raise (ValueError m))
  /\ (exists m, _parse_date (Str "1/2/99999999999") = Raise (OverflowError m))
  /\ (exists m, _parse_date (Str "1/2") = Raise (ValueError m))
  /\ (exists m, _parse_date NA = Raise (ValueError m)).
Proof. repeat split; try reflexivity; eexists; reflexivity. Qed.

Example py_float_examples :
  py_float " -1_0.5e-1 " = Ok (FFinite (-4728779608739021 # 4503599627370496))
  /\ py_float "5." = Ok (FFinite (5 # 1))
  /\ py_float ".5" = Ok (FFinite (1 # 2))
  /\ py_float "InF" = Ok (FInf false)
  /\ py_float "1e309" = Ok (FInf false)
  /\ py_float "-1e-400" = Ok float_zero
  /\ py_float "9007199254740993" = Ok (FFinite (9007199254740992 # 1))
  /\ py_float "0.00" = Ok float_zero
  /\ (exists e, py_float "." = Raise e)
  /\ (exists e, py_float "1.234.56" = Raise e)
  /\ (exists e, py_float (String (ascii_of_nat 31) "7.5") = Raise e).
Proof. repeat split; try (vm_compute; reflexivity); eexists; vm_compute; reflexivity. Qed.

Example line_loop_example :
  line_loop line_state0 1
            [["a"; "b"; "c"]; ["1"; "2"; "3"; "4"; "5"]; ["1"]; []; ["x"; "y"; "z"]]
  = mk_line_state (Some ["a"; "b"; "c"]) 3
                  [["1"; "2"; "3;4;5"]; ["1"; ""; ""]; [""; ""; ""]; ["x"; "y"; "z"]]
                  [2; 3; 4]%nat.
Proof. reflexivity. Qed.

Example load_passes_example :
  exists db,
    run_load_passes (frame_of [caballos_line]) empty_store = (Ok (1%nat, 0%nat), db)
    /\ aduanas db = [mkRef 1 "PuertoX"]
    /\ paises db = [mkRef 1 "CountryY"]
    /\ tipos_regimen db = [mkRef 1 "Import"]
    /\ unidades_medida db = [mkRef 1 "KG"]
    /\ codigos_sac db = [mkRef 1 "0101.21.00"]
    /\ map fecha_declaracion (declaraciones_importacion db) = [mkdate 2023 2 1]
    /\ map tipo_cambio_dolar (declaraciones_importacion db)
       = [FFinite (4419157134357299 # 562949953421312)].
Proof. eexists. split; [vm_compute; reflexivity|]. repeat split. Qed.

(* ================================================================== *)
(** * Properties of the field normalizers *)

Section StringFacts.

Lemma split_without_sep (sep : ascii) (s : string) :
  contains sep s = false -> split sep s = [s].
Proof.
  induction s as [|c r IH]; simpl; intros H; [reflexivity|].
  apply orb_false_elim in H as [Hc Hr].
  rewrite Hc, (IH Hr). reflexivity.
Qed.

Lemma is_digit_cases (c : ascii) :
  is_digit c = true ->
  In c ["0"; "1"; "2"; "3"; "4"; "5"; "6"; "7"; "8"; "9"]%char.
Proof.
  destruct c as [[] [] [] [] [] [] [] []]; cbv; intros H;
    try discriminate H; tauto.
Qed.

Lemma py_int_two_digits (c1 c2 : ascii) :
  is_digit c1 = true -> is_digit c2 = true ->
  py_int (String c1 (String c2 EmptyString))
  = Ok (10 * digit_val c1 + digit_val c2).
Proof.
  intros H1 H2.
  apply is_digit_cases in H1. apply is_digit_cases in H2.
  simpl in H1, H2.
  repeat (destruct H1 as [<-|H1]); try contradiction;
    repeat (destruct H2 as [<-|H2]); try contradiction; reflexivity.
Qed.

Lemma days_in_month_le_31 (y m : Z) : days_in_month y m <= 31.
Proof.
  unfold days_in_month.
  destruct (m =? 2); [destruct (is_leap y); lia|].
  destruct ((m =? 4) || (m =? 6) || (m =? 9) || (m =? 11)); lia.
Qed.

Lemma valid_ymd_fits (y m d : Z) :
  valid_ymd y m d = true ->
  fits_c_int y && fits_c_int m && fits_c_int d = true.
Proof.
  unfold valid_ymd, fits_c_int. intros H.
  pose proof (days_in_month_le_31 y m).
  repeat (apply andb_prop in H as [H ?]).
  repeat (apply andb_true_intro; split); lia.
Qed.

Lemma datetime_date_valid (y m d : Z) :
  valid_ymd y m d = true -> datetime_date y m d = Ok (mkdate y m d).
Proof.
  intros H. unfold datetime_date.
  rewrite (valid_ymd_fits _ _ _ H). simpl. rewrite H. reflexivity.
Qed.

End StringFacts.

(** C7. A date text of the form D/M/Y whose year is written with two
    digits [y] parses to the year [1900 + y] when [y >= 51] and to
    [2000 + y] otherwise, with the day and month as written, whenever
    these make a calendar date. *)
Theorem parse_date_two_digit_year
        (s d m : string) (c1 c2 : ascii) (dv mv : Z) :
  split "/" (strip s) = [d; m; String c1 (String c2 EmptyString)] ->
  is_digit c1 = true -> is_digit c2 = true ->
  py_int d = Ok dv -> py_int m = Ok mv ->
  valid_ymd (pivot_year (10 * digit_val c1 + digit_val c2)) mv dv = true ->
  _parse_date (Str s)
  = Ok (mkdate (pivot_year (10 * digit_val c1 + digit_val c2)) mv dv).
Proof.
  intros Hsplit H1 H2 Hd Hm Hvalid.
  unfold _parse_date. simpl isna. simpl cell_str. simpl orb.
  destruct (String.eqb (strip s) "") eqn:Hblank.
  { apply String.eqb_eq in Hblank. rewrite Hblank in Hsplit. discriminate. }
  destruct (contains "/" (strip s)) eqn:Hslash.
  2:{ rewrite (split_without_sep _ _ Hslash) in Hsplit. discriminate. }
  rewrite Hsplit. cbn [String.length Nat.eqb].
  rewrite (py_int_two_digits _ _ H1 H2). cbn [bind].
  set (y := 10 * digit_val c1 + digit_val c2) in *.
  assert (Hy : (if 50 <? y then Ok (1900 + y) else Ok (2000 + y))
               = @Ok Z (pivot_year y)).
  { unfold pivot_year. destruct (Z.ltb_spec 50 y), (Z.leb_spec 51 y);
      try reflexivity; lia. }
  rewrite Hy, Hm, Hd. cbn [bind].
  apply datetime_date_valid, Hvalid.
Qed.

Lemma parse_date_two_digit_year_witness :
  _parse_date (Str "15/03/49") = Ok (mkdate 2049 3 15)
  /\ _parse_date (Str "15/03/51") = Ok (mkdate 1951 3 15)
  /\ _parse_date (Str "15/03/50") = Ok (mkdate 2050 3 15).
Proof.
  split; [|split].
  - apply (parse_date_two_digit_year "15/03/49" "15" "03" "4" "9" 15 3); reflexivity.
  - apply (parse_date_two_digit_year "15/03/51" "15" "03" "5" "1" 15 3); reflexivity.
  - apply (parse_date_two_digit_year "15/03/50" "15" "03" "5" "0" 15 3); reflexivity.
Defined.

Section ParseDateOutcomes.

Lemma py_int_outcome (s : string) :
  match py_int s with
  | Ok _ => True
  | Raise e => is_ValueError e = true
  end.
Proof.
  unfold py_int. destruct (split_sign (num_strip s)) as [neg body].
  destruct (digitpart false body) as [ds|]; simpl; auto.
  destruct (int_max_str_digits <? Z.of_nat (List.length ds)); simpl; auto.
Qed.

Lemma datetime_date_outcome (y m d : Z) :
  match datetime_date y m d with
  | Ok dt => valid_date dt = true
  | Raise e => is_ValueError e || is_OverflowError e = true
  end.
Proof.
  unfold datetime_date.
  destruct (negb (fits_c_int y && fits_c_int m && fits_c_int d)); [reflexivity|].
  destruct (valid_ymd y m d) eqn:H; [exact H | reflexivity].
Qed.

Lemma strptime_Ymd_outcome (s : string) :
  match strptime_Ymd s with
  | Ok dt => valid_date dt = true
  | Raise e => is_ValueError e = true
  end.
Proof.
  unfold strptime_Ymd.
  destruct (match_Ymd s) as [[[[y m] d] rest]|]; [|reflexivity].
  destruct rest; [|reflexivity].
  destruct (valid_ymd y m d) eqn:H; [exact H | reflexivity].
Qed.

(** The D/M/Y branch once the three parts are known. *)
Lemma dmy_outcome (d m y : string) :
  match (yv <- (if (String.length y =? 2)%nat
                then (v <- py_int y ;;
                      if 50 <? v then Ok (1900 + v) else Ok (2000 + v))
                else py_int y) ;;
         mv <- py_int m ;;
         dv <- py_int d ;;
         datetime_date yv mv dv) with
  | Ok dt => valid_date dt = true
  | Raise e => is_ValueError e || is_OverflowError e = true
  end.
Proof.
  assert (Hy : forall r : result Z,
             match r with Ok _ => True | Raise e => is_ValueError e = true end ->
             forall k : Z -> result date,
               (forall v, match k v with
                          | Ok dt => valid_date dt = true
                          | Raise e => is_ValueError e || is_OverflowError e = true
                          end) ->
               match bind r k with
               | Ok dt => valid_date dt = true
               | Raise e => is_ValueError e || is_OverflowError e = true
               end).
  { intros [v|e] Hr k Hk; simpl; [apply Hk | rewrite Hr; reflexivity]. }
  apply Hy.
  - destruct (String.length y =? 2)%nat; [|apply py_int_outcome].
    pose proof (py_int_outcome y) as H. destruct (py_int y) as [v|e]; simpl; [|exact H].
    destruct (50 <? v); exact I.
  - intros yv. apply Hy; [apply py_int_outcome|].
    intros mv. apply Hy; [apply py_int_outcome|].
    intros dv. apply datetime_date_outcome.
Qed.

End ParseDateOutcomes.

(** C6, as the code has it.  [_parse_date] is a pure function that, for
    every raw value, either returns a calendar date or raises: it has no
    default and no validity flag.  A date is returned only for a text that
    is not blank and holds a ['/'] or a ['-']; every other input raises
    ValueError (OverflowError is possible only in the D/M/Y form, for a
    number beyond the C int range). *)
Theorem parse_date_returns_or_raises (v : cell) :
  match _parse_date v with
  | Ok d =>
      valid_date d = true
      /\ isna v = false
      /\ strip (cell_str v) <> EmptyString
      /\ contains "/" (strip (cell_str v)) || contains "-" (strip (cell_str v)) = true
  | Raise e =>
      is_ValueError e
      || (is_OverflowError e && contains "/" (strip (cell_str v))) = true
  end.
Proof.
  unfold _parse_date.
  destruct (isna v) eqn:Hna; [reflexivity|].
  destruct (String.eqb (strip (cell_str v)) "") eqn:Hblank; [reflexivity|].
  simpl orb. cbv iota.
  apply String.eqb_neq in Hblank.
  destruct (contains "/" (strip (cell_str v))) eqn:Hslash.
  - destruct (split "/" (strip (cell_str v))) as [|d [|m [|y [|? ?]]]];
      try reflexivity.
    pose proof (dmy_outcome d m y) as H.
    match goal with
    | |- match ?X with _ => _ end =>
        match type of H with
        | match ?Y with _ => _ end => change X with Y; destruct Y as [dt|e]
        end
    end.
    + repeat split; auto.
    + rewrite andb_true_r. exact H.
  - destruct (contains "-" (strip (cell_str v))) eqn:Hdash; [|reflexivity].
    pose proof (strptime_Ymd_outcome (strip (cell_str v))) as H.
    destruct (strptime_Ymd (strip (cell_str v))) as [dt|e].
    + repeat split; auto.
    + rewrite H. reflexivity.
Qed.

(** The claim as the spec words it fails: blank and unrecognised texts make
    [_parse_date] raise, no date is returned for them. *)
Lemma parse_date_raises_on_blank :
  _parse_date (Str "") = Raise (ValueError "Fecha vacia")
  /\ _parse_date (Str "   ") = Raise (ValueError "Fecha vacia")
  /\ _parse_date (Str "ayer")
     = Raise (ValueError "Formato de fecha no reconocido: ayer")
  /\ ~ (forall s : string, exists d : date, _parse_date (Str s) = Ok d).
Proof.
  split; [reflexivity|]. split; [reflexivity|]. split; [reflexivity|].
  intros H. destruct (H "") as [d Hd]. discriminate Hd.
Qed.

Section FloatFacts.

Lemma replace_idempotent (a b : ascii) (s : string) :
  Ascii.eqb b a = false -> replace a b (replace a b s) = replace a b s.
Proof.
  intros Hba. induction s as [|c r IH]; simpl; [reflexivity|].
  rewrite IH. destruct (Ascii.eqb c a) eqn:Hc; [rewrite Hba | rewrite Hc];
    reflexivity.
Qed.

Lemma is_space_replace (a b c : ascii) :
  is_space a = false -> is_space b = false ->
  is_space (if Ascii.eqb c a then b else c) = is_space c.
Proof.
  intros Ha Hb. destruct (Ascii.eqb c a) eqn:Hc; [|reflexivity].
  apply Ascii.eqb_eq in Hc. subst c. congruence.
Qed.

Lemma lstrip_replace (a b : ascii) (s : string) :
  is_space a = false -> is_space b = false ->
  lstrip (replace a b s) = replace a b (lstrip s).
Proof.
  intros Ha Hb. induction s as [|c r IH]; simpl; [reflexivity|].
  rewrite (is_space_replace a b c Ha Hb).
  destruct (is_space c); [exact IH | reflexivity].
Qed.

Lemma rstrip_replace (a b : ascii) (s : string) :
  is_space a = false -> is_space b = false ->
  rstrip (replace a b s) = replace a b (rstrip s).
Proof.
  intros Ha Hb. induction s as [|c r IH]; simpl; [reflexivity|].
  rewrite IH, (is_space_replace a b c Ha Hb).
  destruct (rstrip r); simpl; [destruct (is_space c)|]; reflexivity.
Qed.

Lemma strip_replace (a b : ascii) (s : string) :
  is_space a = false -> is_space b = false ->
  strip (replace a b s) = replace a b (strip s).
Proof.
  intros Ha Hb. unfold strip.
  rewrite lstrip_replace, rstrip_replace by assumption. reflexivity.
Qed.

Lemma replace_empty (a b : ascii) (s : string) :
  replace a b s = EmptyString <-> s = EmptyString.
Proof. destruct s; simpl; split; intros H; (reflexivity || discriminate). Qed.

Lemma count_replace (a b : ascii) (s : string) :
  Ascii.eqb a b = false ->
  count_char b (replace a b s) = (count_char a s + count_char b s)%nat.
Proof.
  intros Hab. induction s as [|c r IH]; simpl; [reflexivity|].
  rewrite IH. destruct (Ascii.eqb c a) eqn:Hca.
  - apply Ascii.eqb_eq in Hca. subst c. rewrite Ascii.eqb_refl, Hab. lia.
  - destruct (Ascii.eqb c b); lia.
Qed.

Lemma count_lstrip (c : ascii) (s : string) :
  is_space c = false -> count_char c (lstrip s) = count_char c s.
Proof.
  intros Hc. induction s as [|d r IH]; simpl; [reflexivity|].
  destruct (is_space d) eqn:Hd; [|reflexivity].
  rewrite IH. destruct (Ascii.eqb d c) eqn:E; [|reflexivity].
  apply Ascii.eqb_eq in E. congruence.
Qed.

Lemma count_rstrip (c : ascii) (s : string) :
  is_space c = false -> count_char c (rstrip s) = count_char c s.
Proof.
  intros Hc. induction s as [|d r IH]; simpl; [reflexivity|].
  rewrite <- IH. destruct (rstrip r) eqn:Hr; simpl; [|reflexivity].
  destruct (is_space d) eqn:Hd; simpl; [|lia].
  destruct (Ascii.eqb d c) eqn:E; [|reflexivity].
  apply Ascii.eqb_eq in E. congruence.
Qed.

Lemma count_strip (c : ascii) (s : string) :
  is_space c = false -> count_char c (strip s) = count_char c s.
Proof.
  intros Hc. unfold strip. rewrite count_rstrip, count_lstrip by assumption.
  reflexivity.
Qed.

Lemma count_num_lstrip (c : ascii) (s : string) :
  is_num_space c = false -> count_char c (num_lstrip s) = count_char c s.
Proof.
  intros Hc. induction s as [|d r IH]; simpl; [reflexivity|].
  destruct (is_num_space d) eqn:Hd; [|reflexivity].
  rewrite IH. destruct (Ascii.eqb d c) eqn:E; [|reflexivity].
  apply Ascii.eqb_eq in E. congruence.
Qed.

Lemma count_num_rstrip (c : ascii) (s : string) :
  is_num_space c = false -> count_char c (num_rstrip s) = count_char c s.
Proof.
  intros Hc. induction s as [|d r IH]; simpl; [reflexivity|].
  rewrite <- IH. destruct (num_rstrip r) eqn:Hr; simpl; [|reflexivity].
  destruct (is_num_space d) eqn:Hd; simpl; [|lia].
  destruct (Ascii.eqb d c) eqn:E; [|reflexivity].
  apply Ascii.eqb_eq in E. congruence.
Qed.

Lemma count_num_strip (c : ascii) (s : string) :
  is_num_space c = false -> count_char c (num_strip s) = count_char c s.
Proof.
  intros Hc. unfold num_strip.
  rewrite count_num_rstrip, count_num_lstrip by assumption. reflexivity.
Qed.

Lemma count_split_sign (s : string) :
  count_char "." (snd (split_sign s)) = count_char "." s.
Proof.
  destruct s as [|c r]; [reflexivity|].
  destruct c as [[] [] [] [] [] [] [] []]; reflexivity.
Qed.

Lemma lower_char_dot (c : ascii) :
  Ascii.eqb (lower_char c) "." = Ascii.eqb c ".".
Proof. destruct c as [[] [] [] [] [] [] [] []]; reflexivity. Qed.

Lemma count_lower (s : string) :
  count_char "." (lower s) = count_char "." s.
Proof.
  induction s as [|c r IH]; simpl; [reflexivity|].
  rewrite lower_char_dot, IH. reflexivity.
Qed.

Lemma is_digit_not_dot (c : ascii) :
  is_digit c = true -> Ascii.eqb c "." = false.
Proof. destruct c as [[] [] [] [] [] [] [] []]; cbv; congruence. Qed.

Lemma digitpart_no_dot (s : string) :
  forall b ds, digitpart b s = Some ds -> count_char "." s = 0%nat.
Proof.
  induction s as [|c r IH]; intros b ds H; simpl in *; [reflexivity|].
  destruct (is_digit c) eqn:Hd.
  - rewrite (is_digit_not_dot c Hd).
    destruct (digitpart true r) eqn:Hr; [|discriminate]. apply (IH _ _ Hr).
  - destruct (Ascii.eqb c "_") eqn:Hu; [|discriminate].
    apply Ascii.eqb_eq in Hu. subst c.
    destruct b; [|discriminate]. simpl in H. apply (IH _ _ H).
Qed.

(** Dots on both sides of the character at which [split_first] cuts. *)
Lemma count_split_first (p : ascii -> bool) (b : bool) (s : string) :
  (forall x, p x = true -> Ascii.eqb x "." = b) ->
  count_char "." s
  = (count_char "." (fst (split_first p s))
     + match snd (split_first p s) with
       | Some r => (if b then 1 else 0) + count_char "." r
       | None => 0
       end)%nat.
Proof.
  intros Hp. induction s as [|c r IH]; simpl; [reflexivity|].
  destruct (p c) eqn:Hc; simpl.
  - rewrite (Hp c Hc). reflexivity.
  - destruct (split_first p r) as [a o]. simpl in *. rewrite IH. lia.
Qed.

Lemma split_first_prefix_clean (s : string) :
  count_char "." (fst (split_first is_dot s)) = 0%nat.
Proof.
  induction s as [|c r IH]; simpl; [reflexivity|].
  destruct (is_dot c) eqn:Hc; simpl; [reflexivity|].
  destruct (split_first is_dot r) as [a o]. simpl in *.
  unfold is_dot in Hc. rewrite Hc. exact IH.
Qed.

Lemma float_number_one_dot (s : string) (r : list Z * Z) :
  float_number s = Some r -> (count_char "." s <= 1)%nat.
Proof.
  unfold float_number. intros H.
  rewrite (count_split_first is_dot true s) by (intros x Hx; exact Hx).
  rewrite split_first_prefix_clean.
  destruct (split_first is_dot s) as [ip [fp|]]; simpl; [|lia].
  assert (Hfp : count_char "." fp = 0%nat).
  { destruct fp as [|c fp']; [reflexivity|].
    destruct ip.
    - destruct (digitpart false (String c fp')) eqn:E; [|discriminate].
      apply (digitpart_no_dot _ _ _ E).
    - destruct (digitpart false (String a ip)); [|discriminate].
      destruct (digitpart false (String c fp')) eqn:E; [|discriminate].
      apply (digitpart_no_dot _ _ _ E). }
  lia.
Qed.

Lemma float_exponent_no_dot (e : string) (z : Z) :
  float_exponent (Some e) = Some z -> count_char "." e = 0%nat.
Proof.
  unfold float_exponent. intros H.
  rewrite <- count_split_sign.
  destruct (split_sign e) as [neg body]. simpl.
  destruct (digitpart false body) eqn:E; [|discriminate].
  apply (digitpart_no_dot _ _ _ E).
Qed.

Lemma float_literal_one_dot (s : string) (q : Q) :
  float_literal s = Some q -> (count_char "." s <= 1)%nat.
Proof.
  unfold float_literal. intros H.
  rewrite (count_split_first is_e false s).
  2:{ intros x Hx. unfold is_e in Hx.
      destruct x as [[] [] [] [] [] [] [] []]; cbv in Hx |- *; congruence. }
  destruct (split_first is_e s) as [mant oe]. simpl.
  destruct (float_number mant) as [[ds nfrac]|] eqn:Hm; [|discriminate].
  apply float_number_one_dot in Hm.
  destruct oe as [e|]; [|lia].
  destruct (float_exponent (Some e)) eqn:He; [|discriminate].
  apply float_exponent_no_dot in He. lia.
Qed.

(** A text that [float()] accepts holds at most one dot. *)
Lemma py_float_one_dot (s : string) (x : pyfloat) :
  py_float s = Ok x -> (count_char "." s <= 1)%nat.
Proof.
  unfold py_float. intros H.
  rewrite <- (count_num_strip "." s) by reflexivity.
  rewrite <- count_split_sign.
  destruct (split_sign (num_strip s)) as [neg body]. simpl.
  destruct (String.eqb (lower body) "inf" || String.eqb (lower body) "infinity")
           eqn:Hinf.
  { rewrite <- count_lower. apply orb_prop in Hinf as [E|E];
      apply String.eqb_eq in E; rewrite E; simpl; lia. }
  destruct (String.eqb (lower body) "nan") eqn:Hnan.
  { rewrite <- count_lower. apply String.eqb_eq in Hnan. rewrite Hnan.
    simpl; lia. }
  destruct (float_literal body) eqn:Hl; [|discriminate].
  apply (float_literal_one_dot _ _ Hl).
Qed.

Lemma py_float_raises_ValueError (s : string) (e : exn) :
  py_float s = Raise e -> is_ValueError e = true.
Proof.
  unfold py_float. destruct (split_sign (num_strip s)) as [neg body].
  destruct (String.eqb (lower body) "inf" || String.eqb (lower body) "infinity");
    [discriminate|].
  destruct (String.eqb (lower body) "nan"); [discriminate|].
  destruct (float_literal body); [discriminate|].
  intros H. injection H as <-. reflexivity.
Qed.

Lemma safe_float_conversion_unfold (v : cell) :
  _safe_float_conversion v
  = if isna v || String.eqb (strip (cell_str v)) "" then Ok float_zero
    else match py_float (replace "," "." (cell_str v)) with
         | Ok x => Ok x
         | Raise _ => Ok float_zero
         end.
Proof.
  unfold _safe_float_conversion, try_except.
  destruct (isna v || String.eqb (strip (cell_str v)) ""); [reflexivity|].
  destruct (py_float (replace "," "." (cell_str v))) as [x|e] eqn:H; [reflexivity|].
  rewrite (py_float_raises_ValueError _ _ H). reflexivity.
Qed.

End FloatFacts.

(** C10. [_safe_float_conversion] replaces every comma of its input with
    a dot before the float conversion and catches the failure of that
    conversion: a value that is not missing or blank converts to what
    [float()] gives for its text with dots for commas, and to 0.0 when
    [float()] raises.  So it never raises, whatever it is given; and a
    text holding two or more separators (commas and dots together, as in
    "1,234.56" or "1.234,56") converts to 0.0. *)
Theorem safe_float_conversion_total_separators (v : cell) :
  _safe_float_conversion v
  = (if isna v || String.eqb (strip (cell_str v)) "" then Ok float_zero
     else match py_float (replace "," "." (cell_str v)) with
          | Ok x => Ok x
          | Raise _ => Ok float_zero
          end)
  /\ (exists x, _safe_float_conversion v = Ok x)
  /\ ((2 <= count_char "," (cell_str v) + count_char "." (cell_str v))%nat ->
      _safe_float_conversion v = Ok float_zero).
Proof.
  split; [apply safe_float_conversion_unfold|].
  rewrite safe_float_conversion_unfold.
  destruct (isna v || String.eqb (strip (cell_str v)) "").
  { split; [eexists; reflexivity | reflexivity]. }
  destruct (py_float (replace "," "." (cell_str v))) as [x|e] eqn:H.
  - split; [eexists; reflexivity|]. intros Hsep.
    apply py_float_one_dot in H. rewrite count_replace in H by reflexivity. lia.
  - split; [eexists; reflexivity | reflexivity].
Qed.

Lemma safe_float_conversion_total_separators_witness :
  _safe_float_conversion (Str "1,234.56") = Ok float_zero
  /\ _safe_float_conversion (Str "1.234,56") = Ok float_zero
  /\ _safe_float_conversion (Str "1,5") = Ok (FFinite (3 # 2))
  /\ py_float "1,5" = Raise (ValueError "could not convert string to float: 1,5").
Proof.
  split; [|split; [|split]].
  - apply (proj2 (proj2 (safe_float_conversion_total_separators (Str "1,234.56")))).
    simpl. lia.
  - apply (proj2 (proj2 (safe_float_conversion_total_separators (Str "1.234,56")))).
    simpl. lia.
  - rewrite (proj1 (safe_float_conversion_total_separators (Str "1,5"))).
    vm_compute. reflexivity.
  - vm_compute. reflexivity.
Defined.

(** C9, as the code has it.  [_safe_float_conversion] returns a bare
    float: a missing, blank or unparseable value gives 0.0, and every
    comma is read as a dot, so a text converts to exactly the float of the
    same text written with dots.  No validity flag comes with the value. *)
Theorem safe_float_conversion_comma_as_dot (s : string) :
  _safe_float_conversion (Str s)
  = _safe_float_conversion (Str (replace "," "." s))
  /\ (strip s = EmptyString \/ (exists e, py_float (replace "," "." s) = Raise e) ->
      _safe_float_conversion (Str s) = Ok float_zero)
  /\ _safe_float_conversion NA = Ok float_zero.
Proof.
  split; [|split; [|reflexivity]].
  - rewrite !safe_float_conversion_unfold. simpl isna. simpl cell_str. simpl orb.
    rewrite strip_replace by reflexivity.
    rewrite replace_idempotent by reflexivity.
    destruct (String.eqb (strip s) "") eqn:E.
    + apply String.eqb_eq in E. rewrite E. reflexivity.
    + apply String.eqb_neq in E.
      destruct (String.eqb (replace "," "." (strip s)) "") eqn:E'; [|reflexivity].
      apply String.eqb_eq, replace_empty in E'. contradiction.
  - rewrite safe_float_conversion_unfold. simpl isna. simpl cell_str. simpl orb.
    intros [Hblank | [e He]].
    + rewrite Hblank. reflexivity.
    + rewrite He. destruct (String.eqb (strip s) ""); reflexivity.
Qed.

Lemma safe_float_conversion_comma_as_dot_witness :
  _safe_float_conversion (Str "1234,56") = _safe_float_conversion (Str "1234.56")
  /\ _safe_float_conversion (Str "1234,56")
     = Ok (FFinite (2714826150374277 # 2199023255552))
  /\ _safe_float_conversion (Str "12a") = Ok float_zero.
Proof.
  split; [|split].
  - exact (proj1 (safe_float_conversion_comma_as_dot "1234,56")).
  - vm_compute. reflexivity.
  - apply (proj1 (proj2 (safe_float_conversion_comma_as_dot "12a"))).
    right. eexists. reflexivity.
Defined.

(** The claim as the spec words it fails: the value returned for a blank
    or unparseable text is the plain float 0.0, the very value returned
    for the text "0.0"; nothing in the result marks it as invalid. *)
Lemma safe_float_conversion_no_flag :
  _safe_float_conversion (Str "") = Ok float_zero
  /\ _safe_float_conversion (Str "abc") = Ok float_zero
  /\ _safe_float_conversion (Str "0.0") = Ok float_zero
  /\ ~ (exists valid : result pyfloat -> bool,
           valid (_safe_float_conversion (Str "abc")) = false
           /\ valid (_safe_float_conversion (Str "0.0")) = true).
Proof.
  split; [reflexivity|]. split; [reflexivity|]. split; [reflexivity|].
  intros [valid [H1 H2]].
  change (_safe_float_conversion (Str "abc")) with (@Ok pyfloat float_zero) in H1.
  change (_safe_float_conversion (Str "0.0")) with (@Ok pyfloat float_zero) in H2.
  congruence.
Qed.

(* ================================================================== *)
(** * Properties of the row decoder *)

Section LineRepair.

Variable k : nat.
Hypothesis k_pos : (1 <= k)%nat.

Lemma repair_row_length (row : list string) :
  List.length (repair_row k row) = k.
Proof.
  unfold repair_row.
  destruct (Nat.eqb_spec (List.length row) k) as [E|E]; [exact E|].
  destruct (Nat.ltb_spec k (List.length row)) as [L|L].
  - rewrite length_app, length_firstn. simpl. lia.
  - rewrite length_app, repeat_length. lia.
Qed.

Lemma line_step_data (st : line_state) (ln : nat) (row : list string) :
  ln <> 1%nat ->
  expected_cols st = Z.of_nat k ->
  line_step st ln row
  = mk_line_state (headers st) (Z.of_nat k)
      (valid_rows st ++ [repair_row k row])
      (if (List.length row =? k)%nat then problematic_lines st
       else problematic_lines st ++ [ln]).
Proof.
  intros Hln Hk. unfold line_step, repair_row.
  destruct (Nat.eqb_spec ln 1) as [?|_]; [contradiction|].
  rewrite Hk.
  destruct (Z.eqb_spec (Z.of_nat (List.length row)) (Z.of_nat k)) as [E|E];
    destruct (Nat.eqb_spec (List.length row) k) as [E'|E']; try lia;
    [reflexivity|].
  destruct (Z.ltb_spec (Z.of_nat k) (Z.of_nat (List.length row))) as [L|L];
    destruct (Nat.ltb_spec k (List.length row)) as [L'|L']; try lia.
  - unfold slice_to, slice_from.
    destruct (Z.ltb_spec (Z.of_nat k - 1) 0) as [?|_]; [lia|].
    replace (Z.to_nat (Z.of_nat k - 1)) with (k - 1)%nat by lia.
    reflexivity.
  - destruct (Z.ltb_spec (Z.of_nat (List.length row)) (Z.of_nat k)) as [_|?];
      [|lia].
    replace (Z.to_nat (Z.of_nat k - Z.of_nat (List.length row)))
      with (k - List.length row)%nat by lia.
    reflexivity.
Qed.

Lemma line_loop_data (data : list (list string)) :
  forall (st : line_state) (ln : nat),
    (2 <= ln)%nat ->
    expected_cols st = Z.of_nat k ->
    let st' := line_loop st ln data in
    headers st' = headers st
    /\ valid_rows st' = (valid_rows st ++ map (repair_row k) data)%list
    /\ (forall x, In x (problematic_lines st) -> In x (problematic_lines st'))
    /\ (forall i row, nth_error data i = Some row ->
                      List.length row <> k ->
                      In (ln + i)%nat (problematic_lines st')).
Proof.
  induction data as [|row rest IH]; intros st ln Hln Hk; simpl.
  - rewrite app_nil_r. repeat split; auto.
    intros [|i] row H; discriminate H.
  - rewrite line_step_data by (assumption || lia).
    match goal with
    | |- context [line_loop ?s _ rest] => set (st1 := s)
    end.
    destruct (IH st1 (S ln)) as (Hh & Hv & Hp & Hi); [lia | reflexivity |].
    repeat split.
    + rewrite Hh. reflexivity.
    + rewrite Hv. simpl. rewrite <- app_assoc. reflexivity.
    + intros x Hx. apply Hp. simpl.
      destruct (List.length row =? k)%nat; [exact Hx|].
      apply in_or_app. left. exact Hx.
    + intros [|i] r Hr Hlen; simpl in Hr.
      * injection Hr as ->. apply Hp. simpl.
        destruct (Nat.eqb_spec (List.length r) k) as [?|_]; [contradiction|].
        apply in_or_app. right. left. lia.
      * replace (ln + S i)%nat with (S ln + i)%nat by lia.
        apply (Hi i r Hr Hlen).
Qed.

Lemma max_width_uniform (data : list (list string)) :
  data <> [] ->
  (forall r, In r data -> List.length r = k) ->
  max_width data = k.
Proof.
  induction data as [|r rest IH]; intros Hne Hall; [contradiction|].
  simpl. rewrite (Hall r (or_introl eq_refl)).
  destruct rest as [|r' rest']; [simpl; lia|].
  rewrite IH; [lia | discriminate |].
  intros x Hx. apply Hall. right. exact Hx.
Qed.

Lemma pd_DataFrame_uniform (data : list (list string)) (labels : list string) :
  List.length labels = k ->
  (forall r, In r data -> List.length r = k) ->
  pd_DataFrame data (Some labels) = Ok (mkDataFrame labels (map (map Str) data)).
Proof.
  intros Hl Hall. destruct data as [|r rest]; [reflexivity|].
  unfold pd_DataFrame.
  rewrite (max_width_uniform (r :: rest)) by (discriminate || assumption).
  rewrite Hl, Nat.eqb_refl. f_equal. f_equal.
  apply map_ext_in. intros x Hx. unfold pad_row.
  rewrite (Hall x Hx), Nat.sub_diag. simpl. apply app_nil_r.
Qed.

End LineRepair.

(** C8. Under the line-repair strategy, with a header of [k] fields
    ([k >= 1]), a data line whose field count [n] differs from [k] is
    never dropped: it yields, at its own position, a row of [k] fields.
    When [n > k] the first [k - 1] fields are unchanged and the [k]-th is
    the excess fields joined with the delimiter; when [n < k] the line is
    padded with [k - n] empty fields.  Its line number is recorded, and
    the row is in the dataframe the strategy returns. *)
Theorem line_repair_retains_lines
        (f : File) (header : list string) (data : list (list string))
        (i : nat) (row : list string) :
  csv_reader f = Ok (header :: data) ->
  header <> [] ->
  nth_error data i = Some row ->
  List.length row <> List.length header ->
  let k := List.length header in
  let n := List.length row in
  let st := line_loop line_state0 1 (header :: data) in
  exists repaired : list string,
    nth_error (valid_rows st) i = Some repaired
    /\ List.length (valid_rows st) = List.length data
    /\ In (i + 2)%nat (problematic_lines st)
    /\ List.length repaired = k
    /\ ((k < n)%nat ->
        firstn (k - 1) repaired = firstn (k - 1) row
        /\ nth_error repaired (k - 1) = Some (join ";" (skipn (k - 1) row)))
    /\ ((n < k)%nat -> repaired = (row ++ repeat EmptyString (k - n))%list)
    /\ exists df, _read_csv_line_by_line f = Ok df
                  /\ columns df = header
                  /\ nth_error (rows df) i = Some (map Str repaired).
Proof.
  intros Hreader Hne Hrow Hlen k n st.
  assert (Hk : (1 <= k)%nat).
  { subst k. destruct header; [contradiction | simpl; lia]. }
  assert (Hst : st = line_loop (mk_line_state (Some header) (Z.of_nat k) [] [])
                               2 data) by reflexivity.
  destruct (line_loop_data k Hk data
              (mk_line_state (Some header) (Z.of_nat k) [] []) 2)
    as (Hh & Hv & _ & Hi); [lia | reflexivity |].
  rewrite <- Hst in Hh, Hv, Hi. simpl in Hh, Hv.
  exists (repair_row k row).
  assert (Hnth : nth_error (valid_rows st) i = Some (repair_row k row)).
  { rewrite Hv. apply map_nth_error. exact Hrow. }
  split; [exact Hnth|].
  split; [rewrite Hv; apply length_map|].
  split; [replace (i + 2)%nat with (2 + i)%nat by lia; apply (Hi i row Hrow Hlen)|].
  split; [apply repair_row_length; exact Hk|].
  split; [|split].
  - intros Hlt. unfold repair_row.
    destruct (Nat.eqb_spec (List.length row) k) as [?|_]; [contradiction|].
    destruct (Nat.ltb_spec k (List.length row)) as [_|?]; [|fold n in H; lia].
    assert (Hfl : List.length (firstn (k - 1) row) = (k - 1)%nat).
    { rewrite length_firstn. fold n. lia. }
    split.
    + rewrite firstn_app, Hfl, Nat.sub_diag. simpl. rewrite app_nil_r.
      rewrite firstn_firstn. f_equal. lia.
    + rewrite nth_error_app2 by lia. rewrite Hfl, Nat.sub_diag. reflexivity.
  - intros Hlt. unfold repair_row.
    destruct (Nat.eqb_spec (List.length row) k) as [?|_]; [contradiction|].
    destruct (Nat.ltb_spec k (List.length row)) as [?|_]; [fold n in H; lia|].
    reflexivity.
  - exists (mkDataFrame header (map (map Str) (valid_rows st))).
    split; [|split; [reflexivity|]].
    + unfold _read_csv_line_by_line. rewrite Hreader. cbn [bind].
      fold st. rewrite Hh.
      apply (pd_DataFrame_uniform k Hk); [reflexivity|].
      intros r Hr. rewrite Hv in Hr. apply in_map_iff in Hr as (x & <- & _).
      apply repair_row_length. exact Hk.
    + simpl. apply map_nth_error. exact Hnth.
Qed.

Lemma line_repair_retains_lines_witness :
  let f := mkFile true (fun _ => Raise (OtherException "unused"))
                  (Ok [["a"; "b"; "c"]; ["1"; "2"; "x"; "y"]; ["7"]]) in
  exists df, _read_csv_line_by_line f = Ok df
             /\ nth_error (rows df) 0 = Some [Str "1"; Str "2"; Str "x;y"]
             /\ nth_error (rows df) 1 = Some [Str "7"; Str ""; Str ""].
Proof.
  intros f.
  destruct (line_repair_retains_lines f ["a"; "b"; "c"]
              [["1"; "2"; "x"; "y"]; ["7"]] 0 ["1"; "2"; "x"; "y"])
    as (r1 & Hn1 & _ & _ & _ & _ & _ & df & Hdf & _ & Hr1);
    [reflexivity | discriminate | reflexivity | simpl; lia |].
  exists df. split; [exact Hdf|]. split.
  - rewrite Hr1. injection Hn1 as <-. reflexivity.
  - injection Hdf as <-. reflexivity.
Defined.

(** A first line without any field: [expected_cols] is 0, the slices
    [row[:-1]] and [row[-1:]] give the line back as it is, and the frame
    cannot be built on the empty list of labels. *)
Remark line_repair_empty_header :
  valid_rows (line_loop line_state0 1 [[]; ["1"; "2"]]) = [["1"; "2"]]
  /\ exists e, _read_csv_line_by_line
                 (mkFile true (fun _ => Raise (OtherException "unused"))
                         (Ok [[]; ["1"; "2"]])) = Raise e.
Proof. split; [reflexivity | eexists; reflexivity]. Qed.

Section Decoder.

Lemma read_csv_robust_first_returned (f : File) :
  _read_csv_robust f = first_returned (strategies f).
Proof.
  unfold _read_csv_robust, strategies, encodings. simpl.
  destruct (pd_read_csv f kwargs_basic); [reflexivity|].
  destruct (pd_read_csv f kwargs_robust); [reflexivity|].
  destruct (_read_csv_line_by_line f); reflexivity.
Qed.

Lemma first_returned_spec (attempts : list (result DataFrame)) :
  match first_returned attempts with
  | Some df =>
      exists i, nth_error attempts i = Some (Ok df)
                /\ forall j, (j < i)%nat ->
                             exists e, nth_error attempts j = Some (Raise e)
  | None => forall r, In r attempts -> exists e, r = Raise e
  end.
Proof.
  induction attempts as [|[df|e] rest IH]; simpl.
  - intros r [].
  - exists 0%nat. split; [reflexivity|]. intros j Hj. lia.
  - destruct (first_returned rest) as [df|].
    + destruct IH as (i & Hi & Hbefore). exists (S i). split; [exact Hi|].
      intros [|j] Hj; [exists e; reflexivity|]. apply Hbefore. lia.
    + intros r [<-|Hr]; [exists e; reflexivity | apply IH, Hr].
Qed.

Lemma read_csv_robust_some (f : File) (df : DataFrame) :
  In (Ok df) (strategies f) -> exists df', _read_csv_robust f = Some df'.
Proof.
  intros Hin. rewrite read_csv_robust_first_returned.
  pose proof (first_returned_spec (strategies f)) as H.
  destruct (first_returned (strategies f)) as [df'|]; [exists df'; reflexivity|].
  destruct (H _ Hin) as [e He]. discriminate He.
Qed.

End Decoder.

(** C5, as the code has it.  [_read_csv_robust] makes its attempts in the
    fixed order of [strategies] (basic read, robust read, line-by-line
    repair, then the encodings utf-8, latin-1, cp1252, iso-8859-1) and
    returns the dataframe of the first attempt that does not raise,
    however many rows it has; results are never merged, and a later attempt
    is made only when every earlier one raised. *)
Theorem read_csv_robust_stops_at_first_return (f : File) :
  match _read_csv_robust f with
  | Some df =>
      exists i, nth_error (strategies f) i = Some (Ok df)
                /\ forall j, (j < i)%nat ->
                             exists e, nth_error (strategies f) j = Some (Raise e)
  | None => forall r, In r (strategies f) -> exists e, r = Raise e
  end.
Proof.
  rewrite read_csv_robust_first_returned. apply first_returned_spec.
Qed.

(** The claim as the spec words it fails: the decoder stops at an attempt
    that decoded no data row although a later one decodes a row. *)
Lemma read_csv_robust_stops_at_empty_frame :
  nth_error (strategies header_and_blank_line) 0 = Some (Ok (mkDataFrame ["a"; "b"] []))
  /\ nth_error (strategies header_and_blank_line) 2
     = Some (Ok (mkDataFrame ["a"; "b"] [[Str ""; Str ""]]))
  /\ _read_csv_robust header_and_blank_line = Some (mkDataFrame ["a"; "b"] [])
  /\ _read_csv_robust header_and_blank_line
     <> spec_first_nonempty (strategies header_and_blank_line).
Proof.
  split; [reflexivity|]. split; [reflexivity|]. split; [reflexivity|].
  discriminate.
Qed.

(* ================================================================== *)
(** * Properties of the load entry point *)

Section EntryPoint.

Lemma load_csv_data_existing_file (f : File) (s : Session) (df : DataFrame) :
  path_exists f = true ->
  _read_csv_robust f = Some df ->
  load_csv_data f s
  = (Ok missing_method_result, mkSession (autoflush s) (store s) []).
Proof.
  intros Hexists Hread. unfold load_csv_data, finallyM, tryM.
  rewrite Hexists, Hread. reflexivity.
Qed.

Lemma load_csv_data_missing_file (f : File) (s : Session) :
  path_exists f = false ->
  load_csv_data f s = (Ok PyNone, mkSession (autoflush s) (store s) []).
Proof.
  intros Hexists. unfold load_csv_data, finallyM, tryM.
  rewrite Hexists. reflexivity.
Qed.

Lemma load_csv_data_unreadable_file (f : File) (s : Session) :
  path_exists f = true ->
  _read_csv_robust f = None ->
  load_csv_data f s
  = (Ok (PyDict [("status", PStr "error");
                 ("message", PStr "No se pudo leer el archivo CSV")]),
     mkSession (autoflush s) (store s) []).
Proof.
  intros Hexists Hread. unfold load_csv_data, finallyM, tryM.
  rewrite Hexists, Hread. reflexivity.
Qed.

(** No exception escapes [load_csv_data], and it leaves the database as
    it found it. *)
Lemma load_csv_data_never_raises (f : File) (db : Store) :
  exists v, run_load_csv_data f db = (Ok v, db).
Proof.
  unfold run_load_csv_data.
  destruct (path_exists f) eqn:Hexists.
  - destruct (_read_csv_robust f) as [df|] eqn:Hread.
    + rewrite (load_csv_data_existing_file f _ df Hexists Hread).
      eexists; reflexivity.
    + rewrite (load_csv_data_unreadable_file f _ Hexists Hread).
      eexists; reflexivity.
  - rewrite (load_csv_data_missing_file f _ Hexists). eexists; reflexivity.
Qed.

End EntryPoint.

(** C1. Whenever the CSV file exists and at least one read attempt returns
    a dataframe, [load_csv_data] returns the error result carrying the
    AttributeError of the undefined [_clean_existing_data], and the
    database is left as it was: no reference row and no declaration is
    loaded. *)
Theorem load_csv_data_always_errors (f : File) (db : Store) (df : DataFrame) :
  path_exists f = true ->
  In (Ok df) (strategies f) ->
  run_load_csv_data f db = (Ok missing_method_result, db).
Proof.
  intros Hexists Hin.
  destruct (read_csv_robust_some f df Hin) as [df' Hread].
  unfold run_load_csv_data.
  rewrite (load_csv_data_existing_file f _ df' Hexists Hread). reflexivity.
Qed.

Lemma load_csv_data_always_errors_witness :
  run_load_csv_data (file_of true [caballos_line]) empty_store
  = (Ok missing_method_result, empty_store).
Proof.
  apply (load_csv_data_always_errors _ _ (frame_of [caballos_line])).
  - reflexivity.
  - simpl. left. reflexivity.
Defined.

(** C4, where the code departs from it.  For a path that does not exist
    [load_csv_data] takes the sample-data fallback, whose body is empty:
    the caller receives [None], not a status record. *)
Theorem load_csv_data_missing_file_returns_None :
  run_load_csv_data (file_of false []) empty_store = (Ok PyNone, empty_store)
  /\ forall status message,
      Ok PyNone <> Ok (PyDict [("status", status); ("message", message)]).
Proof.
  split.
  - unfold run_load_csv_data.
    rewrite load_csv_data_missing_file by reflexivity. reflexivity.
  - intros status message H. discriminate H.
Qed.

(** C3, where the code departs from it.  Two identical lines in one file:
    the duplicate check of the second line reads the database only, where
    the first line's record is not yet flushed, so both lines are staged
    and the fact table ends with two records of one natural key. *)
Theorem load_declarations_stages_duplicate_lines :
  exists d1 d2 db,
    run_load_passes (frame_of [caballos_line; caballos_line]) empty_store
    = (Ok (2%nat, 0%nat), db)
    /\ declaraciones_importacion db = [d1; d2]
    /\ correlativo d1 = correlativo d2
    /\ codigo_sac_id d1 = codigo_sac_id d2
    /\ descripcion d1 = descripcion d2
    /\ decl_id d1 = Some 1 /\ decl_id d2 = Some 2.
Proof.
  do 3 eexists. split; [vm_compute; reflexivity|].
  repeat split; reflexivity.
Qed.

(** With a session that flushes before each query the second line finds
    the first line's record and is skipped. *)
Remark autoflush_session_skips_duplicate_lines :
  exists s,
    load_passes (frame_of [caballos_line; caballos_line])
                (mkSession true empty_store [])
    = (Ok (1%nat, 0%nat), s)
    /\ List.length (declaraciones_importacion (store s)) = 1%nat.
Proof. eexists. split; [vm_compute; reflexivity | reflexivity]. Qed.

(* ================================================================== *)
(** * The loading passes without the session *)

Section SessionSteps.

Lemma bindM_lift {A B : Type} (r : result A) (k : A -> M B) (s : Session) :
  bindM (lift r) k s = match r with
                       | Ok a => k a s
                       | Raise e => (Raise e, s)
                       end.
Proof. destruct r; reflexivity. Qed.

Lemma query_ref_first_noflush (t : table) (v : cell) (s : Session) :
  autoflush s = false ->
  query_ref_first t v s = (Ok (lookup_ref t (store s) v), s).
Proof.
  intros H. unfold query_ref_first, bindM, before_query. rewrite H. reflexivity.
Qed.

Lemma bindM_query_ref {B : Type} (t : table) (v : cell) (k : option RefRow -> M B)
      (s : Session) :
  autoflush s = false ->
  bindM (query_ref_first t v) k s = k (lookup_ref t (store s) v) s.
Proof.
  intros H. unfold bindM at 1. rewrite (query_ref_first_noflush t v s H).
  reflexivity.
Qed.

Lemma bindM_query_decl {B : Type} (c : cell) (sac_id : Z) (d : cell)
      (k : option DeclaracionImportacion -> M B) (s : Session) :
  autoflush s = false ->
  bindM (query_decl_first c sac_id d) k s = k (lookup_decl (store s) c sac_id d) s.
Proof.
  intros H. unfold bindM at 1, query_decl_first, bindM, before_query.
  rewrite H. reflexivity.
Qed.

Lemma bindM_try_parse {B : Type} (r : result date) (k : option date -> M B)
      (s : Session) :
  bindM (tryM (bindM (lift r) (fun fecha => ret (Some fecha)))
              (fun _ => ret None)) k s
  = k (match r with Ok fecha => Some fecha | Raise _ => None end) s.
Proof. destruct r; reflexivity. Qed.

Lemma try_build (r : result DeclaracionImportacion) (c : counts) (s : Session) :
  tryM (bindM (lift r) (fun declaracion =>
                          bindM (add (PDecl declaracion))
                                (fun _ => ret (count_success c))))
       (fun _ => ret (count_error c)) s
  = match r with
    | Ok d => (Ok (count_success c),
               mkSession (autoflush s) (store s) (pending s ++ [PDecl d]))
    | Raise _ => (Ok (count_error c), s)
    end.
Proof. destruct r; reflexivity. Qed.

End SessionSteps.

Section PassesWithoutSession.

Variable db : Store.

Lemma load_row_classify (labels : list string) (row : list cell) (c : counts)
      (pend : list pending_obj) :
  load_row labels row c (mkSession false db pend)
  = (Ok (apply_result c (classify labels row db)),
     mkSession false db (pend ++ staged_of (classify labels row db))).
Proof.
  set (s := mkSession false db pend).
  assert (Hs : autoflush s = false) by reflexivity.
  assert (Hrej : (Ok (count_error c), s)
                 = (Ok (apply_result c Rejected),
                    mkSession false db (pend ++ staged_of Rejected))).
  { simpl. rewrite app_nil_r. reflexivity. }
  unfold load_row, classify.
  destruct (negb (forallb (has_column labels) required_columns)); [exact Hrej|].
  unfold tryM at 1.
  rewrite bindM_lift.
  destruct (row_get labels row "aduana") as [v_aduana|e]; [|exact Hrej].
  rewrite (bindM_query_ref _ _ _ _ Hs). rewrite bindM_lift. cbn [bind].
  destruct (row_get labels row "pais") as [v_pais|e]; [|exact Hrej].
  rewrite (bindM_query_ref _ _ _ _ Hs). rewrite bindM_lift. cbn [bind].
  destruct (row_get labels row "tipo_regimen") as [v_regimen|e]; [|exact Hrej].
  rewrite (bindM_query_ref _ _ _ _ Hs). rewrite bindM_lift. cbn [bind].
  destruct (row_get labels row "tipo_unidad_medida") as [v_unidad|e]; [|exact Hrej].
  rewrite (bindM_query_ref _ _ _ _ Hs). rewrite bindM_lift. cbn [bind].
  destruct (row_get labels row "sac") as [v_sac|e]; [|exact Hrej].
  rewrite (bindM_query_ref _ _ _ _ Hs). cbn [bind]. cbn [store s].
  destruct (lookup_ref Aduana db v_aduana) as [aduana|]; [|exact Hrej].
  destruct (lookup_ref Pais db v_pais) as [pais|]; [|exact Hrej].
  destruct (lookup_ref TipoRegimen db v_regimen) as [regimen|]; [|exact Hrej].
  destruct (lookup_ref UnidadMedida db v_unidad) as [unidad|]; [|exact Hrej].
  destruct (lookup_ref CodigoSAC db (Str (cell_str v_sac))) as [sac|]; [|exact Hrej].
  rewrite bindM_try_parse.
  destruct (v <- row_get labels row "fecha_declaracion";; _parse_date v)
    as [fecha|e]; [|exact Hrej].
  rewrite bindM_lift.
  destruct (row_get labels row "correlativo") as [v_correlativo|e]; [|exact Hrej].
  rewrite bindM_lift. cbn [bind].
  destruct (row_get labels row "descripcion") as [v_descripcion|e]; [|exact Hrej].
  rewrite (bindM_query_decl _ _ _ _ _ Hs). cbn [bind store s].
  destruct (lookup_decl db v_correlativo (ref_id sac) v_descripcion).
  { simpl. rewrite app_nil_r. reflexivity. }
  rewrite try_build.
  destruct (build_declaracion labels row fecha aduana pais regimen unidad sac);
    [reflexivity | exact Hrej].
Qed.

Lemma load_rows_classify (labels : list string) (rs : list (list cell)) :
  forall (c : counts) (pend : list pending_obj),
    load_rows labels rs c (mkSession false db pend)
    = (Ok (final_counts labels rs db c),
       mkSession false db (pend ++ staged_rows labels rs db)).
Proof.
  induction rs as [|row rest IH]; intros c pend; simpl.
  - rewrite app_nil_r. reflexivity.
  - unfold bindM at 1. rewrite load_row_classify, IH.
    unfold staged_rows. simpl. rewrite app_assoc. reflexivity.
Qed.

Lemma add_missing_refs_noflush (t : table) (keys : list string) :
  forall pend : list pending_obj,
    add_missing_refs t keys (mkSession false db pend)
    = (Ok tt, mkSession false db (pend ++ map (PRef t) (new_keys t db keys))).
Proof.
  induction keys as [|key rest IH]; intros pend; simpl.
  - rewrite app_nil_r. reflexivity.
  - rewrite bindM_query_ref by reflexivity. simpl store.
    destruct (lookup_ref t db (Str key)); unfold bindM at 1; simpl.
    + apply IH.
    + rewrite IH, <- app_assoc. reflexivity.
Qed.

Lemma load_category_noflush (df : DataFrame) (name : string) (t : table)
      (pend : list pending_obj) :
  load_category df name t (mkSession false db pend)
  = if has_column (columns df) name && repeated_label (columns df) name
    then (Raise (AttributeError "'DataFrame' object has no attribute 'unique'"),
          mkSession false db pend)
    else (Ok tt, mkSession false db (pend ++ category_pending df name t db)).
Proof.
  unfold load_category, category_pending.
  destruct (has_column (columns df) name); simpl.
  - destruct (repeated_label (columns df) name); [reflexivity|].
    apply add_missing_refs_noflush.
  - rewrite app_nil_r. reflexivity.
Qed.

Lemma commit_noflush (pend : list pending_obj) :
  commit (mkSession false db pend)
  = match insert_all pend db with
    | Ok db' => (Ok tt, mkSession false db' [])
    | Raise e => (Raise e, mkSession false db pend)
    end.
Proof. reflexivity. Qed.

Lemma missing_columns_spec (df : DataFrame) (l : list string) :
  match filter (fun col => negb (has_column (columns df) col)) l with
  | [] => forallb (has_column (columns df)) l = true
  | _ :: _ => forallb (has_column (columns df)) l = false
  end.
Proof.
  induction l as [|x l IH]; simpl; [reflexivity|].
  destruct (has_column (columns df) x); simpl; [exact IH | reflexivity].
Qed.

(** With every reference label carried by one column at most, the pass
    stages the missing reference rows and commits them. *)
Lemma load_master_data_noflush (df : DataFrame) (pend : list pending_obj) :
  repeated_reference df = false ->
  _load_master_data df (mkSession false db pend)
  = if forallb (has_column (columns df)) required_columns
    then match insert_all (pend ++ master_pending df db) db with
         | Ok db' => (Ok tt, mkSession false db' [])
         | Raise e => (Raise e, mkSession false db (pend ++ master_pending df db))
         end
    else (Ok tt, mkSession false db pend).
Proof.
  intros Hrep. unfold _load_master_data.
  pose proof (missing_columns_spec df required_columns) as Hf.
  destruct (filter (fun col => negb (has_column (columns df) col)) required_columns);
    rewrite Hf; [|reflexivity].
  unfold repeated_reference in Hrep. simpl in Hrep.
  repeat (apply orb_false_elim in Hrep as [? Hrep]).
  unfold bindM.
  repeat (rewrite load_category_noflush;
          match goal with
          | H : repeated_label _ _ = false |- _ => rewrite H; clear H
          end;
          rewrite andb_false_r; cbv beta iota).
  rewrite commit_noflush.
  unfold master_pending. rewrite <- !app_assoc. reflexivity.
Qed.

(** With the five reference labels present and one of them repeated, the
    pass raises before it commits anything. *)
Lemma load_master_data_repeated (df : DataFrame) (pend : list pending_obj) :
  forallb (has_column (columns df)) required_columns = true ->
  repeated_reference df = true ->
  exists pend',
    _load_master_data df (mkSession false db pend)
    = (Raise (AttributeError "'DataFrame' object has no attribute 'unique'"),
       mkSession false db pend').
Proof.
  intros Hcols Hrep. unfold _load_master_data.
  pose proof (missing_columns_spec df required_columns) as Hf.
  destruct (filter (fun col => negb (has_column (columns df) col)) required_columns);
    [|congruence].
  simpl in Hcols. repeat (apply andb_prop in Hcols as [? Hcols]).
  unfold repeated_reference in Hrep. simpl in Hrep. rewrite orb_false_r in Hrep.
  unfold bindM.
  repeat (rewrite load_category_noflush;
          match goal with
          | H : has_column _ _ = true |- _ => rewrite H; clear H
          end;
          cbn [andb];
          match goal with
          | |- context [repeated_label ?l ?n] =>
              destruct (repeated_label l n); [eexists; reflexivity|]
          end;
          cbv beta iota).
  discriminate Hrep.
Qed.

Lemma load_declarations_noflush (df : DataFrame) (pend : list pending_obj) :
  _load_declarations df (mkSession false db pend)
  = match insert_all (pend ++ staged_rows (columns df) (rows df) db) db with
    | Ok db' => (Ok (final_counts (columns df) (rows df) db (0%nat, 0%nat)),
                 mkSession false db' [])
    | Raise e => (Raise e,
                  mkSession false db (pend ++ staged_rows (columns df) (rows df) db))
    end.
Proof.
  unfold _load_declarations, bindM.
  rewrite load_rows_classify, commit_noflush.
  destruct (insert_all (pend ++ staged_rows (columns df) (rows df) db) db);
    reflexivity.
Qed.

End PassesWithoutSession.

(* ================================================================== *)
(** * Reloading a file that was already loaded *)

Section StoreFacts.

Lemma sql_eq_refl (a : string) : sql_eq (Str a) (Str a) = true.
Proof. apply String.eqb_refl. Qed.

Lemma find_append {A : Type} (p : A -> bool) (l l' : list A) :
  find p (l ++ l') = match find p l with
                     | Some x => Some x
                     | None => find p l'
                     end.
Proof.
  induction l as [|x l IH]; simpl; [reflexivity|].
  destruct (p x); [reflexivity | exact IH].
Qed.

Lemma get_set_declaraciones (t : table) (l : list DeclaracionImportacion) (db : Store) :
  get_refs t (set_declaraciones l db) = get_refs t db.
Proof. destruct t; reflexivity. Qed.

Lemma get_set_refs (t t' : table) (l : list RefRow) (db : Store) :
  get_refs t' (set_refs t l db) = l /\ t' = t
  \/ get_refs t' (set_refs t l db) = get_refs t' db /\ t' <> t.
Proof.
  destruct t, t'; simpl;
    (left; split; reflexivity) || (right; split; [reflexivity | discriminate]).
Qed.

(** A successful insert keeps every reference row. *)
Lemma insert_obj_keeps_refs (o : pending_obj) (db db' : Store) (t : table) (r : RefRow) :
  insert_obj o db = Ok db' -> In r (get_refs t db) -> In r (get_refs t db').
Proof.
  destruct o as [t0 key|d]; simpl.
  - destruct (existsb _ _); [discriminate|]. intros H. injection H as <-.
    intros Hr.
    destruct (get_set_refs t0 t
                (get_refs t0 db ++ [mkRef (next_id (map ref_id (get_refs t0 db))) key])
                db)
      as [[-> ->]|[-> _]]; [apply in_or_app; left|]; exact Hr.
  - destruct (isna (correlativo d) || isna (descripcion d) || has_nan d);
      [discriminate|].
    intros H. injection H as <-. rewrite get_set_declaraciones. auto.
Qed.

Lemma insert_all_keeps_refs (objs : list pending_obj) :
  forall (db db' : Store) (t : table) (r : RefRow),
    insert_all objs db = Ok db' -> In r (get_refs t db) -> In r (get_refs t db').
Proof.
  induction objs as [|o rest IH]; intros db db' t r; simpl.
  - intros H. injection H as <-. auto.
  - destruct (insert_obj o db) as [db1|e] eqn:Ho; simpl; [|discriminate].
    intros H Hr. apply (IH _ _ _ _ H). apply (insert_obj_keeps_refs _ _ _ _ _ Ho Hr).
Qed.

(** A reference row inserted with success is in its table. *)
Lemma insert_all_adds_refs (objs : list pending_obj) :
  forall (db db' : Store) (t : table) (key : string),
    insert_all objs db = Ok db' -> In (PRef t key) objs ->
    exists r, In r (get_refs t db') /\ ref_key r = key.
Proof.
  induction objs as [|o rest IH]; intros db db' t key; simpl; [intros _ []|].
  destruct (insert_obj o db) as [db1|e] eqn:Ho; simpl; [|discriminate].
  intros H [->|Hin]; [|apply (IH _ _ _ _ H Hin)].
  simpl in Ho. destruct (existsb _ _); [discriminate|]. injection Ho as <-.
  exists (mkRef (next_id (map ref_id (get_refs t db))) key). split; [|reflexivity].
  apply (insert_all_keeps_refs _ _ _ _ _ H).
  destruct (get_set_refs t t
              (get_refs t db ++ [mkRef (next_id (map ref_id (get_refs t db))) key])
              db)
    as [[-> _]|[_ Hne]]; [|contradiction].
  apply in_or_app. right. left. reflexivity.
Qed.

(** Inserting declarations leaves the reference tables alone, appends to
    the fact table, and stores the natural key of each one, which has no
    NULL in it. *)
Lemma insert_all_declarations (objs : list pending_obj) :
  forall db db' : Store,
    (forall o, In o objs -> exists d, o = PDecl d) ->
    insert_all objs db = Ok db' ->
    (forall t, get_refs t db' = get_refs t db)
    /\ (exists extra,
           declaraciones_importacion db'
           = (declaraciones_importacion db ++ extra)%list
           /\ (objs = [] -> extra = []))
    /\ (forall d, In (PDecl d) objs ->
                  isna (correlativo d) = false /\ isna (descripcion d) = false
                  /\ exists d', In d' (declaraciones_importacion db') /\ same_key d d').
Proof.
  induction objs as [|o rest IH]; intros db db' Hall; simpl.
  - intros H. injection H as <-. split; [reflexivity|]. split.
    + exists []. rewrite app_nil_r. auto.
    + intros d [].
  - destruct (insert_obj o db) as [db1|e] eqn:Ho; simpl; [|discriminate].
    intros H.
    destruct (IH db1 db' (fun o' Ho' => Hall o' (or_intror Ho')) H)
      as (Hrefs & (extra & Hextra & _) & Hdecl).
    destruct (Hall o (or_introl eq_refl)) as [d0 ->].
    simpl in Ho.
    destruct (isna (correlativo d0)) eqn:Hc; [discriminate|].
    destruct (isna (descripcion d0)) eqn:Hd; [discriminate|].
    destruct (has_nan d0); [discriminate|].
    simpl in Ho. injection Ho as <-.
    split; [|split].
    + intros t. rewrite Hrefs. apply get_set_declaraciones.
    + simpl in Hextra. rewrite <- app_assoc in Hextra.
      eexists. split; [exact Hextra | discriminate].
    + intros d [Hd0|Hin]; [|apply (Hdecl d Hin)].
      injection Hd0 as <-. split; [exact Hc|]. split; [exact Hd|].
      eexists. split.
      * rewrite Hextra. simpl. apply in_or_app. left. apply in_or_app. right.
        left. reflexivity.
      * repeat split.
Qed.

End StoreFacts.

Section BuildFacts.

Lemma bind_ok_inv {A B : Type} (m : result A) (k : A -> result B) (b : B) :
  bind m k = Ok b -> exists a, m = Ok a /\ k a = Ok b.
Proof. destruct m as [a|e]; simpl; [eauto | discriminate]. Qed.

Lemma safe_float_conversion_total (v : cell) :
  exists x, _safe_float_conversion v = Ok x.
Proof.
  rewrite safe_float_conversion_unfold.
  destruct (isna v || String.eqb (strip (cell_str v)) ""); [eauto|].
  destruct (py_float (replace "," "." (cell_str v))); eauto.
Qed.

Lemma row_get_any_row (labels : list string) (row row' : list cell)
      (name : string) (v : cell) :
  row_get labels row name = Ok v -> exists v', row_get labels row' name = Ok v'.
Proof.
  unfold row_get. destruct (index_of name labels); [|discriminate].
  intros _. destruct (nth_error row' n); eauto.
Qed.

Lemma float_field_any_row (labels : list string) (row row' : list cell)
      (name : string) (x : pyfloat) :
  (v <- row_get labels row name ;; _safe_float_conversion v) = Ok x ->
  exists x', (v <- row_get labels row' name ;; _safe_float_conversion v) = Ok x'.
Proof.
  intros H. apply bind_ok_inv in H as (v & Hv & _).
  destruct (row_get_any_row _ _ row' _ _ Hv) as [v' ->]. simpl.
  apply safe_float_conversion_total.
Qed.

(** Whether the object can be built depends on the labels only. *)
Lemma build_declaracion_any_row (labels : list string) (row row' : list cell)
      (fecha fecha' : date) (a p r u s a' p' r' u' s' : RefRow)
      (d : DeclaracionImportacion) :
  build_declaracion labels row fecha a p r u s = Ok d ->
  exists d', build_declaracion labels row' fecha' a' p' r' u' s' = Ok d'.
Proof.
  unfold build_declaracion. intros H.
  apply bind_ok_inv in H as (v1 & H1 & H).
  apply bind_ok_inv in H as (v2 & H2 & H).
  apply bind_ok_inv in H as (v3 & H3 & H).
  apply bind_ok_inv in H as (v4 & H4 & H).
  apply bind_ok_inv in H as (v5 & H5 & H).
  apply bind_ok_inv in H as (v6 & H6 & H).
  apply bind_ok_inv in H as (v7 & H7 & H).
  apply bind_ok_inv in H as (v8 & H8 & H).
  destruct (row_get_any_row _ _ row' _ _ H1) as [w1 ->].
  destruct (float_field_any_row _ _ row' _ _ H2) as [w2 ->].
  destruct (row_get_any_row _ _ row' _ _ H3) as [w3 ->].
  destruct (float_field_any_row _ _ row' _ _ H4) as [w4 ->].
  destruct (float_field_any_row _ _ row' _ _ H5) as [w5 ->].
  destruct (float_field_any_row _ _ row' _ _ H6) as [w6 ->].
  destruct (float_field_any_row _ _ row' _ _ H7) as [w7 ->].
  destruct (float_field_any_row _ _ row' _ _ H8) as [w8 ->].
  simpl. eauto.
Qed.

(** The natural key of the object built for a row. *)
Lemma build_declaracion_key (labels : list string) (row : list cell)
      (fecha : date) (a p r u s : RefRow) (d : DeclaracionImportacion) :
  build_declaracion labels row fecha a p r u s = Ok d ->
  row_get labels row "correlativo" = Ok (correlativo d)
  /\ row_get labels row "descripcion" = Ok (descripcion d)
  /\ codigo_sac_id d = ref_id s.
Proof.
  unfold build_declaracion. intros H.
  apply bind_ok_inv in H as (v1 & H1 & H).
  apply bind_ok_inv in H as (v2 & H2 & H).
  apply bind_ok_inv in H as (v3 & H3 & H).
  apply bind_ok_inv in H as (v4 & H4 & H).
  apply bind_ok_inv in H as (v5 & H5 & H).
  apply bind_ok_inv in H as (v6 & H6 & H).
  apply bind_ok_inv in H as (v7 & H7 & H).
  apply bind_ok_inv in H as (v8 & H8 & H).
  injection H as <-. simpl. auto.
Qed.

End BuildFacts.

Section Reload.

Variable labels : list string.
Variable rs : list (list cell).
Variables dbA dbB : Store.
Variable extra : list DeclaracionImportacion.

Hypothesis same_refs : forall t, get_refs t dbB = get_refs t dbA.
Hypothesis more_decls :
  declaraciones_importacion dbB = (declaraciones_importacion dbA ++ extra)%list.
Hypothesis staged_stored :
  forall row d, In row rs -> classify labels row dbA = Staged d ->
                isna (correlativo d) = false /\ isna (descripcion d) = false
                /\ exists d', In d' (declaraciones_importacion dbB) /\ same_key d d'.
Hypothesis extra_from_rows :
  extra = [] \/ exists row d, In row rs /\ classify labels row dbA = Staged d.

Lemma lookup_ref_same (t : table) (v : cell) :
  lookup_ref t dbB v = lookup_ref t dbA v.
Proof. unfold lookup_ref. rewrite same_refs. reflexivity. Qed.

Lemma classify_staged_inv (row : list cell) (d : DeclaracionImportacion) :
  classify labels row dbA = Staged d ->
  exists fecha a p r u s,
    build_declaracion labels row fecha a p r u s = Ok d.
Proof.
  unfold classify.
  destruct (negb (forallb (has_column labels) required_columns)); [discriminate|].
  destruct (row_get labels row "aduana") as [v1|]; [|discriminate].
  destruct (row_get labels row "pais") as [v2|]; [|discriminate].
  destruct (row_get labels row "tipo_regimen") as [v3|]; [|discriminate].
  destruct (row_get labels row "tipo_unidad_medida") as [v4|]; [|discriminate].
  destruct (row_get labels row "sac") as [v5|]; [|discriminate].
  cbn [bind].
  destruct (lookup_ref Aduana dbA v1) as [a|]; [|discriminate].
  destruct (lookup_ref Pais dbA v2) as [p|]; [|discriminate].
  destruct (lookup_ref TipoRegimen dbA v3) as [r|]; [|discriminate].
  destruct (lookup_ref UnidadMedida dbA v4) as [u|]; [|discriminate].
  destruct (lookup_ref CodigoSAC dbA (Str (cell_str v5))) as [s|]; [|discriminate].
  destruct (v <- row_get labels row "fecha_declaracion";; _parse_date v)
    as [fecha|]; [|discriminate].
  destruct (row_get labels row "correlativo") as [c|]; [|discriminate].
  destruct (row_get labels row "descripcion") as [dsc|]; [|discriminate].
  cbn [bind].
  destruct (lookup_decl dbA c (ref_id s) dsc); [discriminate|].
  destruct (build_declaracion labels row fecha a p r u s) as [decl|] eqn:Hb;
    [|discriminate].
  intros H. injection H as <-. eauto 10.
Qed.

(** On the database a load has produced, every row the load staged or
    skipped is skipped, and every row it rejected is rejected again. *)
Lemma classify_after_load (row : list cell) :
  In row rs ->
  classify labels row dbB = settled (classify labels row dbA).
Proof.
  intros Hrow.
  pose proof (staged_stored row) as Hstaged. specialize (fun d => Hstaged d Hrow).
  revert Hstaged.
  unfold classify.
  destruct (negb (forallb (has_column labels) required_columns)); [reflexivity|].
  destruct (row_get labels row "aduana") as [v1|]; [|reflexivity].
  destruct (row_get labels row "pais") as [v2|]; [|reflexivity].
  destruct (row_get labels row "tipo_regimen") as [v3|]; [|reflexivity].
  destruct (row_get labels row "tipo_unidad_medida") as [v4|]; [|reflexivity].
  destruct (row_get labels row "sac") as [v5|]; [|reflexivity].
  cbn [bind]. rewrite !lookup_ref_same.
  destruct (lookup_ref Aduana dbA v1) as [a|]; [|reflexivity].
  destruct (lookup_ref Pais dbA v2) as [p|]; [|reflexivity].
  destruct (lookup_ref TipoRegimen dbA v3) as [r|]; [|reflexivity].
  destruct (lookup_ref UnidadMedida dbA v4) as [u|]; [|reflexivity].
  destruct (lookup_ref CodigoSAC dbA (Str (cell_str v5))) as [s|]; [|reflexivity].
  destruct (v <- row_get labels row "fecha_declaracion";; _parse_date v)
    as [fecha|]; [|reflexivity].
  destruct (row_get labels row "correlativo") as [c|] eqn:Hc; [|reflexivity].
  destruct (row_get labels row "descripcion") as [dsc|] eqn:Hdsc; [|reflexivity].
  cbn [bind].
  unfold lookup_decl. rewrite more_decls, find_append.
  destruct (find (natural_key_matches c (ref_id s) dsc)
                 (declaraciones_importacion dbA)) as [x|] eqn:HfindA;
    [reflexivity|].
  destruct (build_declaracion labels row fecha a p r u s) as [decl|] eqn:Hb.
  - intros Hstaged.
    destruct (Hstaged decl eq_refl) as (Hnc & Hnd & d' & Hin & Hk1 & Hk2 & Hk3).
    destruct (build_declaracion_key _ _ _ _ _ _ _ _ _ Hb) as (Kc & Kd & Ks).
    rewrite Hc in Kc. rewrite Hdsc in Kd.
    injection Kc as Kc. injection Kd as Kd. subst c dsc.
    destruct (find (natural_key_matches (correlativo decl) (ref_id s)
                                        (descripcion decl)) extra) eqn:HfindB;
      [reflexivity|].
    exfalso.
    assert (Hnone : find (natural_key_matches (correlativo decl) (ref_id s)
                                              (descripcion decl))
                         (declaraciones_importacion dbA ++ extra) = None).
    { rewrite find_append, HfindA. exact HfindB. }
    pose proof (find_none _ _ Hnone d' Hin) as Hno.
    unfold natural_key_matches in Hno.
    rewrite Hk1, Hk2, Hk3, Ks, Z.eqb_refl in Hno.
    destruct (correlativo decl); [discriminate|].
    destruct (descripcion decl); [discriminate|].
    rewrite !sql_eq_refl in Hno. discriminate.
  - intros _.
    destruct (find (natural_key_matches c (ref_id s) dsc) extra) eqn:HfindB;
      [|reflexivity].
    exfalso. destruct extra_from_rows as [Hnil|(row0 & d0 & Hrow0 & Hcl0)].
    + rewrite Hnil in HfindB. discriminate.
    + apply classify_staged_inv in Hcl0 as (f0 & a0 & p0 & r0 & u0 & s0 & Hb0).
      destruct (build_declaracion_any_row _ _ row _ fecha _ _ _ _ _ a p r u s _ Hb0)
        as [d' Hd'].
      congruence.
Qed.

End Reload.

Section Counting.

Variable labels : list string.

Lemma final_counts_split (db : Store) (rs : list (list cell)) :
  forall c : counts,
    final_counts labels rs db c
    = ((fst c + List.length (staged_rows labels rs db))%nat,
       (snd c + rejected_count labels rs db)%nat).
Proof.
  unfold final_counts, staged_rows, rejected_count.
  induction rs as [|row rest IH]; intros [n m]; simpl.
  - f_equal; lia.
  - rewrite IH. destruct (classify labels row db); simpl; f_equal; lia.
Qed.

Lemma settled_rows (dbA dbB : Store) (rs : list (list cell)) :
  (forall row, In row rs ->
               classify labels row dbB = settled (classify labels row dbA)) ->
  staged_rows labels rs dbB = []
  /\ rejected_count labels rs dbB = rejected_count labels rs dbA.
Proof.
  unfold staged_rows, rejected_count.
  induction rs as [|row rest IH]; intros H; simpl; [split; reflexivity|].
  destruct IH as [IH1 IH2]; [intros r Hr; apply H; right; exact Hr|].
  rewrite (H row (or_introl eq_refl)), IH1.
  destruct (classify labels row dbA); simpl; rewrite ?IH2; split; reflexivity.
Qed.

Lemma classify_missing_columns (db : Store) (row : list cell) :
  forallb (has_column labels) required_columns = false ->
  classify labels row db = Rejected.
Proof. intros H. unfold classify. rewrite H. reflexivity. Qed.

Lemma staged_rows_missing_columns (db : Store) (rs : list (list cell)) :
  forallb (has_column labels) required_columns = false ->
  staged_rows labels rs db = [].
Proof.
  intros H. unfold staged_rows. induction rs as [|row rest IH]; [reflexivity|].
  simpl. rewrite (classify_missing_columns db row H). exact IH.
Qed.

Lemma staged_rows_are_declarations (db : Store) (rs : list (list cell)) (o : pending_obj) :
  In o (staged_rows labels rs db) ->
  exists row d, In row rs /\ classify labels row db = Staged d /\ o = PDecl d.
Proof.
  unfold staged_rows. intros H. apply in_flat_map in H as (row & Hrow & Ho).
  destruct (classify labels row db) as [d| |] eqn:E; simpl in Ho;
    try contradiction.
  destruct Ho as [<-|[]]. eauto.
Qed.

Lemma staged_rows_complete (db : Store) (rs : list (list cell)) (row : list cell)
      (d : DeclaracionImportacion) :
  In row rs -> classify labels row db = Staged d ->
  In (PDecl d) (staged_rows labels rs db).
Proof.
  intros Hrow Hc. unfold staged_rows. apply in_flat_map. exists row.
  split; [exact Hrow|]. rewrite Hc. left. reflexivity.
Qed.

End Counting.

Section MasterReload.

Variable df : DataFrame.
Variables db dbA dbB : Store.
Hypothesis master_done : insert_all (master_pending df db) db = Ok dbA.
Hypothesis same_refs : forall t, get_refs t dbB = get_refs t dbA.

Lemma new_keys_nil (t : table) (d : Store) (keys : list string) :
  (forall key, In key keys -> exists r, In r (get_refs t d) /\ ref_key r = key) ->
  new_keys t d keys = [].
Proof.
  intros H. unfold new_keys. induction keys as [|key rest IH]; [reflexivity|].
  simpl. destruct (lookup_ref t d (Str key)) eqn:E.
  - apply IH. intros k Hk. apply H. right. exact Hk.
  - exfalso. destruct (H key (or_introl eq_refl)) as (r & Hr & Hkey).
    unfold lookup_ref in E. pose proof (find_none _ _ E r Hr) as Hno.
    simpl in Hno. rewrite Hkey, String.eqb_refl in Hno. discriminate.
Qed.

Lemma category_pending_settled (name : string) (t : table) :
  (forall o, In o (category_pending df name t db) ->
             In o (master_pending df db)) ->
  category_pending df name t dbB = [].
Proof.
  unfold category_pending. intros Hsub.
  destruct (has_column (columns df) name); [|reflexivity].
  rewrite new_keys_nil; [reflexivity|].
  intros key Hkey. rewrite same_refs.
  destruct (lookup_ref t db (Str key)) as [r0|] eqn:E.
  - unfold lookup_ref in E. apply find_some in E as [Hin Heq].
    simpl in Heq. apply String.eqb_eq in Heq.
    exists r0. split; [|exact Heq].
    apply (insert_all_keeps_refs _ _ _ _ _ master_done Hin).
  - apply (insert_all_adds_refs _ _ _ _ _ master_done).
    apply Hsub. apply in_map. unfold new_keys. apply filter_In.
    split; [exact Hkey|]. rewrite E. reflexivity.
Qed.

(** After a load every key of the file has its reference row. *)
Lemma master_pending_settled : master_pending df dbB = [].
Proof.
  unfold master_pending.
  rewrite !category_pending_settled; [reflexivity| | | | |];
    intros o Ho; unfold master_pending; repeat rewrite in_app_iff; tauto.
Qed.

End MasterReload.

Section ReloadPasses.

Lemma run_load_passes_unfold (df : DataFrame) (db : Store) :
  run_load_passes df db
  = if forallb (has_column (columns df)) required_columns
    then if repeated_reference df
         then (Raise (AttributeError "'DataFrame' object has no attribute 'unique'"),
               db)
         else
           match insert_all (master_pending df db) db with
           | Ok dbA =>
               match insert_all (staged_rows (columns df) (rows df) dbA) dbA with
               | Ok dbB =>
                   (Ok (final_counts (columns df) (rows df) dbA (0%nat, 0%nat)), dbB)
               | Raise e => (Raise e, dbA)
               end
           | Raise e => (Raise e, db)
           end
    else (Ok (final_counts (columns df) (rows df) db (0%nat, 0%nat)), db).
Proof.
  unfold run_load_passes, load_passes, SessionLocal, bindM.
  destruct (forallb (has_column (columns df)) required_columns) eqn:Hcols.
  - destruct (repeated_reference df) eqn:Hrep.
    + destruct (load_master_data_repeated db df [] Hcols Hrep) as [pend' ->].
      reflexivity.
    + rewrite (load_master_data_noflush db df [] Hrep), Hcols. simpl app.
      destruct (insert_all (master_pending df db) db) as [dbA|e]; [|reflexivity].
      rewrite load_declarations_noflush. simpl app.
      destruct (insert_all (staged_rows (columns df) (rows df) dbA) dbA);
        reflexivity.
  - assert (E : _load_master_data df (mkSession false db [])
                = (Ok tt, mkSession false db [])).
    { unfold _load_master_data.
      pose proof (missing_columns_spec df required_columns) as Hf.
      destruct (filter (fun col => negb (has_column (columns df) col))
                       required_columns); [congruence | reflexivity]. }
    rewrite E, load_declarations_noflush. simpl app.
    rewrite (staged_rows_missing_columns _ _ _ Hcols). reflexivity.
Qed.

End ReloadPasses.

(** C2, as the code has it.  Running the two loading passes again on the
    database a first run over the same dataframe has committed is
    idempotent: the second run commits, stages no declaration (its success
    counter is 0), rejects exactly the rows the first run rejected, so that
    every row the first run loaded or skipped is skipped by the duplicate
    check, and leaves the database as it was: no new row in [aduanas],
    [paises], [tipos_regimen], [unidades_medida], [codigos_sac], nor in the
    fact table. *)
Theorem reload_is_idempotent (df : DataFrame) (db db1 : Store) (c1 : counts) :
  run_load_passes df db = (Ok c1, db1) ->
  run_load_passes df db1 = (Ok (0%nat, snd c1), db1).
Proof.
  rewrite !run_load_passes_unfold.
  destruct (forallb (has_column (columns df)) required_columns) eqn:Hcols.
  - destruct (repeated_reference df); [discriminate|].
    destruct (insert_all (master_pending df db) db) as [dbA|e] eqn:Hmaster;
      [|discriminate].
    destruct (insert_all (staged_rows (columns df) (rows df) dbA) dbA)
      as [dbB|e] eqn:Hdecl; [|discriminate].
    intros H. injection H as <- <-.
    destruct (insert_all_declarations
                (staged_rows (columns df) (rows df) dbA) dbA dbB)
      as (Hrefs & (extra & Hextra & Hnil) & Hkeys);
      [|exact Hdecl|].
    { intros o Ho. apply staged_rows_are_declarations in Ho as (row & d & _ & _ & ->).
      eauto. }
    rewrite (master_pending_settled df db dbA dbB Hmaster Hrefs). simpl insert_all.
    cbn [bind].
    destruct (settled_rows (columns df) dbA dbB (rows df)) as [Hstaged Hrej].
    { apply (classify_after_load _ _ dbA dbB extra Hrefs Hextra).
      - intros row d Hrow Hc. apply Hkeys.
        apply (staged_rows_complete _ _ _ _ _ Hrow Hc).
      - destruct (staged_rows (columns df) (rows df) dbA) as [|o rest] eqn:E.
        + left. apply Hnil. reflexivity.
        + right.
          destruct (staged_rows_are_declarations (columns df) dbA (rows df) o)
            as (row & d & Hrow & Hc & _); [rewrite E; left; reflexivity|].
          eauto. }
    rewrite Hstaged. simpl insert_all. cbv iota.
    rewrite !final_counts_split, Hstaged, Hrej. reflexivity.
  - intros H. injection H as <- <-.
    rewrite !final_counts_split, (staged_rows_missing_columns _ _ _ Hcols).
    reflexivity.
Qed.

Lemma reload_is_idempotent_witness :
  exists db1,
    run_load_passes (frame_of [caballos_line]) empty_store = (Ok (1%nat, 0%nat), db1)
    /\ run_load_passes (frame_of [caballos_line]) db1 = (Ok (0%nat, 0%nat), db1)
    /\ List.length (declaraciones_importacion db1) = 1%nat.
Proof.
  eexists. split; [vm_compute; reflexivity|]. split; [|reflexivity].
  apply (reload_is_idempotent _ empty_store _ (1%nat, 0%nat)).
  vm_compute. reflexivity.
Defined.

(** The claim as the spec words it fails: a second run through
    [load_csv_data] on a file already loaded returns the error record of
    the missing method, not a success record with zero records. *)
Lemma reload_through_entry_point_errors :
  exists db1,
    run_load_passes (frame_of [caballos_line]) empty_store = (Ok (1%nat, 0%nat), db1)
    /\ run_load_csv_data (file_of true [caballos_line]) db1
       = (Ok missing_method_result, db1)
    /\ missing_method_result
       <> PyDict [("status", PStr "success"); ("records_loaded", PInt 0)].
Proof.
  eexists. split; [vm_compute; reflexivity|].
  split; [vm_compute; reflexivity | discriminate].
Qed.

(* ================================================================== *)
(** * Further properties of the code *)

(* ================================================================== *)
(** * More on the field normalizers *)

Section StripFacts.

Lemma rstrip_idempotent (s : string) : rstrip (rstrip s) = rstrip s.
Proof.
  induction s as [|c r IH]; simpl; [reflexivity|].
  destruct (rstrip r) as [|c' r'] eqn:Hr.
  - destruct (is_space c) eqn:Hc; simpl; [reflexivity|]. rewrite Hc. reflexivity.
  - simpl in IH |- *. rewrite IH. reflexivity.
Qed.

Lemma lstrip_head (s : string) :
  match lstrip s with
  | EmptyString => True
  | String c _ => is_space c = false
  end.
Proof.
  induction s as [|c r IH]; simpl; [exact I|].
  destruct (is_space c) eqn:Hc; [exact IH | exact Hc].
Qed.

Lemma rstrip_keeps_head (c : ascii) (r : string) :
  is_space c = false -> exists r', rstrip (String c r) = String c r'.
Proof.
  intros Hc. simpl. destruct (rstrip r); [rewrite Hc|]; eauto.
Qed.

Lemma strip_idempotent (s : string) : strip (strip s) = strip s.
Proof.
  unfold strip. pose proof (lstrip_head s) as H.
  destruct (lstrip s) as [|c r]; [reflexivity|].
  destruct (rstrip_keeps_head c r H) as [r' Hr']. rewrite Hr'.
  simpl lstrip. rewrite H. rewrite <- Hr'. apply rstrip_idempotent.
Qed.

(** A text without any whitespace character is its own [strip]. *)
Lemma strip_without_space (s : string) :
  forallb (fun c => negb (is_space c)) (list_ascii_of_string s) = true ->
  strip s = s.
Proof.
  intros H. unfold strip.
  assert (Hl : lstrip s = s).
  { destruct s as [|c r]; [reflexivity|]. simpl in H |- *.
    apply andb_prop in H as [Hc _]. apply negb_true_iff in Hc. rewrite Hc.
    reflexivity. }
  rewrite Hl. clear Hl.
  induction s as [|c r IH]; [reflexivity|]. simpl in H |- *.
  apply andb_prop in H as [Hc Hr]. apply negb_true_iff in Hc.
  rewrite (IH Hr). destruct r; [rewrite Hc|]; reflexivity.
Qed.

Lemma contains_count (c : ascii) (s : string) :
  contains c s = negb (count_char c s =? 0)%nat.
Proof.
  induction s as [|d r IH]; simpl; [reflexivity|].
  destruct (Ascii.eqb d c); simpl; [reflexivity | exact IH].
Qed.

Lemma split_length (sep : ascii) (s : string) :
  List.length (split sep s) = S (count_char sep s).
Proof.
  induction s as [|c r IH]; simpl; [reflexivity|].
  destruct (Ascii.eqb c sep); simpl; [rewrite IH; reflexivity|].
  destruct (split sep r) as [|p ps]; simpl in *; [discriminate | exact IH].
Qed.

Lemma is_digit_not_space (c : ascii) : is_digit c = true -> is_space c = false.
Proof. destruct c as [[] [] [] [] [] [] [] []]; cbv; congruence. Qed.

Lemma is_digit_not_slash (c : ascii) : is_digit c = true -> Ascii.eqb c "/" = false.
Proof. destruct c as [[] [] [] [] [] [] [] []]; cbv; congruence. Qed.

Lemma is_digit_not_dash (c : ascii) : is_digit c = true -> Ascii.eqb c "-" = false.
Proof. destruct c as [[] [] [] [] [] [] [] []]; cbv; congruence. Qed.

End StripFacts.

(** X1. Surrounding whitespace does not matter to [_parse_date]: a text
    and its stripped form give the same date or the same exception, and a
    missing value is treated as the empty text. *)
Theorem parse_date_ignores_outer_space (s : string) :
  _parse_date (Str s) = _parse_date (Str (strip s))
  /\ _parse_date NA = _parse_date (Str "").
Proof.
  split; [|reflexivity].
  unfold _parse_date. simpl isna. simpl cell_str. rewrite strip_idempotent.
  reflexivity.
Qed.

(** X2. A text holding a ['/'] that does not split into exactly three
    parts is rejected with ValueError, whatever else it holds. *)
Theorem parse_date_wrong_slash_count (s : string) :
  count_char "/" (strip s) <> 0%nat ->
  count_char "/" (strip s) <> 2%nat ->
  _parse_date (Str s)
  = Raise (ValueError ("Formato de fecha invalido: " ++ strip s)).
Proof.
  intros H0 H2. unfold _parse_date. simpl isna. simpl cell_str. simpl orb.
  destruct (String.eqb (strip s) "") eqn:Hblank.
  { apply String.eqb_eq in Hblank. rewrite Hblank in H0. contradiction. }
  rewrite contains_count.
  destruct (Nat.eqb_spec (count_char "/" (strip s)) 0) as [E|_]; [contradiction|].
  simpl negb. cbv iota.
  pose proof (split_length "/" (strip s)) as Hlen.
  destruct (split "/" (strip s)) as [|a [|b [|c [|d l]]]]; try reflexivity.
  simpl in Hlen. exfalso. apply H2. lia.
Qed.

Lemma parse_date_wrong_slash_count_witness :
  _parse_date (Str " 1/2 ") = Raise (ValueError "Formato de fecha invalido: 1/2")
  /\ _parse_date (Str "1/2/3/2023")
     = Raise (ValueError "Formato de fecha invalido: 1/2/3/2023").
Proof.
  split.
  - apply (parse_date_wrong_slash_count " 1/2 "); discriminate.
  - apply (parse_date_wrong_slash_count "1/2/3/2023"); discriminate.
Defined.

(** X3. In the D/M/Y form a year that is not written with exactly two
    characters is taken as it is written: no century is added to it. *)
Theorem parse_date_literal_year (s d m y : string) (dv mv yv : Z) :
  split "/" (strip s) = [d; m; y] ->
  String.length y <> 2%nat ->
  py_int y = Ok yv -> py_int m = Ok mv -> py_int d = Ok dv ->
  valid_ymd yv mv dv = true ->
  _parse_date (Str s) = Ok (mkdate yv mv dv).
Proof.
  intros Hsplit Hlen Hy Hm Hd Hvalid.
  unfold _parse_date. simpl isna. simpl cell_str. simpl orb.
  destruct (String.eqb (strip s) "") eqn:Hblank.
  { apply String.eqb_eq in Hblank. rewrite Hblank in Hsplit. discriminate. }
  destruct (contains "/" (strip s)) eqn:Hslash.
  2:{ rewrite (split_without_sep _ _ Hslash) in Hsplit. discriminate. }
  rewrite Hsplit.
  destruct (Nat.eqb_spec (String.length y) 2) as [E|_]; [contradiction|].
  rewrite Hy, Hm, Hd. cbn [bind].
  apply datetime_date_valid, Hvalid.
Qed.

Lemma parse_date_literal_year_witness :
  _parse_date (Str "1/2/1999") = Ok (mkdate 1999 2 1)
  /\ _parse_date (Str "1/2/023") = Ok (mkdate 23 2 1)
  /\ _parse_date (Str "1/2/7") = Ok (mkdate 7 2 1).
Proof.
  split; [|split].
  - apply (parse_date_literal_year "1/2/1999" "1" "2" "1999" 1 2 1999);
      reflexivity || discriminate.
  - apply (parse_date_literal_year "1/2/023" "1" "2" "023" 1 2 23);
      reflexivity || discriminate.
  - apply (parse_date_literal_year "1/2/7" "1" "2" "7" 1 2 7);
      reflexivity || discriminate.
Defined.

Section IsoFacts.

Lemma match_m_two_digits (m1 m2 : ascii) (r : string) :
  is_digit m1 = true -> is_digit m2 = true ->
  let v := 10 * digit_val m1 + digit_val m2 in
  if (1 <=? v) && (v <=? 12)
  then match_m (String m1 (String m2 r)) = Some (v, r)
  else match_m (String m1 (String m2 r)) = None
       \/ exists x, match_m (String m1 (String m2 r)) = Some (x, String m2 r).
Proof.
  intros H1 H2.
  apply is_digit_cases in H1. apply is_digit_cases in H2.
  simpl in H1, H2.
  repeat (destruct H1 as [<-|H1]); try contradiction;
    repeat (destruct H2 as [<-|H2]); try contradiction;
    cbv zeta; simpl;
    first [reflexivity | left; reflexivity | right; eexists; reflexivity].
Qed.

Lemma match_d_two_digits (d1 d2 : ascii) :
  is_digit d1 = true -> is_digit d2 = true ->
  let v := 10 * digit_val d1 + digit_val d2 in
  if (1 <=? v) && (v <=? 31)
  then match_d (String d1 (String d2 EmptyString)) = Some (v, EmptyString)
  else match_d (String d1 (String d2 EmptyString)) = None
       \/ exists x, match_d (String d1 (String d2 EmptyString))
                    = Some (x, String d2 EmptyString).
Proof.
  intros H1 H2.
  apply is_digit_cases in H1. apply is_digit_cases in H2.
  simpl in H1, H2.
  repeat (destruct H1 as [<-|H1]); try contradiction;
    repeat (destruct H2 as [<-|H2]); try contradiction;
    cbv zeta; simpl;
    first [reflexivity | left; reflexivity | right; eexists; reflexivity].
Qed.

Lemma valid_ymd_ranges (y m d : Z) :
  valid_ymd y m d = true ->
  (1 <=? m) && (m <=? 12) = true /\ (1 <=? d) && (d <=? 31) = true.
Proof.
  unfold valid_ymd. intros H. pose proof (days_in_month_le_31 y m).
  repeat (apply andb_prop in H as [H ?]).
  split; apply andb_true_intro; split; lia.
Qed.

Lemma match_lit_same (c : ascii) (r : string) : match_lit c (String c r) = Some r.
Proof. simpl. rewrite Ascii.eqb_refl. reflexivity. Qed.

Lemma match_lit_digit (c : ascii) (r : string) :
  is_digit c = true -> match_lit "-" (String c r) = None.
Proof. intros H. simpl. rewrite (is_digit_not_dash c H). reflexivity. Qed.

End IsoFacts.

(** X4. A text of the shape YYYY-MM-DD, all digits, parses to exactly the
    date it writes when that is a date of the calendar, and raises
    ValueError otherwise (month 00 or 13, day 00 or 32, 30 February,
    year 0000). *)
Theorem parse_date_iso (y1 y2 y3 y4 m1 m2 d1 d2 : ascii) :
  is_digit y1 = true -> is_digit y2 = true ->
  is_digit y3 = true -> is_digit y4 = true ->
  is_digit m1 = true -> is_digit m2 = true ->
  is_digit d1 = true -> is_digit d2 = true ->
  let s := String y1 (String y2 (String y3 (String y4 (String "-"
             (String m1 (String m2 (String "-"
                (String d1 (String d2 EmptyString))))))))) in
  let y := digits_value [digit_val y1; digit_val y2; digit_val y3; digit_val y4] in
  let m := 10 * digit_val m1 + digit_val m2 in
  let d := 10 * digit_val d1 + digit_val d2 in
  if valid_ymd y m d
  then _parse_date (Str s) = Ok (mkdate y m d)
  else exists msg, _parse_date (Str s) = Raise (ValueError msg).
Proof.
  intros Hy1 Hy2 Hy3 Hy4 Hm1 Hm2 Hd1 Hd2 s y m d.
  assert (Hstrip : strip s = s).
  { apply strip_without_space. subst s. simpl.
    rewrite !is_digit_not_space by assumption. reflexivity. }
  assert (Hparse : _parse_date (Str s) = strptime_Ymd s).
  { unfold _parse_date. simpl isna. simpl cell_str. rewrite Hstrip.
    subst s. simpl String.eqb. simpl contains.
    rewrite !is_digit_not_slash by assumption.
    rewrite !is_digit_not_dash by assumption. simpl. reflexivity. }
  assert (HY : match_Y s = Some (y, String "-" (String m1 (String m2 (String "-"
                                   (String d1 (String d2 EmptyString))))))).
  { subst s. simpl. rewrite Hy1, Hy2, Hy3, Hy4. reflexivity. }
  pose proof (match_m_two_digits m1 m2
                (String "-" (String d1 (String d2 EmptyString))) Hm1 Hm2) as HM.
  pose proof (match_d_two_digits d1 d2 Hd1 Hd2) as HD.
  cbv zeta in HM, HD. fold m in HM. fold d in HD.
  rewrite Hparse. unfold strptime_Ymd, match_Ymd. rewrite HY, match_lit_same.
  destruct (valid_ymd y m d) eqn:Hvalid.
  - destruct (valid_ymd_ranges _ _ _ Hvalid) as [Rm Rd].
    rewrite Rm in HM. rewrite Rd in HD.
    rewrite HM, match_lit_same, HD, Hvalid. reflexivity.
  - destruct ((1 <=? m) && (m <=? 12)).
    + rewrite HM, match_lit_same.
      destruct ((1 <=? d) && (d <=? 31)).
      * rewrite HD, Hvalid. eexists; reflexivity.
      * destruct HD as [HD | [x HD]]; rewrite HD; eexists; reflexivity.
    + destruct HM as [HM | [x HM]]; rewrite HM; [eexists; reflexivity|].
      rewrite (match_lit_digit m2 _ Hm2). eexists; reflexivity.
Qed.

Lemma parse_date_iso_witness :
  _parse_date (Str "2024-02-29") = Ok (mkdate 2024 2 29)
  /\ exists msg, _parse_date (Str "2023-02-29") = Raise (ValueError msg).
Proof.
  split.
  - exact (parse_date_iso "2" "0" "2" "4" "0" "2" "2" "9"
             eq_refl eq_refl eq_refl eq_refl eq_refl eq_refl eq_refl eq_refl).
  - exact (parse_date_iso "2" "0" "2" "3" "0" "2" "2" "9"
             eq_refl eq_refl eq_refl eq_refl eq_refl eq_refl eq_refl eq_refl).
Defined.

Section NumStripFacts.

Lemma is_num_space_is_space (c : ascii) : is_num_space c = true -> is_space c = true.
Proof. destruct c as [[] [] [] [] [] [] [] []]; cbv; congruence. Qed.

Lemma num_rstrip_idempotent (s : string) : num_rstrip (num_rstrip s) = num_rstrip s.
Proof.
  induction s as [|c r IH]; simpl; [reflexivity|].
  destruct (num_rstrip r) as [|c' r'] eqn:Hr.
  - destruct (is_num_space c) eqn:Hc; simpl; [reflexivity|]. rewrite Hc. reflexivity.
  - simpl in IH |- *. rewrite IH. reflexivity.
Qed.

Lemma num_lstrip_head (s : string) :
  match num_lstrip s with
  | EmptyString => True
  | String c _ => is_num_space c = false
  end.
Proof.
  induction s as [|c r IH]; simpl; [exact I|].
  destruct (is_num_space c) eqn:Hc; [exact IH | exact Hc].
Qed.

Lemma num_rstrip_keeps_head (c : ascii) (r : string) :
  is_num_space c = false -> exists r', num_rstrip (String c r) = String c r'.
Proof.
  intros Hc. simpl. destruct (num_rstrip r); [rewrite Hc|]; eauto.
Qed.

Lemma num_strip_idempotent (s : string) : num_strip (num_strip s) = num_strip s.
Proof.
  unfold num_strip. pose proof (num_lstrip_head s) as H.
  destruct (num_lstrip s) as [|c r]; [reflexivity|].
  destruct (num_rstrip_keeps_head c r H) as [r' Hr']. rewrite Hr'.
  simpl num_lstrip. rewrite H. rewrite <- Hr'. apply num_rstrip_idempotent.
Qed.

(** A text without any of these characters is its own [num_strip]. *)
Lemma num_strip_without_space (s : string) :
  forallb (fun c => negb (is_num_space c)) (list_ascii_of_string s) = true ->
  num_strip s = s.
Proof.
  intros H. unfold num_strip.
  assert (Hl : num_lstrip s = s).
  { destruct s as [|c r]; [reflexivity|]. simpl in H |- *.
    apply andb_prop in H as [Hc _]. apply negb_true_iff in Hc. rewrite Hc.
    reflexivity. }
  rewrite Hl. clear Hl.
  induction s as [|c r IH]; [reflexivity|]. simpl in H |- *.
  apply andb_prop in H as [Hc Hr]. apply negb_true_iff in Hc.
  rewrite (IH Hr). destruct r; [rewrite Hc|]; reflexivity.
Qed.

Lemma is_num_space_replace (a b c : ascii) :
  is_num_space a = false -> is_num_space b = false ->
  is_num_space (if Ascii.eqb c a then b else c) = is_num_space c.
Proof.
  intros Ha Hb. destruct (Ascii.eqb c a) eqn:Hc; [|reflexivity].
  apply Ascii.eqb_eq in Hc. subst c. congruence.
Qed.

Lemma num_strip_replace (a b : ascii) (s : string) :
  is_num_space a = false -> is_num_space b = false ->
  num_strip (replace a b s) = replace a b (num_strip s).
Proof.
  intros Ha Hb. unfold num_strip.
  assert (Hl : forall t, num_lstrip (replace a b t) = replace a b (num_lstrip t)).
  { induction t as [|c r IH]; simpl; [reflexivity|].
    rewrite (is_num_space_replace a b c Ha Hb).
    destruct (is_num_space c); [exact IH | reflexivity]. }
  assert (Hr : forall t, num_rstrip (replace a b t) = replace a b (num_rstrip t)).
  { induction t as [|c r IH]; simpl; [reflexivity|].
    rewrite IH, (is_num_space_replace a b c Ha Hb).
    destruct (num_rstrip r); simpl; [destruct (is_num_space c)|]; reflexivity. }
  rewrite Hl, Hr. reflexivity.
Qed.

Lemma lstrip_num_lstrip (s : string) : lstrip (num_lstrip s) = lstrip s.
Proof.
  induction s as [|c r IH]; simpl; [reflexivity|].
  destruct (is_num_space c) eqn:Hc; [|reflexivity].
  rewrite (is_num_space_is_space c Hc). exact IH.
Qed.

Lemma rstrip_num_rstrip (s : string) : rstrip (num_rstrip s) = rstrip s.
Proof.
  induction s as [|c r IH]; simpl; [reflexivity|].
  destruct (num_rstrip r) as [|c' r'] eqn:Hr.
  - simpl in IH. rewrite <- IH.
    destruct (is_num_space c) eqn:Hc; simpl;
      [rewrite (is_num_space_is_space c Hc)|]; reflexivity.
  - rewrite <- IH. reflexivity.
Qed.

Lemma strip_num_rstrip (s : string) : strip (num_rstrip s) = strip s.
Proof.
  induction s as [|c r IH]; [reflexivity|].
  destruct (is_space c) eqn:Hc.
  - change (strip (String c r)) with (rstrip (lstrip (String c r))).
    cbn [lstrip]. rewrite Hc. fold (strip r). rewrite <- IH.
    cbn [num_rstrip]. destruct (num_rstrip r) as [|c' r'].
    + destruct (is_num_space c); unfold strip; cbn [lstrip]; [|rewrite Hc];
        reflexivity.
    + unfold strip. cbn [lstrip]. rewrite Hc. reflexivity.
  - assert (Hn : is_num_space c = false).
    { destruct (is_num_space c) eqn:E; [|reflexivity].
      rewrite (is_num_space_is_space c E) in Hc. discriminate. }
    destruct (num_rstrip_keeps_head c r Hn) as [r' Hr'].
    unfold strip. rewrite Hr'. cbn [lstrip]. rewrite Hc, <- Hr'.
    apply rstrip_num_rstrip.
Qed.

(** The blank test of the normalizers does not see what [float()] and
    [int()] skip. *)
Lemma strip_num_strip (s : string) : strip (num_strip s) = strip s.
Proof.
  unfold num_strip. rewrite strip_num_rstrip. unfold strip.
  rewrite lstrip_num_lstrip. reflexivity.
Qed.

Lemma py_float_num_strip (t : string) :
  match py_float t with Ok x => Ok x | Raise _ => Ok float_zero end
  = match py_float (num_strip t) with Ok x => Ok x | Raise _ => Ok float_zero end.
Proof.
  unfold py_float. rewrite num_strip_idempotent.
  destruct (split_sign (num_strip t)) as [neg body].
  destruct (String.eqb (lower body) "inf" || String.eqb (lower body) "infinity");
    [reflexivity|].
  destruct (String.eqb (lower body) "nan"); [reflexivity|].
  destruct (float_literal body); reflexivity.
Qed.

Lemma separator_cases (c : ascii) :
  (28 <= nat_of_ascii c <= 31)%nat ->
  In c [ascii_of_nat 28; ascii_of_nat 29; ascii_of_nat 30; ascii_of_nat 31].
Proof.
  intros [H1 H2]. apply Nat.leb_le in H1, H2. revert H1 H2.
  destruct c as [[] [] [] [] [] [] [] []]; vm_compute; intros H1 H2;
    try discriminate; auto.
Qed.

(** [float()] refuses a text that starts with one of the separators 28
    to 31. *)
Lemma py_float_separator_head (c : ascii) (x : string) :
  (28 <= nat_of_ascii c <= 31)%nat ->
  exists e, py_float (String c x) = Raise e.
Proof.
  intros H.
  assert (Hn : is_num_space c = false /\ is_e c = false /\ is_dot c = false
               /\ is_digit c = false /\ Ascii.eqb c "_" = false
               /\ lower_char c = c
               /\ Ascii.eqb c "i" = false /\ Ascii.eqb c "n" = false
               /\ forall t, split_sign (String c t) = (false, String c t)).
  { apply separator_cases in H. simpl In in H.
    destruct H as [<-|[<-|[<-|[<-|[]]]]]; repeat split; reflexivity. }
  destruct Hn as (Hsp & He & Hdot & Hdig & Hund & Hlow & Hi & Hnn & Hsign).
  unfold py_float, num_strip. cbn [num_lstrip]. rewrite Hsp.
  destruct (num_rstrip_keeps_head c x Hsp) as [x' ->].
  rewrite Hsign. cbn [lower String.eqb]. rewrite Hlow, Hi, Hnn. cbn [orb].
  unfold float_literal. cbn [split_first]. rewrite He.
  destruct (split_first is_e x') as [a oe].
  unfold float_number. cbn [split_first]. rewrite Hdot.
  destruct (split_first is_dot a) as [a' [fp|]].
  - destruct fp as [|f fp']; cbn [digitpart]; rewrite Hdig, Hund; cbn [andb];
      eexists; reflexivity.
  - cbn [digitpart]. rewrite Hdig, Hund. cbn [andb]. eexists; reflexivity.
Qed.

End NumStripFacts.

Section FloatValueFacts.

Lemma digitpart_digits (s : string) :
  forall b : bool,
    forallb is_digit (list_ascii_of_string s) = true ->
    (b = true \/ s <> EmptyString) ->
    digitpart b s = Some (map digit_val (list_ascii_of_string s)).
Proof.
  induction s as [|c r IH]; intros b Hall Hne; simpl in *.
  - destruct Hne as [->|Hne]; [reflexivity | contradiction].
  - apply andb_prop in Hall as [Hc Hr]. rewrite Hc.
    rewrite (IH true Hr (or_introl eq_refl)). reflexivity.
Qed.

Lemma split_first_absent (p : ascii -> bool) (s : string) :
  forallb (fun c => negb (p c)) (list_ascii_of_string s) = true ->
  split_first p s = (s, None).
Proof.
  induction s as [|c r IH]; simpl; intros H; [reflexivity|].
  apply andb_prop in H as [Hc Hr]. apply negb_true_iff in Hc.
  rewrite Hc, (IH Hr). reflexivity.
Qed.

Lemma split_first_at (p : ascii -> bool) (a : string) (c : ascii) (b : string) :
  forallb (fun x => negb (p x)) (list_ascii_of_string a) = true ->
  p c = true ->
  split_first p (a ++ String c b) = (a, Some b).
Proof.
  induction a as [|x r IH]; simpl; intros Ha Hc.
  - rewrite Hc. reflexivity.
  - apply andb_prop in Ha as [Hx Hr]. apply negb_true_iff in Hx.
    rewrite Hx, (IH Hr Hc). reflexivity.
Qed.

Lemma list_ascii_app (a b : string) :
  list_ascii_of_string (a ++ b)
  = (list_ascii_of_string a ++ list_ascii_of_string b)%list.
Proof. induction a as [|c r IH]; simpl; [reflexivity | rewrite IH; reflexivity]. Qed.

Lemma replace_app (x y : ascii) (a b : string) :
  replace x y (a ++ b) = replace x y a ++ replace x y b.
Proof. induction a as [|c r IH]; simpl; [reflexivity | rewrite IH; reflexivity]. Qed.

Lemma forallb_digit_weaken (q : ascii -> bool) (s : string) :
  (forall c, is_digit c = true -> q c = true) ->
  forallb is_digit (list_ascii_of_string s) = true ->
  forallb q (list_ascii_of_string s) = true.
Proof.
  intros Hq. induction s as [|c r IH]; simpl; [reflexivity|].
  intros H. apply andb_prop in H as [Hc Hr]. rewrite (Hq c Hc), (IH Hr).
  reflexivity.
Qed.

Lemma replace_digits (s : string) :
  forallb is_digit (list_ascii_of_string s) = true ->
  replace "," "." s = s.
Proof.
  induction s as [|c r IH]; simpl; [reflexivity|].
  intros H. apply andb_prop in H as [Hc Hr]. rewrite (IH Hr).
  replace (Ascii.eqb c ",") with false; [reflexivity|].
  revert Hc. destruct c as [[] [] [] [] [] [] [] []]; cbv; congruence.
Qed.

Lemma split_sign_digit (c : ascii) (r : string) :
  is_digit c = true -> split_sign (String c r) = (false, String c r).
Proof.
  intros H. apply is_digit_cases in H. simpl in H.
  repeat (destruct H as [<-|H]); try contradiction; reflexivity.
Qed.

Lemma digit_is_no_name (c : ascii) (r : string) :
  is_digit c = true ->
  String.eqb (lower (String c r)) "inf" || String.eqb (lower (String c r)) "infinity"
  = false
  /\ String.eqb (lower (String c r)) "nan" = false.
Proof.
  intros H. apply is_digit_cases in H. simpl in H.
  repeat (destruct H as [<-|H]); try contradiction; split; reflexivity.
Qed.

Lemma length_list_ascii (s : string) :
  List.length (list_ascii_of_string s) = String.length s.
Proof. induction s as [|c r IH]; simpl; [reflexivity | rewrite IH; reflexivity]. Qed.

Lemma is_digit_plain (c : ascii) :
  is_digit c = true ->
  negb (is_space c) = true /\ negb (is_e c) = true /\ negb (is_dot c) = true.
Proof. destruct c as [[] [] [] [] [] [] [] []]; cbv; intuition congruence. Qed.

Lemma is_digit_not_num_space (c : ascii) :
  is_digit c = true -> negb (is_num_space c) = true.
Proof. destruct c as [[] [] [] [] [] [] [] []]; cbv; congruence. Qed.

(** [float()] on digits, a dot, digits. *)
Lemma py_float_decimal (ip fp : string) :
  ip <> EmptyString -> fp <> EmptyString ->
  forallb is_digit (list_ascii_of_string ip) = true ->
  forallb is_digit (list_ascii_of_string fp) = true ->
  py_float (ip ++ String "." fp)
  = Ok (round_double
          (Qred (Qmult
                   (inject_Z (digits_value
                                (map digit_val (list_ascii_of_string (ip ++ fp)))))
                   (Qpower (inject_Z 10) (0 - Z.of_nat (String.length fp)))))).
Proof.
  intros Hip Hfp Dip Dfp.
  assert (Hstrip : num_strip (ip ++ String "." fp) = ip ++ String "." fp).
  { apply num_strip_without_space. rewrite list_ascii_app, forallb_app. simpl.
    rewrite !(forallb_digit_weaken (fun c => negb (is_num_space c)))
      by (assumption || (intros c Hc; apply (is_digit_not_num_space c Hc))).
    reflexivity. }
  assert (He : split_first is_e (ip ++ String "." fp) = (ip ++ String "." fp, None)).
  { apply split_first_absent. rewrite list_ascii_app, forallb_app. simpl.
    rewrite !(forallb_digit_weaken (fun c => negb (is_e c)))
      by (assumption || (intros c Hc; apply (is_digit_plain c Hc))).
    reflexivity. }
  assert (Hdot : split_first is_dot (ip ++ String "." fp) = (ip, Some fp)).
  { apply split_first_at; [|reflexivity].
    apply (forallb_digit_weaken (fun c => negb (is_dot c)));
      [intros c Hc; apply (is_digit_plain c Hc) | assumption]. }
  unfold py_float. rewrite Hstrip.
  destruct ip as [|c r]; [contradiction|].
  assert (Hc : is_digit c = true).
  { simpl in Dip. apply andb_prop in Dip as [Hc _]. exact Hc. }
  change (String c r ++ String "." fp) with (String c (r ++ String "." fp)) in *.
  rewrite (split_sign_digit c _ Hc).
  destruct (digit_is_no_name c (r ++ String "." fp) Hc) as [-> ->].
  unfold float_literal. rewrite He. unfold float_number.
  change (String c (r ++ String "." fp)) with (String c r ++ String "." fp) in *.
  rewrite Hdot.
  destruct fp as [|c' r']; [contradiction|].
  rewrite (digitpart_digits (String c r) false Dip) by (right; discriminate).
  rewrite (digitpart_digits (String c' r') false Dfp) by (right; discriminate).
  simpl float_exponent. cbv iota beta.
  rewrite list_ascii_app, map_app, length_map, length_list_ascii.
  reflexivity.
Qed.

End FloatValueFacts.

(** X5. The white space that [float()] skips around a number (tab to
    carriage return, space, NEL, no-break space) does not matter to
    [_safe_float_conversion]: a text and the text without it convert to
    the same float.  The separators 28 to 31 do matter: [str.strip] takes
    them for blank but [float()] refuses them, so a text that starts with
    one of them converts to 0.0 whatever follows. *)
Theorem safe_float_conversion_ignores_outer_space (s : string) :
  _safe_float_conversion (Str s) = _safe_float_conversion (Str (num_strip s))
  /\ forall c : ascii,
      (28 <= nat_of_ascii c <= 31)%nat ->
      _safe_float_conversion (Str (String c s)) = Ok float_zero.
Proof.
  split.
  - rewrite !safe_float_conversion_unfold. simpl isna. simpl cell_str. simpl orb.
    rewrite strip_num_strip.
    destruct (String.eqb (strip s) ""); [reflexivity|].
    rewrite (py_float_num_strip (replace "," "." s)).
    rewrite num_strip_replace by reflexivity. reflexivity.
  - intros c Hc.
    rewrite safe_float_conversion_unfold. simpl isna. simpl cell_str. simpl orb.
    destruct (String.eqb (strip (String c s)) ""); [reflexivity|].
    assert (Hcomma : Ascii.eqb c "," = false).
    { pose proof (separator_cases c Hc) as Hin. simpl In in Hin.
      destruct Hin as [<-|[<-|[<-|[<-|[]]]]]; reflexivity. }
    cbn [replace]. rewrite Hcomma.
    destruct (py_float_separator_head c (replace "," "." s) Hc) as [e ->].
    reflexivity.
Qed.

(** X6. A number written as digits, a comma, digits converts to the float
    of that decimal: the binary64 value nearest to the digits read as one
    integer and scaled down by ten to the number of digits after the
    comma, or infinity when that is beyond the largest float. *)
Theorem safe_float_conversion_decimal_comma (ip fp : string) :
  ip <> EmptyString -> fp <> EmptyString ->
  forallb is_digit (list_ascii_of_string ip) = true ->
  forallb is_digit (list_ascii_of_string fp) = true ->
  _safe_float_conversion (Str (ip ++ String "," fp))
  = Ok (round_double
          (Qred (Qmult
                   (inject_Z (digits_value
                                (map digit_val (list_ascii_of_string (ip ++ fp)))))
                   (Qpower (inject_Z 10) (0 - Z.of_nat (String.length fp)))))).
Proof.
  intros Hip Hfp Dip Dfp.
  rewrite safe_float_conversion_unfold. simpl isna. simpl cell_str. simpl orb.
  assert (Hrep : replace "," "." (ip ++ String "," fp) = ip ++ String "." fp).
  { rewrite replace_app. simpl. rewrite !replace_digits by assumption. reflexivity. }
  assert (Hblank : String.eqb (strip (ip ++ String "," fp)) "" = false).
  { destruct ip as [|c r]; [contradiction|].
    simpl in Dip. apply andb_prop in Dip as [Hc _].
    pose proof (is_digit_not_space c Hc) as Hs.
    unfold strip. cbn [append lstrip]. rewrite Hs.
    destruct (rstrip_keeps_head c (r ++ String "," fp) Hs) as [r' ->].
    reflexivity. }
  rewrite Hblank, Hrep, (py_float_decimal ip fp Hip Hfp Dip Dfp). reflexivity.
Qed.

Lemma safe_float_conversion_decimal_comma_witness :
  _safe_float_conversion (Str "1234,56")
  = Ok (FFinite (2714826150374277 # 2199023255552))
  /\ _safe_float_conversion (Str "0,50") = Ok (FFinite (1 # 2)).
Proof.
  split.
  - refine (eq_trans (safe_float_conversion_decimal_comma
                        "1234" "56" _ _ eq_refl eq_refl) _);
      [discriminate | discriminate | vm_compute; reflexivity].
  - refine (eq_trans (safe_float_conversion_decimal_comma
                        "0" "50" _ _ eq_refl eq_refl) _);
      [discriminate | discriminate | vm_compute; reflexivity].
Defined.

(* ================================================================== *)
(** * More on the row decoder *)

Section LineNumbers.

Lemma line_step_problematic (st : line_state) (ln : nat) (row : list string) :
  ln <> 1%nat ->
  expected_cols (line_step st ln row) = expected_cols st
  /\ problematic_lines (line_step st ln row)
     = (problematic_lines st
        ++ if Z.of_nat (List.length row) =? expected_cols st then [] else [ln])%list.
Proof.
  intros Hln. unfold line_step.
  destruct (Nat.eqb_spec ln 1) as [?|_]; [contradiction|].
  destruct (Z.of_nat (List.length row) =? expected_cols st); simpl.
  - rewrite app_nil_r. auto.
  - destruct (expected_cols st <? Z.of_nat (List.length row)); simpl; [auto|].
    destruct (Z.of_nat (List.length row) <? expected_cols st); simpl; auto.
Qed.

Lemma line_loop_problematic (data : list (list string)) :
  forall (st : line_state) (ln n : nat),
    (2 <= ln)%nat ->
    In n (problematic_lines (line_loop st ln data))
    <-> In n (problematic_lines st)
        \/ exists i row, n = (ln + i)%nat /\ nth_error data i = Some row
                         /\ Z.of_nat (List.length row) <> expected_cols st.
Proof.
  induction data as [|row rest IH]; intros st ln n Hln; simpl.
  - split; [auto|]. intros [H|(i & r & _ & H & _)]; [exact H|].
    destruct i; discriminate H.
  - destruct (line_step_problematic st ln row) as [Hk Hp]; [lia|].
    rewrite (IH _ (S ln) n) by lia. rewrite Hk, Hp, in_app_iff.
    split.
    + intros [[H|H]|(i & r & -> & Hr & Hne)].
      * left. exact H.
      * right. exists 0%nat, row.
        destruct (Z.eqb_spec (Z.of_nat (List.length row)) (expected_cols st));
          [contradiction H|].
        destruct H as [<-|[]]. repeat split; [lia | assumption].
      * right. exists (S i), r. repeat split; [lia | exact Hr | exact Hne].
    + intros [H|(i & r & -> & Hr & Hne)]; [left; left; exact H|].
      destruct i as [|i]; simpl in Hr.
      * injection Hr as ->. left. right.
        destruct (Z.eqb_spec (Z.of_nat (List.length r)) (expected_cols st));
          [contradiction|]. left. lia.
      * right. exists i, r. repeat split; [lia | exact Hr | exact Hne].
Qed.

End LineNumbers.

(** X7. The line-by-line strategy records a line number exactly when that
    line is a data line whose field count differs from the header's: the
    header and the lines of the right width are never recorded. *)
Theorem problematic_lines_exact (header : list string) (data : list (list string))
        (n : nat) :
  In n (problematic_lines (line_loop line_state0 1 (header :: data)))
  <-> exists i row, n = (i + 2)%nat /\ nth_error data i = Some row
                    /\ List.length row <> List.length header.
Proof.
  change (line_loop line_state0 1 (header :: data))
    with (line_loop (mk_line_state (Some header) (Z.of_nat (List.length header)) [] [])
                    2 data).
  rewrite line_loop_problematic by lia. simpl.
  split.
  - intros [[]|(i & row & -> & Hr & Hne)]. exists i, row.
    repeat split; [lia | exact Hr | lia].
  - intros (i & row & -> & Hr & Hne). right. exists i, row.
    repeat split; [lia | exact Hr | lia].
Qed.

(** X8. When [csv.reader] reads the file and its first line has a field,
    the line-by-line strategy returns a frame with the header as columns
    and one row per data line, in the order of the file; every row has one
    cell per column, and a line of the header's width is kept as read. *)
Theorem read_csv_line_by_line_frame
        (f : File) (header : list string) (data : list (list string)) :
  csv_reader f = Ok (header :: data) ->
  header <> [] ->
  exists df,
    _read_csv_line_by_line f = Ok df
    /\ columns df = header
    /\ df_len df = List.length data
    /\ (forall row, In row (rows df) -> List.length row = List.length header)
    /\ (forall i row, nth_error data i = Some row ->
                      List.length row = List.length header ->
                      nth_error (rows df) i = Some (map Str row)).
Proof.
  intros Hreader Hne.
  set (k := List.length header).
  assert (Hk : (1 <= k)%nat).
  { subst k. destruct header; [contradiction | simpl; lia]. }
  destruct (line_loop_data k Hk data
              (mk_line_state (Some header) (Z.of_nat k) [] []) 2)
    as (Hh & Hv & _ & _); [lia | reflexivity |].
  simpl in Hh, Hv.
  exists (mkDataFrame header (map (map Str) (map (repair_row k) data))).
  split; [|split; [reflexivity|split; [|split]]].
  - unfold _read_csv_line_by_line. rewrite Hreader. cbn [bind].
    change (line_loop line_state0 1 (header :: data))
      with (line_loop (mk_line_state (Some header) (Z.of_nat k) [] []) 2 data).
    rewrite Hh, Hv.
    apply (pd_DataFrame_uniform k Hk); [reflexivity|].
    intros r Hr. apply in_map_iff in Hr as (x & <- & _).
    apply repair_row_length. exact Hk.
  - unfold df_len. simpl. rewrite !length_map. reflexivity.
  - simpl. intros row Hrow.
    apply in_map_iff in Hrow as (x & <- & Hx).
    apply in_map_iff in Hx as (y & <- & _).
    rewrite length_map. apply repair_row_length. exact Hk.
  - simpl. intros i row Hrow Hlen.
    apply map_nth_error.
    rewrite (map_nth_error (repair_row k) i data Hrow). f_equal.
    unfold repair_row. fold k in Hlen. rewrite Hlen, Nat.eqb_refl. reflexivity.
Qed.

Lemma read_csv_line_by_line_frame_witness :
  exists df,
    _read_csv_line_by_line
      (mkFile true (fun _ => Raise (OtherException "unused"))
              (Ok [["a"; "b"]; ["1"; "2"]; ["3"]; ["4"; "5"]])) = Ok df
    /\ columns df = ["a"; "b"]
    /\ df_len df = 3%nat
    /\ nth_error (rows df) 2 = Some [Str "4"; Str "5"].
Proof.
  destruct (read_csv_line_by_line_frame
              (mkFile true (fun _ => Raise (OtherException "unused"))
                      (Ok [["a"; "b"]; ["1"; "2"]; ["3"]; ["4"; "5"]]))
              ["a"; "b"] [["1"; "2"]; ["3"]; ["4"; "5"]])
    as (df & Hdf & Hc & Hl & _ & Hrows); [reflexivity | discriminate |].
  exists df. split; [exact Hdf|]. split; [exact Hc|]. split; [exact Hl|].
  apply (Hrows 2%nat ["4"; "5"]); reflexivity.
Defined.

(* ================================================================== *)
(** * More on the load entry point *)

Section EntryPointFacts.

Lemma first_returned_none (attempts : list (result DataFrame)) :
  (forall r, In r attempts -> exists e, r = Raise e) ->
  first_returned attempts = None.
Proof.
  induction attempts as [|[df|e] rest IH]; intros H; simpl; [reflexivity| |].
  - destruct (H (Ok df) (or_introl eq_refl)) as [e He]. discriminate He.
  - apply IH. intros r Hr. apply H. right. exact Hr.
Qed.

End EntryPointFacts.

(** X9. When the file exists and every read attempt raises,
    [load_csv_data] returns the error record "No se pudo leer el archivo
    CSV" and leaves the database as it was. *)
Theorem load_csv_data_unreadable (f : File) (db : Store) :
  path_exists f = true ->
  (forall r, In r (strategies f) -> exists e, r = Raise e) ->
  run_load_csv_data f db
  = (Ok (PyDict [("status", PStr "error");
                 ("message", PStr "No se pudo leer el archivo CSV")]), db).
Proof.
  intros Hexists Hall. unfold run_load_csv_data.
  rewrite (load_csv_data_unreadable_file f _ Hexists); [reflexivity|].
  rewrite read_csv_robust_first_returned. apply first_returned_none, Hall.
Qed.

Lemma load_csv_data_unreadable_witness :
  run_load_csv_data
    (mkFile true (fun _ => Raise (UnicodeDecodeError "invalid start byte"))
            (Raise (UnicodeDecodeError "invalid start byte")))
    empty_store
  = (Ok (PyDict [("status", PStr "error");
                 ("message", PStr "No se pudo leer el archivo CSV")]), empty_store).
Proof.
  apply load_csv_data_unreadable; [reflexivity|].
  intros r Hr. simpl in Hr.
  repeat (destruct Hr as [<-|Hr]; [eexists; reflexivity|]). contradiction.
Defined.

(** X10. On no file and no database does [load_csv_data] raise, change
    the database or report success: it returns [None] or a record of
    status "error". *)
Theorem load_csv_data_never_succeeds (f : File) (db : Store) :
  exists v,
    run_load_csv_data f db = (Ok v, db)
    /\ (v = PyNone
        \/ exists msg, v = PyDict [("status", PStr "error"); ("message", PStr msg)]).
Proof.
  unfold run_load_csv_data.
  destruct (path_exists f) eqn:Hexists.
  - destruct (_read_csv_robust f) as [df|] eqn:Hread.
    + rewrite (load_csv_data_existing_file f _ df Hexists Hread).
      eexists. split; [reflexivity|]. right. eexists. reflexivity.
    + rewrite (load_csv_data_unreadable_file f _ Hexists Hread).
      eexists. split; [reflexivity|]. right. eexists. reflexivity.
  - rewrite (load_csv_data_missing_file f _ Hexists).
    eexists. split; [reflexivity|]. left. reflexivity.
Qed.

(* ================================================================== *)
(** * More on the loading passes *)

Section TableFacts.

Lemma table_eq_dec (t t' : table) : {t = t'} + {t <> t'}.
Proof. decide equality. Qed.

Lemma get_refs_set_same (t : table) (l : list RefRow) (db : Store) :
  get_refs t (set_refs t l db) = l.
Proof. destruct t; reflexivity. Qed.

Lemma get_refs_set_other (t t' : table) (l : list RefRow) (db : Store) :
  t' <> t -> get_refs t' (set_refs t l db) = get_refs t' db.
Proof. destruct t, t'; intros H; try reflexivity; contradiction. Qed.

Lemma decls_set_refs (t : table) (l : list RefRow) (db : Store) :
  declaraciones_importacion (set_refs t l db) = declaraciones_importacion db.
Proof. destruct t; reflexivity. Qed.

Lemma insert_all_app (a b : list pending_obj) :
  forall db, insert_all (a ++ b) db = (db' <- insert_all a db ;; insert_all b db').
Proof.
  induction a as [|o a IH]; intros db; simpl; [reflexivity|].
  destruct (insert_obj o db) as [db1|e]; simpl; [apply IH | reflexivity].
Qed.

Lemma mem_In (x : string) (l : list string) : mem x l = true <-> In x l.
Proof.
  unfold mem. rewrite existsb_exists. split.
  - intros (y & Hy & E). apply String.eqb_eq in E. subst y. exact Hy.
  - intros H. exists x. split; [exact H | apply String.eqb_refl].
Qed.

Lemma unique_from_spec (l : list string) :
  forall seen,
    NoDup (unique_from seen l)
    /\ forall x, In x (unique_from seen l) <-> In x l /\ ~ In x seen.
Proof.
  induction l as [|y l IH]; intros seen; simpl.
  - split; [constructor | intros x; tauto].
  - destruct (mem y seen) eqn:Hy.
    + apply mem_In in Hy. destruct (IH seen) as [Hnd Hin]. split; [exact Hnd|].
      intros x. rewrite Hin. split; [tauto|].
      intros [[->|H] Hn]; [contradiction | tauto].
    + assert (Hy' : ~ In y seen).
      { intros H. apply mem_In in H. congruence. }
      destruct (IH (y :: seen)) as [Hnd Hin]. split.
      * constructor; [|exact Hnd]. rewrite Hin. simpl. tauto.
      * intros x. simpl. rewrite Hin. simpl. split.
        -- intros [->|[H Hn]]; tauto.
        -- intros [[->|H] Hn]; [tauto|].
           destruct (string_dec y x) as [->|Hne]; [tauto|]. right. tauto.
Qed.

Lemma unique_NoDup (l : list string) : NoDup (unique l).
Proof. apply (unique_from_spec l []). Qed.

Lemma unique_In (l : list string) (x : string) : In x (unique l) <-> In x l.
Proof.
  unfold unique. rewrite (proj2 (unique_from_spec l [])). simpl. tauto.
Qed.

Lemma dropna_In (cells : list cell) (s : string) :
  In s (dropna cells) <-> In (Str s) cells.
Proof.
  induction cells as [|[|x] r IH]; simpl.
  - tauto.
  - rewrite IH. split; [tauto | intros [H|H]; [discriminate | exact H]].
  - rewrite IH. split; [intros [->|H]; tauto|].
    intros [H|H]; [injection H as ->; tauto | tauto].
Qed.

Lemma max_bound (ids : list Z) (x : Z) : In x ids -> x <= fold_right Z.max 0 ids.
Proof.
  induction ids as [|y ids IH]; simpl; [intros []|].
  intros [->|H]; [lia|]. specialize (IH H). lia.
Qed.

Lemma next_id_fresh (ids : list Z) : ~ In (next_id ids) ids.
Proof. intros H. apply max_bound in H. unfold next_id in H. lia. Qed.

Lemma lookup_ref_none (t : table) (db : Store) (key : string) :
  lookup_ref t db (Str key) = None <->
  forall r, In r (get_refs t db) -> ref_key r <> key.
Proof.
  unfold lookup_ref. split.
  - intros H r Hr E. pose proof (find_none _ _ H r Hr) as Hno. simpl in Hno.
    rewrite E, String.eqb_refl in Hno. discriminate.
  - intros H. destruct (find _ _) as [r|] eqn:E; [|reflexivity].
    apply find_some in E as [Hr Heq]. simpl in Heq. apply String.eqb_eq in Heq.
    exfalso. exact (H r Hr Heq).
Qed.

Lemma lookup_ref_some (t : table) (db : Store) (v : cell) (r : RefRow) :
  lookup_ref t db v = Some r -> In r (get_refs t db) /\ Str (ref_key r) = v.
Proof.
  unfold lookup_ref. intros H. apply find_some in H as [Hr Heq].
  split; [exact Hr|]. destruct v as [|s]; [discriminate|].
  simpl in Heq. apply String.eqb_eq in Heq. rewrite Heq. reflexivity.
Qed.

Lemma new_keys_spec (t : table) (db : Store) (keys : list string) (key : string) :
  In key (new_keys t db keys) <->
  In key keys /\ forall r, In r (get_refs t db) -> ref_key r <> key.
Proof.
  unfold new_keys. rewrite filter_In, <- lookup_ref_none.
  destruct (lookup_ref t db (Str key)); split; intros [H1 H2];
    (split; [exact H1|]); congruence.
Qed.

End TableFacts.

Section InsertReferences.

Variable t : table.

(** Inserting distinct keys that table [t] lacks always succeeds; it
    appends one row per key to [t] and touches nothing else. *)
Lemma insert_refs_ok (keys : list string) :
  forall db : Store,
    NoDup keys ->
    (forall key r, In key keys -> In r (get_refs t db) -> ref_key r <> key) ->
    exists db' extra,
      insert_all (map (PRef t) keys) db = Ok db'
      /\ get_refs t db' = (get_refs t db ++ extra)%list
      /\ map ref_key extra = keys
      /\ (forall t', t' <> t -> get_refs t' db' = get_refs t' db)
      /\ declaraciones_importacion db' = declaraciones_importacion db.
Proof.
  induction keys as [|key rest IH]; intros db Hnd Hnew; simpl.
  - exists db, []. rewrite app_nil_r. auto.
  - inversion Hnd as [|? ? Hnotin Hnd']; subst.
    assert (Hex : existsb (fun r => String.eqb (ref_key r) key) (get_refs t db) = false).
    { destruct (existsb _ _) eqn:E; [|reflexivity].
      apply existsb_exists in E as (r & Hr & Heq). apply String.eqb_eq in Heq.
      exfalso. exact (Hnew key r (or_introl eq_refl) Hr Heq). }
    rewrite Hex. cbn [bind].
    set (row := mkRef (next_id (map ref_id (get_refs t db))) key).
    destruct (IH (set_refs t (get_refs t db ++ [row]) db) Hnd')
      as (db' & extra & Hins & Hrefs & Hkeys & Hother & Hdecl).
    { intros k r Hk Hr. rewrite get_refs_set_same in Hr.
      apply in_app_or in Hr as [Hr|[<-|[]]].
      - apply (Hnew k r (or_intror Hk) Hr).
      - simpl. intros ->. contradiction. }
    exists db', (row :: extra). split; [exact Hins|].
    rewrite get_refs_set_same, <- app_assoc in Hrefs.
    split; [exact Hrefs|]. split; [simpl; rewrite Hkeys; reflexivity|].
    split.
    + intros t' Ht'. rewrite (Hother t' Ht'). apply get_refs_set_other, Ht'.
    + rewrite Hdecl. apply decls_set_refs.
Qed.

End InsertReferences.

Section MasterPass.

Variable df : DataFrame.

(** The keys one block of [_load_master_data] adds to its table. *)
Lemma insert_category (name : string) (t : table) (db0 db : Store) :
  get_refs t db = get_refs t db0 ->
  exists db' extra,
    insert_all (category_pending df name t db0) db = Ok db'
    /\ get_refs t db' = (get_refs t db0 ++ extra)%list
    /\ map ref_key extra
       = (if has_column (columns df) name
          then new_keys t db0 (unique (dropna (column df name)))
          else [])
    /\ (forall t', t' <> t -> get_refs t' db' = get_refs t' db)
    /\ declaraciones_importacion db' = declaraciones_importacion db.
Proof.
  intros Hsame. unfold category_pending.
  destruct (has_column (columns df) name).
  - destruct (insert_refs_ok t (new_keys t db0 (unique (dropna (column df name)))) db)
      as (db' & extra & H1 & H2 & H3 & H4 & H5).
    + apply NoDup_filter, unique_NoDup.
    + intros key r Hkey Hr. rewrite Hsame in Hr.
      apply new_keys_spec in Hkey as [_ Hkey]. apply (Hkey r Hr).
    + exists db', extra. rewrite Hsame in H2. auto.
  - exists db, []. simpl. rewrite app_nil_r. auto.
Qed.

Lemma master_insert (db : Store) :
  exists db',
    insert_all (master_pending df db) db = Ok db'
    /\ declaraciones_importacion db' = declaraciones_importacion db
    /\ forall t, exists extra,
        get_refs t db' = (get_refs t db ++ extra)%list
        /\ map ref_key extra
           = (if has_column (columns df) (category_of t)
              then new_keys t db (unique (dropna (column df (category_of t))))
              else []).
Proof.
  unfold master_pending. rewrite insert_all_app.
  destruct (insert_category "aduana" Aduana db db eq_refl)
    as (db1 & e1 & I1 & R1 & K1 & O1 & D1).
  rewrite I1. cbn [bind]. rewrite insert_all_app.
  destruct (insert_category "pais" Pais db db1) as (db2 & e2 & I2 & R2 & K2 & O2 & D2);
    [apply O1; discriminate|].
  rewrite I2. cbn [bind]. rewrite insert_all_app.
  destruct (insert_category "tipo_regimen" TipoRegimen db db2)
    as (db3 & e3 & I3 & R3 & K3 & O3 & D3);
    [rewrite O2, O1 by discriminate; reflexivity|].
  rewrite I3. cbn [bind]. rewrite insert_all_app.
  destruct (insert_category "tipo_unidad_medida" UnidadMedida db db3)
    as (db4 & e4 & I4 & R4 & K4 & O4 & D4);
    [rewrite O3, O2, O1 by discriminate; reflexivity|].
  rewrite I4. cbn [bind].
  destruct (insert_category "sac" CodigoSAC db db4)
    as (db5 & e5 & I5 & R5 & K5 & O5 & D5);
    [rewrite O4, O3, O2, O1 by discriminate; reflexivity|].
  exists db5. split; [exact I5|]. split; [congruence|].
  intros [].
  - exists e1. split; [|exact K1].
    rewrite O5, O4, O3, O2 by discriminate. exact R1.
  - exists e2. split; [|exact K2].
    rewrite O5, O4, O3 by discriminate. exact R2.
  - exists e3. split; [|exact K3]. rewrite O5, O4 by discriminate. exact R3.
  - exists e4. split; [|exact K4]. rewrite O5 by discriminate. exact R4.
  - exists e5. split; [exact R5 | exact K5].
Qed.

Lemma required_column_present (t : table) :
  forallb (has_column (columns df)) required_columns = true ->
  has_column (columns df) (category_of t) = true.
Proof.
  intros H. rewrite forallb_forall in H. apply H.
  destruct t; simpl; tauto.
Qed.

End MasterPass.

(** X11. When [_load_master_data] returns, in a fresh session and on a
    dataframe of text cells that has the five reference columns, nothing
    is left pending, the fact table is as it was, and each reference
    table has only been appended to: the rows added carry, once each,
    exactly the non-missing values of the table's column that had no row
    yet. *)
Theorem load_master_data_appends (df : DataFrame) (db : Store) (s : Session) :
  forallb (has_column (columns df)) required_columns = true ->
  _load_master_data df (SessionLocal db) = (Ok tt, s) ->
  pending s = []
  /\ declaraciones_importacion (store s) = declaraciones_importacion db
  /\ forall t, exists extra,
      get_refs t (store s) = (get_refs t db ++ extra)%list
      /\ NoDup (map ref_key extra)
      /\ forall key,
          In key (map ref_key extra)
          <-> In (Str key) (column df (category_of t))
              /\ forall r, In r (get_refs t db) -> ref_key r <> key.
Proof.
  intros Hcols Hrun. unfold SessionLocal in Hrun.
  destruct (repeated_reference df) eqn:Hrep.
  { destruct (load_master_data_repeated db df [] Hcols Hrep) as [pend' E].
    rewrite E in Hrun. discriminate. }
  rewrite (load_master_data_noflush db df [] Hrep), Hcols in Hrun. simpl app in Hrun.
  destruct (master_insert df db) as (db' & Hins & Hdecl & Hrefs).
  rewrite Hins in Hrun. injection Hrun as <-. cbn [pending store].
  split; [reflexivity|]. split; [exact Hdecl|].
  intros t. destruct (Hrefs t) as (extra & Hget & Hkeys).
  rewrite (required_column_present df t Hcols) in Hkeys.
  exists extra. split; [exact Hget|]. rewrite Hkeys. split.
  - apply NoDup_filter, unique_NoDup.
  - intros key. rewrite new_keys_spec, unique_In, dropna_In. tauto.
Qed.

Lemma load_master_data_appends_witness :
  exists s,
    _load_master_data (frame_of [caballos_line; caballos_line])
                      (SessionLocal empty_store)
    = (Ok tt, s)
    /\ pending s = []
    /\ declaraciones_importacion (store s) = []
    /\ map ref_key (aduanas (store s)) = ["PuertoX"]
    /\ map ref_key (codigos_sac (store s)) = ["0101.21.00"].
Proof.
  assert (H : exists s,
             _load_master_data (frame_of [caballos_line; caballos_line])
                               (SessionLocal empty_store)
             = (Ok tt, s)) by (eexists; vm_compute; reflexivity).
  destruct H as [s H]. exists s. split; [exact H|].
  destruct (load_master_data_appends
              (frame_of [caballos_line; caballos_line]) empty_store s eq_refl H)
    as (Hp & Hd & _).
  split; [exact Hp|]. split; [exact Hd|].
  vm_compute in H. injection H as <-. split; reflexivity.
Defined.

(** X12. A dataframe that lacks one of the five reference columns loads
    nothing: both passes return without an error, every row is counted as
    an error, and the database is left as it was. *)
Theorem load_passes_missing_column (df : DataFrame) (db : Store) (col : string) :
  In col required_columns ->
  has_column (columns df) col = false ->
  run_load_passes df db = (Ok (0%nat, df_len df), db).
Proof.
  intros Hin Hmiss.
  assert (Hcols : forallb (has_column (columns df)) required_columns = false).
  { destruct (forallb _ _) eqn:E; [|reflexivity].
    rewrite forallb_forall in E. rewrite (E col Hin) in Hmiss. discriminate. }
  assert (Hrej : forall rs, rejected_count (columns df) rs db = List.length rs).
  { unfold rejected_count. induction rs as [|row rest IH]; [reflexivity|].
    simpl. rewrite (classify_missing_columns _ db row Hcols). simpl.
    rewrite IH. reflexivity. }
  rewrite run_load_passes_unfold, Hcols, final_counts_split.
  rewrite (staged_rows_missing_columns _ _ _ Hcols), Hrej. reflexivity.
Qed.

Lemma load_passes_missing_column_witness :
  run_load_passes (mkDataFrame ["aduana"; "pais"; "correlativo"]
                               [[Str "PuertoX"; Str "CountryY"; Str "COR001"]])
                  empty_store
  = (Ok (0%nat, 1%nat), empty_store).
Proof.
  apply (load_passes_missing_column
           (mkDataFrame ["aduana"; "pais"; "correlativo"]
                        [[Str "PuertoX"; Str "CountryY"; Str "COR001"]])
           empty_store "sac"); [simpl; tauto | reflexivity].
Defined.

Section DeclarationPass.

Lemma staged_rows_decls (labels : list string) (rs : list (list cell)) (db : Store) :
  staged_rows labels rs db = map PDecl (staged_decls labels rs db).
Proof.
  unfold staged_rows, staged_decls.
  induction rs as [|row rest IH]; simpl; [reflexivity|].
  rewrite map_app, IH. destruct (classify labels row db); reflexivity.
Qed.

Lemma decls_set_declaraciones (l : list DeclaracionImportacion) (db : Store) :
  declaraciones_importacion (set_declaraciones l db) = l.
Proof. reflexivity. Qed.

(** The outcome of inserting declarations: either all are appended, each
    with an id, or one of them has a NULL text or number and the insert
    fails. *)
Lemma insert_decls_spec (ds : list DeclaracionImportacion) :
  forall db : Store,
    match insert_all (map PDecl ds) db with
    | Ok db' =>
        (forall t, get_refs t db' = get_refs t db)
        /\ exists extra,
            declaraciones_importacion db'
            = (declaraciones_importacion db ++ extra)%list
            /\ map forget_id extra = map forget_id ds
            /\ Forall (fun e => decl_id e <> None) extra
            /\ Forall (fun d => isna (correlativo d) = false
                                /\ isna (descripcion d) = false) ds
    | Raise e =>
        (exists m, e = IntegrityError m)
        /\ exists d, In d ds
                     /\ isna (correlativo d) || isna (descripcion d) || has_nan d
                        = true
    end.
Proof.
  induction ds as [|d rest IH]; intros db; simpl.
  - split; [reflexivity|]. exists []. rewrite app_nil_r. auto.
  - destruct (isna (correlativo d) || isna (descripcion d) || has_nan d) eqn:Hna;
      cbn [bind].
    + split; [eexists; reflexivity|]. exists d. auto.
    + apply orb_false_elim in Hna as [Hna _].
      apply orb_false_elim in Hna as [Hc Hd].
      match goal with
      | |- context [insert_all _ ?x] => specialize (IH x); set (db1 := x) in *
      end.
      destruct (insert_all (map PDecl rest) db1) as [db'|e].
      * destruct IH as (Hrefs & extra & Hdecl & Hmap & Hid & Hna).
        split.
        -- intros t. rewrite Hrefs. subst db1. apply get_set_declaraciones.
        -- subst db1. rewrite decls_set_declaraciones, <- app_assoc in Hdecl.
           eexists. split; [exact Hdecl|]. simpl. rewrite Hmap.
           split; [reflexivity|]. split; constructor; auto. discriminate.
      * destruct IH as (He & d' & Hin & Hna'). split; [exact He|].
        exists d'. auto.
Qed.

Lemma build_declaracion_fields (labels : list string) (row : list cell)
      (fecha : date) (a p r u s : RefRow) (d : DeclaracionImportacion) :
  build_declaracion labels row fecha a p r u s = Ok d ->
  decl_id d = None
  /\ fecha_declaracion d = fecha
  /\ aduana_id d = ref_id a /\ pais_id d = ref_id p
  /\ tipo_regimen_id d = ref_id r /\ unidad_medida_id d = ref_id u
  /\ codigo_sac_id d = ref_id s
  /\ row_get labels row "correlativo" = Ok (correlativo d)
  /\ row_get labels row "descripcion" = Ok (descripcion d)
  /\ float_field labels row "tipo_cambio_dolar" (tipo_cambio_dolar d)
  /\ float_field labels row "cantidad_fraccion" (cantidad_fraccion d)
  /\ float_field labels row "tasa_dai" (tasa_dai d)
  /\ float_field labels row "valor_dai" (valor_dai d)
  /\ float_field labels row "valor_cif_uds" (valor_cif_usd d)
  /\ float_field labels row "tasa_cif_cantidad_fraccion" (tasa_cif_cantidad_fraccion d).
Proof.
  unfold build_declaracion, float_field. intros H.
  apply bind_ok_inv in H as (v1 & H1 & H).
  apply bind_ok_inv in H as (v2 & H2 & H).
  apply bind_ok_inv in H as (v3 & H3 & H).
  apply bind_ok_inv in H as (v4 & H4 & H).
  apply bind_ok_inv in H as (v5 & H5 & H).
  apply bind_ok_inv in H as (v6 & H6 & H).
  apply bind_ok_inv in H as (v7 & H7 & H).
  apply bind_ok_inv in H as (v8 & H8 & H).
  apply bind_ok_inv in H2 as (w2 & ? & ?).
  apply bind_ok_inv in H4 as (w4 & ? & ?).
  apply bind_ok_inv in H5 as (w5 & ? & ?).
  apply bind_ok_inv in H6 as (w6 & ? & ?).
  apply bind_ok_inv in H7 as (w7 & ? & ?).
  apply bind_ok_inv in H8 as (w8 & ? & ?).
  injection H as <-. simpl. repeat split; eauto.
Qed.

(** What it takes for a row to be staged. *)
Lemma classify_staged_reflects (labels : list string) (row : list cell) (db : Store)
      (d : DeclaracionImportacion) :
  classify labels row db = Staged d ->
  reflects labels row db d
  /\ decl_id d = None
  /\ lookup_decl db (correlativo d) (codigo_sac_id d) (descripcion d) = None.
Proof.
  unfold classify.
  destruct (negb (forallb (has_column labels) required_columns)); [discriminate|].
  destruct (row_get labels row "aduana") as [v1|] eqn:G1; [|discriminate].
  destruct (row_get labels row "pais") as [v2|] eqn:G2; [|discriminate].
  destruct (row_get labels row "tipo_regimen") as [v3|] eqn:G3; [|discriminate].
  destruct (row_get labels row "tipo_unidad_medida") as [v4|] eqn:G4; [|discriminate].
  destruct (row_get labels row "sac") as [v5|] eqn:G5; [|discriminate].
  cbn [bind].
  destruct (lookup_ref Aduana db v1) as [a|] eqn:L1; [|discriminate].
  destruct (lookup_ref Pais db v2) as [p|] eqn:L2; [|discriminate].
  destruct (lookup_ref TipoRegimen db v3) as [r|] eqn:L3; [|discriminate].
  destruct (lookup_ref UnidadMedida db v4) as [u|] eqn:L4; [|discriminate].
  destruct (lookup_ref CodigoSAC db (Str (cell_str v5))) as [s|] eqn:L5; [|discriminate].
  destruct (v <- row_get labels row "fecha_declaracion";; _parse_date v)
    as [fecha|] eqn:F; [|discriminate].
  apply bind_ok_inv in F as (vf & Gf & Pf).
  destruct (row_get labels row "correlativo") as [c|] eqn:Gc; [|discriminate].
  destruct (row_get labels row "descripcion") as [dsc|] eqn:Gd; [|discriminate].
  cbn [bind].
  destruct (lookup_decl db c (ref_id s) dsc) eqn:Ldecl; [discriminate|].
  destruct (build_declaracion labels row fecha a p r u s) as [decl|] eqn:Hb;
    [|discriminate].
  intros H. injection H as <-.
  destruct (build_declaracion_fields _ _ _ _ _ _ _ _ _ Hb)
    as (Hid & Hf & Ia & Ip & Ir & Iu & Is & Kc & Kd & F1 & F2 & F3 & F4 & F5 & F6).
  apply lookup_ref_some in L1 as [M1 E1]. apply lookup_ref_some in L2 as [M2 E2].
  apply lookup_ref_some in L3 as [M3 E3]. apply lookup_ref_some in L4 as [M4 E4].
  apply lookup_ref_some in L5 as [M5 E5].
  rewrite Gc in Kc. rewrite Gd in Kd. injection Kc as Kc. injection Kd as Kd.
  subst c dsc.
  split; [|split; [exact Hid | rewrite Is; exact Ldecl]].
  unfold reflects, resolves.
  split; [exists v1; split; [exact G1|]; exists a; auto|].
  split; [exists v2; split; [exact G2|]; exists p; auto|].
  split; [exists v3; split; [exact G3|]; exists r; auto|].
  split; [exists v4; split; [exact G4|]; exists u; auto|].
  split; [exists v5; split; [exact G5|]; exists s; auto|].
  split; [exists vf; rewrite Hf; auto|].
  split; [exact Gc|]. split; [exact Gd|].
  repeat (split; [assumption|]). assumption.
Qed.

Lemma staged_decls_In (labels : list string) (rs : list (list cell)) (db : Store)
      (d : DeclaracionImportacion) :
  In d (staged_decls labels rs db) <->
  exists row, In row rs /\ classify labels row db = Staged d.
Proof.
  unfold staged_decls. rewrite in_flat_map. split.
  - intros (row & Hrow & Hd). exists row. split; [exact Hrow|].
    destruct (classify labels row db); simpl in Hd; try contradiction.
    destruct Hd as [->|[]]. reflexivity.
  - intros (row & Hrow & Hc). exists row. split; [exact Hrow|].
    rewrite Hc. left. reflexivity.
Qed.

Lemma staged_and_rejected (labels : list string) (rs : list (list cell)) (db : Store) :
  (List.length (staged_decls labels rs db) + rejected_count labels rs db
   <= List.length rs)%nat.
Proof.
  unfold staged_decls, rejected_count.
  induction rs as [|row rest IH]; simpl; [lia|].
  destruct (classify labels row db); simpl; rewrite ?length_app; simpl; lia.
Qed.

(** The declarations pass in a fresh session, whole. *)
Lemma load_declarations_outcome (df : DataFrame) (db : Store) :
  match _load_declarations df (SessionLocal db) with
  | (Ok c, s) =>
      autoflush s = false /\ pending s = []
      /\ (forall t, get_refs t (store s) = get_refs t db)
      /\ exists extra,
          declaraciones_importacion (store s)
          = (declaraciones_importacion db ++ extra)%list
          /\ map forget_id extra
             = map forget_id (staged_decls (columns df) (rows df) db)
          /\ Forall (fun e => decl_id e <> None) extra
          /\ Forall (fun d => isna (correlativo d) = false
                              /\ isna (descripcion d) = false)
                    (staged_decls (columns df) (rows df) db)
          /\ c = (List.length extra, rejected_count (columns df) (rows df) db)
  | (Raise e, s) =>
      store s = db
      /\ (exists m, e = IntegrityError m)
      /\ exists d, In d (staged_decls (columns df) (rows df) db)
                   /\ isna (correlativo d) || isna (descripcion d) || has_nan d
                      = true
  end.
Proof.
  unfold SessionLocal. rewrite load_declarations_noflush. simpl app.
  rewrite staged_rows_decls.
  pose proof (insert_decls_spec (staged_decls (columns df) (rows df) db) db) as H.
  destruct (insert_all (map PDecl (staged_decls (columns df) (rows df) db)) db)
    as [db'|e].
  - destruct H as (Hrefs & extra & Hdecl & Hmap & Hid & Hna).
    split; [reflexivity|]. split; [reflexivity|]. split; [exact Hrefs|].
    exists extra. repeat split; try assumption.
    rewrite final_counts_split, staged_rows_decls, length_map. simpl.
    f_equal. rewrite <- (length_map forget_id extra), Hmap, length_map.
    reflexivity.
  - destruct H as (He & Hd). split; [reflexivity|]. split; assumption.
Qed.

End DeclarationPass.

Section DeclarationFacts.

Lemma added_is_staged (df : DataFrame) (db : Store) (c : counts) (s : Session)
      (extra : list DeclaracionImportacion) (e : DeclaracionImportacion) :
  _load_declarations df (SessionLocal db) = (Ok c, s) ->
  declaraciones_importacion (store s) = (declaraciones_importacion db ++ extra)%list ->
  In e extra ->
  exists row d, In row (rows df)
                /\ classify (columns df) row db = Staged d
                /\ forget_id d = forget_id e.
Proof.
  intros Hrun Hextra He.
  pose proof (load_declarations_outcome df db) as H. rewrite Hrun in H.
  destruct H as (_ & _ & _ & extra' & Hdecl & Hmap & _).
  rewrite Hdecl in Hextra. apply app_inv_head in Hextra. subst extra'.
  assert (Hin : In (forget_id e) (map forget_id extra)) by (apply in_map, He).
  rewrite Hmap in Hin. apply in_map_iff in Hin as (d & Hd & Hstaged).
  apply staged_decls_In in Hstaged as (row & Hrow & Hc).
  exists row, d. auto.
Qed.

End DeclarationFacts.

(** X13. When [_load_declarations] returns in a fresh session, nothing is
    left pending, no reference table has changed, the fact table is the
    old one followed by the new records, each with an id, and the success
    counter is the number of new records; the two counters together never
    exceed the number of rows. *)
Theorem load_declarations_appends (df : DataFrame) (db : Store) (c : counts)
        (s : Session) :
  _load_declarations df (SessionLocal db) = (Ok c, s) ->
  pending s = []
  /\ (forall t, get_refs t (store s) = get_refs t db)
  /\ (exists extra,
         declaraciones_importacion (store s)
         = (declaraciones_importacion db ++ extra)%list
         /\ List.length extra = fst c
         /\ Forall (fun e => decl_id e <> None) extra)
  /\ (fst c + snd c <= df_len df)%nat.
Proof.
  intros Hrun.
  pose proof (load_declarations_outcome df db) as H. rewrite Hrun in H.
  destruct H as (_ & Hpend & Hrefs & extra & Hdecl & Hmap & Hid & _ & ->).
  split; [exact Hpend|]. split; [exact Hrefs|]. split.
  - exists extra. auto.
  - simpl. pose proof (staged_and_rejected (columns df) (rows df) db) as Hle.
    rewrite <- (length_map forget_id extra), Hmap, length_map. exact Hle.
Qed.

(** X14. Every record [_load_declarations] adds says what one row of the
    dataframe says: its correlativo and description, its parsed date, its
    six numbers as [_safe_float_conversion] gives them (the CIF value
    read from the column [valor_cif_uds]), and the ids of the reference
    rows that the row's five names have in the database. *)
Theorem load_declarations_records_reflect_rows
        (df : DataFrame) (db : Store) (c : counts) (s : Session)
        (extra : list DeclaracionImportacion) (e : DeclaracionImportacion) :
  _load_declarations df (SessionLocal db) = (Ok c, s) ->
  declaraciones_importacion (store s) = (declaraciones_importacion db ++ extra)%list ->
  In e extra ->
  exists row, In row (rows df) /\ reflects (columns df) row db e.
Proof.
  intros Hrun Hextra He.
  destruct (added_is_staged df db c s extra e Hrun Hextra He)
    as (row & d & Hrow & Hc & Hforget).
  exists row. split; [exact Hrow|].
  apply classify_staged_reflects in Hc as (Hrefl & _ & _).
  change (reflects (columns df) row db (forget_id e)).
  rewrite <- Hforget. exact Hrefl.
Qed.

(** X15. No record [_load_declarations] adds has the natural key
    (correlativo, codigo_sac_id, descripcion) of a record that was in the
    fact table before the load. *)
Theorem load_declarations_no_persisted_duplicate
        (df : DataFrame) (db : Store) (c : counts) (s : Session)
        (extra : list DeclaracionImportacion) (e x : DeclaracionImportacion) :
  _load_declarations df (SessionLocal db) = (Ok c, s) ->
  declaraciones_importacion (store s) = (declaraciones_importacion db ++ extra)%list ->
  In e extra ->
  In x (declaraciones_importacion db) ->
  natural_key_matches (correlativo e) (codigo_sac_id e) (descripcion e) x = false.
Proof.
  intros Hrun Hextra He Hx.
  destruct (added_is_staged df db c s extra e Hrun Hextra He)
    as (row & d & Hrow & Hc & Hforget).
  apply classify_staged_reflects in Hc as (_ & _ & Hnone).
  assert (Hkey : correlativo d = correlativo e /\ codigo_sac_id d = codigo_sac_id e
                 /\ descripcion d = descripcion e).
  { change (correlativo (forget_id d) = correlativo (forget_id e)
            /\ codigo_sac_id (forget_id d) = codigo_sac_id (forget_id e)
            /\ descripcion (forget_id d) = descripcion (forget_id e)).
    rewrite Hforget. auto. }
  destruct Hkey as (K1 & K2 & K3). rewrite K1, K2, K3 in Hnone.
  apply (find_none _ _ Hnone x Hx).
Qed.

(** X16. [_load_declarations] can fail only at its commit, with an
    IntegrityError, and only when some row of the dataframe has no
    correlativo, no description, or one of its six numbers converting to
    NaN (which the database receives as NULL); the database is then left
    as it was. *)
Theorem load_declarations_failure (df : DataFrame) (db : Store) (e : exn)
        (s : Session) :
  _load_declarations df (SessionLocal db) = (Raise e, s) ->
  store s = db
  /\ (exists m, e = IntegrityError m)
  /\ exists row, In row (rows df)
                 /\ (row_get (columns df) row "correlativo" = Ok NA
                     \/ row_get (columns df) row "descripcion" = Ok NA
                     \/ exists name v,
                         In name float_columns
                         /\ row_get (columns df) row name = Ok v
                         /\ _safe_float_conversion v = Ok FNan).
Proof.
  intros Hrun.
  pose proof (load_declarations_outcome df db) as H. rewrite Hrun in H.
  destruct H as (Hstore & He & d & Hd & Hna).
  split; [exact Hstore|]. split; [exact He|].
  apply staged_decls_In in Hd as (row & Hrow & Hc).
  apply classify_staged_reflects in Hc as (Hrefl & _ & _).
  destruct Hrefl as (_ & _ & _ & _ & _ & _ & Gc & Gd & F1 & F2 & F3 & F4 & F5 & F6).
  exists row. split; [exact Hrow|].
  assert (Hfield : forall name x,
             In name float_columns ->
             float_field (columns df) row name x -> is_nan x = true ->
             exists name v, In name float_columns
                            /\ row_get (columns df) row name = Ok v
                            /\ _safe_float_conversion v = Ok FNan).
  { intros name x Hname (v & Hv & Hx) Hnan. exists name, v.
    destruct x; try discriminate. auto. }
  apply orb_prop in Hna as [Hna|Hna]; [apply orb_prop in Hna as [Hna|Hna]|].
  - left. destruct (correlativo d); [exact Gc | discriminate].
  - right. left. destruct (descripcion d); [exact Gd | discriminate].
  - right. right. unfold has_nan in Hna.
    repeat (apply orb_prop in Hna as [Hna|Hna]);
      first
      [ apply (Hfield "tipo_cambio_dolar" _ ltac:(simpl; tauto) F1 Hna)
      | apply (Hfield "cantidad_fraccion" _ ltac:(simpl; tauto) F2 Hna)
      | apply (Hfield "tasa_dai" _ ltac:(simpl; tauto) F3 Hna)
      | apply (Hfield "valor_dai" _ ltac:(simpl; tauto) F4 Hna)
      | apply (Hfield "valor_cif_uds" _ ltac:(simpl; tauto) F5 Hna)
      | apply (Hfield "tasa_cif_cantidad_fraccion" _ ltac:(simpl; tauto) F6 Hna) ].
Qed.

Lemma load_declarations_appends_witness :
  exists s,
    _load_declarations (frame_of [caballos_line]) (SessionLocal caballos_references)
    = (Ok (1%nat, 0%nat), s)
    /\ pending s = []
    /\ codigos_sac (store s) = codigos_sac caballos_references
    /\ List.length (declaraciones_importacion (store s)) = 1%nat.
Proof.
  assert (H : exists s,
             _load_declarations (frame_of [caballos_line])
                                (SessionLocal caballos_references)
             = (Ok (1%nat, 0%nat), s)) by (eexists; vm_compute; reflexivity).
  destruct H as [s H]. exists s. split; [exact H|].
  destruct (load_declarations_appends _ _ _ _ H)
    as (Hp & Hr & (extra & Hd & Hl & _) & _).
  split; [exact Hp|]. split; [exact (Hr CodigoSAC)|].
  rewrite Hd, length_app, Hl. reflexivity.
Defined.

Lemma load_declarations_records_reflect_rows_witness :
  exists s e,
    _load_declarations (frame_of [caballos_line]) (SessionLocal caballos_references)
    = (Ok (1%nat, 0%nat), s)
    /\ declaraciones_importacion (store s) = [e]
    /\ exists row, In row (rows (frame_of [caballos_line]))
                   /\ reflects declaration_header row caballos_references e.
Proof.
  assert (H : exists s e,
             _load_declarations (frame_of [caballos_line])
                                (SessionLocal caballos_references)
             = (Ok (1%nat, 0%nat), s)
             /\ declaraciones_importacion (store s) = [e])
    by (do 2 eexists; split; vm_compute; reflexivity).
  destruct H as (s & e & H & Hd). exists s, e.
  split; [exact H|]. split; [exact Hd|].
  apply (load_declarations_records_reflect_rows _ _ _ _ [e] e H);
    [exact Hd | left; reflexivity].
Defined.

Lemma load_declarations_no_persisted_duplicate_witness :
  exists s e1 e2,
    _load_declarations (frame_of [caballos_line; yeguas_line])
                       (SessionLocal loaded_caballos)
    = (Ok (1%nat, 0%nat), s)
    /\ declaraciones_importacion (store s) = [e1; e2]
    /\ natural_key_matches (correlativo e2) (codigo_sac_id e2) (descripcion e2) e1
       = false.
Proof.
  assert (H : exists s e1 e2,
             _load_declarations (frame_of [caballos_line; yeguas_line])
                                (SessionLocal loaded_caballos)
             = (Ok (1%nat, 0%nat), s)
             /\ declaraciones_importacion (store s) = [e1; e2]
             /\ declaraciones_importacion loaded_caballos = [e1])
    by (do 3 eexists; split; [|split]; vm_compute; reflexivity).
  destruct H as (s & e1 & e2 & H & Hd & Hold). exists s, e1, e2.
  split; [exact H|]. split; [exact Hd|].
  apply (load_declarations_no_persisted_duplicate _ _ _ _ [e2] e2 e1 H).
  - rewrite Hd, Hold. reflexivity.
  - left. reflexivity.
  - rewrite Hold. left. reflexivity.
Defined.

Lemma load_declarations_failure_witness :
  (exists e s,
      _load_declarations caballos_without_correlativo
                         (SessionLocal caballos_references)
      = (Raise e, s)
      /\ store s = caballos_references
      /\ exists m, e = IntegrityError m)
  /\ (exists e s,
         _load_declarations (frame_of [caballos_nan_line])
                            (SessionLocal caballos_references)
         = (Raise e, s)
         /\ store s = caballos_references
         /\ exists m, e = IntegrityError m).
Proof.
  split.
  - assert (H : exists e s,
               _load_declarations caballos_without_correlativo
                                  (SessionLocal caballos_references)
               = (Raise e, s)) by (do 2 eexists; vm_compute; reflexivity).
    destruct H as (e & s & H). exists e, s. split; [exact H|].
    destruct (load_declarations_failure _ _ _ _ H) as (Hs & He & _).
    split; assumption.
  - assert (H : exists e s,
               _load_declarations (frame_of [caballos_nan_line])
                                  (SessionLocal caballos_references)
               = (Raise e, s)) by (do 2 eexists; vm_compute; reflexivity).
    destruct H as (e & s & H). exists e, s. split; [exact H|].
    destruct (load_declarations_failure _ _ _ _ H) as (Hs & He & _).
    split; assumption.
Defined.

Section Constraints.

Lemma NoDup_snoc {A : Type} (l : list A) (x : A) :
  NoDup l -> ~ In x l -> NoDup (l ++ [x]).
Proof.
  intros Hl Hx. induction Hl as [|y l Hy Hl IH]; simpl.
  - constructor; [intros [] | constructor].
  - constructor.
    + rewrite in_app_iff. simpl. intros [H|[H|[]]]; [contradiction|].
      subst. apply Hx. left. reflexivity.
    + apply IH. intros H. apply Hx. right. exact H.
Qed.

Lemma decl_ids_app (l l' : list DeclaracionImportacion) :
  decl_ids (l ++ l') = (decl_ids l ++ decl_ids l')%list.
Proof. unfold decl_ids. apply flat_map_app. Qed.

Lemma fks_ok_mono (db db' : Store) (d : DeclaracionImportacion) :
  (forall t r, In r (get_refs t db) -> In r (get_refs t db')) ->
  fks_ok db d -> fks_ok db' d.
Proof.
  intros Hmono (H1 & H2 & H3 & H4 & H5). unfold fks_ok, fk_ok in *.
  destruct H1 as (r1 & ? & ?), H2 as (r2 & ? & ?), H3 as (r3 & ? & ?),
           H4 as (r4 & ? & ?), H5 as (r5 & ? & ?).
  repeat split; eauto.
Qed.

Lemma fks_ok_forget (db : Store) (d : DeclaracionImportacion) :
  fks_ok db (forget_id d) <-> fks_ok db d.
Proof. reflexivity. Qed.

(** One INSERT keeps the constraints, provided the foreign keys of an
    inserted declaration point to rows. *)
Lemma insert_obj_store_ok (o : pending_obj) (db db' : Store) :
  store_ok db ->
  (forall d, o = PDecl d -> fks_ok db d) ->
  insert_obj o db = Ok db' ->
  store_ok db'.
Proof.
  intros (Htab & Hids & Hdecl) Hfk Hins.
  assert (Hmono : forall t r, In r (get_refs t db) -> In r (get_refs t db')).
  { intros t r. apply (insert_obj_keeps_refs _ _ _ _ _ Hins). }
  destruct o as [t key|d]; simpl in Hins.
  - destruct (existsb (fun r => String.eqb (ref_key r) key) (get_refs t db)) eqn:Hex;
      [discriminate|].
    injection Hins as <-.
    split; [|split].
    + intros t'. destruct (table_eq_dec t' t) as [->|Hne].
      * rewrite get_refs_set_same. destruct (Htab t) as [Hi Hk].
        split; rewrite map_app; simpl; apply NoDup_snoc; try assumption.
        -- apply next_id_fresh.
        -- intros Hin. apply in_map_iff in Hin as (r & Hr & Hin).
           assert (E : existsb (fun r => String.eqb (ref_key r) key) (get_refs t db)
                       = true).
           { apply existsb_exists. exists r. split; [exact Hin|].
             rewrite Hr. apply String.eqb_refl. }
           congruence.
      * rewrite (get_refs_set_other t t' _ db Hne). apply Htab.
    + rewrite decls_set_refs. exact Hids.
    + rewrite decls_set_refs. intros d Hd.
      destruct (Hdecl d Hd) as (D1 & D2 & D3 & D4).
      split; [exact D1|]. split; [exact D2|]. split; [exact D3|].
      apply (fks_ok_mono db); assumption.
  - destruct (isna (correlativo d)) eqn:Hc; [discriminate|].
    destruct (isna (descripcion d)) eqn:Hd; [discriminate|].
    destruct (has_nan d); [discriminate|].
    simpl in Hins. injection Hins as <-.
    split; [|split].
    + intros t. rewrite get_set_declaraciones. apply Htab.
    + simpl. rewrite decl_ids_app. simpl. apply NoDup_snoc; [exact Hids|].
      apply next_id_fresh.
    + simpl. intros x Hx. apply in_app_or in Hx as [Hx|[<-|[]]].
      * destruct (Hdecl x Hx) as (D1 & D2 & D3 & D4).
        split; [exact D1|]. split; [exact D2|]. split; [exact D3|].
        apply (fks_ok_mono db); [|exact D4].
        intros t r. rewrite get_set_declaraciones. auto.
      * split; [discriminate|]. split; [exact Hc|]. split; [exact Hd|].
        apply (fks_ok_mono db); [|exact (Hfk d eq_refl)].
        intros t r. rewrite get_set_declaraciones. auto.
Qed.

Lemma insert_all_store_ok (objs : list pending_obj) :
  forall db db' : Store,
    store_ok db ->
    (forall d, In (PDecl d) objs -> fks_ok db d) ->
    insert_all objs db = Ok db' ->
    store_ok db'.
Proof.
  induction objs as [|o rest IH]; intros db db' Hok Hfk; simpl.
  - intros H. injection H as <-. exact Hok.
  - destruct (insert_obj o db) as [db1|e] eqn:Ho; simpl; [|discriminate].
    intros H. apply (IH db1 db'); [| |exact H].
    + apply (insert_obj_store_ok o db db1 Hok); [|exact Ho].
      intros d ->. apply Hfk. left. reflexivity.
    + intros d Hd. apply (fks_ok_mono db).
      * intros t r. apply (insert_obj_keeps_refs _ _ _ _ _ Ho).
      * apply Hfk. right. exact Hd.
Qed.

Lemma master_pending_refs (df : DataFrame) (db : Store) (d : DeclaracionImportacion) :
  ~ In (PDecl d) (master_pending df db).
Proof.
  unfold master_pending, category_pending. rewrite !in_app_iff.
  assert (H : forall t keys, ~ In (PDecl d) (map (PRef t) keys)).
  { intros t keys Hin. apply in_map_iff in Hin as (k & Hk & _). discriminate. }
  repeat match goal with
         | |- context [has_column ?c ?n] => destruct (has_column c n)
         end; simpl; intuition (eapply H; eassumption).
Qed.

Lemma reflects_fks_ok (labels : list string) (row : list cell) (db : Store)
      (d : DeclaracionImportacion) :
  reflects labels row db d -> fks_ok db d.
Proof.
  intros ((v1 & _ & r1 & M1 & _ & I1) & (v2 & _ & r2 & M2 & _ & I2)
          & (v3 & _ & r3 & M3 & _ & I3) & (v4 & _ & r4 & M4 & _ & I4)
          & (v5 & _ & r5 & M5 & _ & I5) & _).
  unfold fks_ok, fk_ok. repeat split; eauto.
Qed.

Lemma empty_store_ok : store_ok empty_store.
Proof.
  split; [|split].
  - intros t. destruct t; split; constructor.
  - constructor.
  - intros d [].
Qed.

Lemma master_insert_store_ok (df : DataFrame) (db dbA : Store) :
  store_ok db ->
  insert_all (master_pending df db) db = Ok dbA ->
  store_ok dbA.
Proof.
  intros Hok Hmaster.
  apply (insert_all_store_ok (master_pending df db) db dbA Hok); [|exact Hmaster].
  intros d Hd. exfalso. exact (master_pending_refs df db d Hd).
Qed.

Lemma staged_insert_store_ok (df : DataFrame) (dbA dbB : Store) :
  store_ok dbA ->
  insert_all (staged_rows (columns df) (rows df) dbA) dbA = Ok dbB ->
  store_ok dbB.
Proof.
  intros HokA Hdecl.
  apply (insert_all_store_ok (staged_rows (columns df) (rows df) dbA) dbA dbB HokA);
    [|exact Hdecl].
  intros d Hd.
  apply staged_rows_are_declarations in Hd as (row & d' & _ & Hc & E).
  injection E as <-.
  apply classify_staged_reflects in Hc as (Hrefl & _ & _).
  apply (reflects_fks_ok _ _ _ _ Hrefl).
Qed.

Lemma loaded_caballos_ok : store_ok loaded_caballos.
Proof.
  assert (H : exists dbA,
             insert_all (master_pending (frame_of [caballos_line]) empty_store)
                        empty_store = Ok dbA
             /\ insert_all (staged_rows declaration_header
                                        (rows (frame_of [caballos_line])) dbA) dbA
                = Ok loaded_caballos).
  { eexists. split; vm_compute; reflexivity. }
  destruct H as (dbA & HA & HB).
  apply (staged_insert_store_ok (frame_of [caballos_line]) dbA _
           (master_insert_store_ok _ _ _ empty_store_ok HA) HB).
Qed.

End Constraints.

(** X17. The two loading passes keep the constraints of models.py: if
    before the run the primary keys and the natural keys of the reference
    tables are unique, every declaration has an id, a correlativo, a
    description and foreign keys that point to rows, then the same holds
    of the database the run leaves, whether it returned or raised. *)
Theorem load_passes_keep_constraints (df : DataFrame) (db db' : Store)
        (r : result counts) :
  store_ok db ->
  run_load_passes df db = (r, db') ->
  store_ok db'.
Proof.
  intros Hok. rewrite run_load_passes_unfold.
  destruct (forallb (has_column (columns df)) required_columns).
  2:{ intros H. injection H as _ <-. exact Hok. }
  destruct (repeated_reference df).
  { intros H. injection H as _ <-. exact Hok. }
  destruct (insert_all (master_pending df db) db) as [dbA|e] eqn:Hmaster.
  2:{ intros H. injection H as _ <-. exact Hok. }
  pose proof (master_insert_store_ok df db dbA Hok Hmaster) as HokA.
  destruct (insert_all (staged_rows (columns df) (rows df) dbA) dbA)
    as [dbB|e] eqn:Hdecl.
  2:{ intros H. injection H as _ <-. exact HokA. }
  intros H. injection H as _ <-.
  apply (staged_insert_store_ok df dbA dbB HokA Hdecl).
Qed.

Lemma load_passes_keep_constraints_witness :
  exists db',
    run_load_passes (frame_of [caballos_line; caballos_line]) empty_store
    = (Ok (2%nat, 0%nat), db')
    /\ store_ok db'.
Proof.
  assert (H : exists db',
             run_load_passes (frame_of [caballos_line; caballos_line]) empty_store
             = (Ok (2%nat, 0%nat), db')) by (eexists; vm_compute; reflexivity).
  destruct H as [db' H]. exists db'. split; [exact H|].
  apply (load_passes_keep_constraints _ _ _ _ empty_store_ok H).
Defined.

(* ================================================================== *)
(** * The query endpoints *)

Section Responses.


Lemma related_key_ok (t : table) (db : Store) (id : Z) :
  fk_ok t db id ->
  exists name, related_key t db id = Ok name /\ names t db id name.
Proof.
  intros (r & Hr & Hid). unfold related_key, related.
  destruct (find (fun x => ref_id x =? id) (get_refs t db)) as [x|] eqn:E.
  - apply find_some in E as [Hx Hxid]. apply Z.eqb_eq in Hxid.
    exists (ref_key x). split; [reflexivity|]. exists x. auto.
  - pose proof (find_none _ _ E r Hr) as Hno. simpl in Hno.
    rewrite Hid, Z.eqb_refl in Hno. discriminate.
Qed.

(** On a database that satisfies the constraints every declaration has
    its response. *)
Lemma build_response_ok (db : Store) (d : DeclaracionImportacion) :
  decl_ok db d ->
  exists resp, build_response db d = Ok resp /\ response_of db d resp.
Proof.
  intros (Hid & Hc & Hd & F1 & F2 & F3 & F4 & F5).
  unfold build_response.
  destruct (related_key_ok _ _ _ F1) as (n1 & -> & N1).
  destruct (related_key_ok _ _ _ F2) as (n2 & -> & N2).
  destruct (related_key_ok _ _ _ F3) as (n3 & -> & N3).
  destruct (related_key_ok _ _ _ F4) as (n4 & -> & N4).
  destruct (related_key_ok _ _ _ F5) as (n5 & -> & N5).
  cbn [bind].
  destruct (decl_id d) as [i|] eqn:Ei; [|contradiction].
  destruct (correlativo d) as [|c] eqn:Ec; [discriminate|].
  destruct (descripcion d) as [|ds] eqn:Ed; [discriminate|].
  cbn [bind validate_int validate_str].
  eexists. split; [reflexivity|].
  unfold response_of. rewrite Ei, Ec, Ed. simpl.
  repeat (split; [first [reflexivity | assumption]|]). assumption.
Qed.

Lemma build_responses_ok (db : Store) (ds : list DeclaracionImportacion) :
  (forall d, In d ds -> decl_ok db d) ->
  exists l, build_responses db ds = Ok l /\ Forall2 (response_of db) ds l.
Proof.
  induction ds as [|d rest IH]; intros Hok; simpl.
  - exists []. split; [reflexivity | constructor].
  - destruct (build_response_ok db d (Hok d (or_introl eq_refl))) as (r & -> & Hr).
    destruct IH as (l & -> & Hl); [intros x Hx; apply Hok; right; exact Hx|].
    cbn [bind]. exists (r :: l). split; [reflexivity|]. constructor; assumption.
Qed.


Lemma Forall2_In_right {A B : Type} (R : A -> B -> Prop) (l : list A) (l' : list B)
      (y : B) :
  Forall2 R l l' -> In y l' -> exists x, In x l /\ R x y.
Proof.
  induction 1 as [|a b l l' Hab _ IH]; simpl; [intros []|].
  intros [->|Hy]; [exists a; auto|].
  destruct (IH Hy) as (x & Hx & Hr). exists x. auto.
Qed.

End Responses.

(** X18. On a database that satisfies the constraints of models.py,
    [get_importaciones_por_correlativo] answers 404 exactly when no
    declaration has the correlativo asked for, and otherwise returns one
    response per such declaration, in the order of the table, each with
    the declaration's own columns and the names of the five rows it
    refers to; no other exception escapes. *)
Theorem por_correlativo_outcome (wanted : string) (db : Store) :
  store_ok db ->
  match get_importaciones_por_correlativo wanted db with
  | Returned l =>
      l <> [] /\ Forall2 (response_of db) (with_correlativo wanted db) l
      /\ forall resp, In resp l -> resp_correlativo resp = wanted
  | HTTPException status_code _ =>
      status_code = 404 /\ with_correlativo wanted db = []
  | Unhandled _ => False
  end.
Proof.
  intros (_ & _ & Hdecl). unfold get_importaciones_por_correlativo.
  fold (with_correlativo wanted db).
  destruct (with_correlativo wanted db) as [|d rest] eqn:E; [split; reflexivity|].
  destruct (build_responses_ok db (d :: rest)) as (l & Hl & Hall).
  { intros x Hx. apply Hdecl. rewrite <- E in Hx. unfold with_correlativo in Hx.
    apply filter_In in Hx as [Hx _]. exact Hx. }
  rewrite Hl. simpl. split; [|split; [exact Hall|]].
  - inversion Hall. discriminate.
  - intros resp Hresp.
    destruct (Forall2_In_right _ _ _ _ Hall Hresp) as (x & Hx & Hr).
    rewrite <- E in Hx. unfold with_correlativo in Hx.
    apply filter_In in Hx as [_ Hx].
    destruct Hr as (_ & Hc & _). rewrite Hc in Hx. simpl in Hx.
    apply String.eqb_eq in Hx. exact Hx.
Qed.

Lemma por_correlativo_outcome_witness :
  match get_importaciones_por_correlativo "COR001" loaded_caballos with
  | Returned l =>
      l <> [] /\ Forall2 (response_of loaded_caballos)
                        (with_correlativo "COR001" loaded_caballos) l
      /\ forall resp, In resp l -> resp_correlativo resp = "COR001"
  | HTTPException status_code _ =>
      status_code = 404 /\ with_correlativo "COR001" loaded_caballos = []
  | Unhandled _ => False
  end.
Proof. exact (por_correlativo_outcome "COR001" loaded_caballos loaded_caballos_ok). Defined.

Section RoundTrip.








End RoundTrip.

Section RoundTripRow.

Variable df : DataFrame.
Variable row : list cell.
Variables a p g u sc co de : string.
Variable vf : cell.
Variable f : date.

Hypothesis row_in : In row (rows df).
Hypothesis numbers_present :
  forallb (has_column (columns df))
          ["tipo_cambio_dolar"; "cantidad_fraccion"; "tasa_dai"; "valor_dai";
           "valor_cif_uds"; "tasa_cif_cantidad_fraccion"] = true.
Hypothesis get_aduana : row_get (columns df) row "aduana" = Ok (Str a).
Hypothesis get_pais : row_get (columns df) row "pais" = Ok (Str p).
Hypothesis get_regimen : row_get (columns df) row "tipo_regimen" = Ok (Str g).
Hypothesis get_unidad : row_get (columns df) row "tipo_unidad_medida" = Ok (Str u).
Hypothesis get_sac : row_get (columns df) row "sac" = Ok (Str sc).
Hypothesis get_correlativo : row_get (columns df) row "correlativo" = Ok (Str co).
Hypothesis get_descripcion : row_get (columns df) row "descripcion" = Ok (Str de).
Hypothesis get_fecha : row_get (columns df) row "fecha_declaracion" = Ok vf.
Hypothesis fecha_ok : _parse_date vf = Ok f.



End RoundTripRow.

Section RoundTripFacts.






End RoundTripFacts.



Section Pages.

Context {A : Type}.









End Pages.

Section PagedResponses.

Variable db : Store.
Hypothesis db_ok : store_ok db.












End PagedResponses.









(** X24. The start-up hook [lifespan] never fails and never loads
    anything: whatever the file holds, the database is after it what it
    was before. *)
Theorem lifespan_loads_nothing (f : File) (db : Store) :
  lifespan f db = (Ok tt, db).
Proof.
  unfold lifespan. destruct (path_exists f); [|reflexivity].
  destruct (load_csv_data_never_raises f db) as (v & ->). reflexivity.
Qed.

Section Dict.

Lemma dict_get_set_same (d : list (Z * Z)) (k v default : Z) :
  dict_get (dict_set d k v) k default = v.
Proof.
  induction d as [|[k' v'] d IH]; simpl.
  - rewrite Z.eqb_refl. reflexivity.
  - destruct (k' =? k) eqn:E; simpl; rewrite E; [reflexivity | exact IH].
Qed.

Lemma dict_get_set_other (d : list (Z * Z)) (k k' v default : Z) :
  k <> k' -> dict_get (dict_set d k v) k' default = dict_get d k' default.
Proof.
  intros Hne. induction d as [|[k0 v0] d IH]; simpl.
  - destruct (k =? k') eqn:E; [apply Z.eqb_eq in E; contradiction | reflexivity].
  - destruct (k0 =? k) eqn:E; simpl.
    + apply Z.eqb_eq in E. subst k0.
      destruct (k =? k') eqn:E'; [apply Z.eqb_eq in E'; contradiction | reflexivity].
    + destruct (k0 =? k'); [reflexivity | exact IH].
Qed.

Lemma dict_set_keys (d : list (Z * Z)) (k v k' : Z) :
  In k' (map fst (dict_set d k v)) <-> k' = k \/ In k' (map fst d).
Proof.
  induction d as [|[k0 v0] d IH]; simpl.
  - intuition.
  - destruct (k0 =? k) eqn:E; simpl.
    + apply Z.eqb_eq in E. subst k0. intuition.
    + rewrite IH. intuition.
Qed.

Lemma dict_set_NoDup (d : list (Z * Z)) (k v : Z) :
  NoDup (map fst d) -> NoDup (map fst (dict_set d k v)).
Proof.
  induction d as [|[k0 v0] d IH]; simpl; intros H.
  - constructor; [intros [] | constructor].
  - inversion H as [|? ? Hk Hd]; subst.
    destruct (k0 =? k) eqn:E; simpl.
    + constructor; assumption.
    + constructor; [|apply IH, Hd].
      rewrite dict_set_keys. intros [->|Hin]; [|contradiction].
      rewrite Z.eqb_refl in E. discriminate.
Qed.

Lemma dict_set_sum (d : list (Z * Z)) (k : Z) :
  fold_right Z.add 0 (map snd (dict_set d k (dict_get d k 0 + 1)))
  = fold_right Z.add 0 (map snd d) + 1.
Proof.
  induction d as [|[k0 v0] d IH]; simpl; [reflexivity|].
  destruct (k0 =? k); simpl; [lia | rewrite IH; lia].
Qed.

Lemma max_from_In (d : list (Z * Z)) (rest : list Z) (best : Z) :
  In (max_from d best rest) (best :: rest).
Proof.
  revert best. induction rest as [|k rest IH]; intros best; simpl.
  - left. reflexivity.
  - destruct (dict_get d best 0 <? dict_get d k 0).
    + right. apply IH.
    + destruct (IH best) as [H|H]; [left; exact H | right; right; exact H].
Qed.

Lemma max_from_best (d : list (Z * Z)) (rest : list Z) (best : Z) :
  dict_get d best 0 <= dict_get d (max_from d best rest) 0.
Proof.
  revert best. induction rest as [|k rest IH]; intros best; simpl; [lia|].
  destruct (dict_get d best 0 <? dict_get d k 0) eqn:E.
  - apply Z.ltb_lt in E. specialize (IH k). lia.
  - apply IH.
Qed.

Lemma max_from_max (d : list (Z * Z)) (rest : list Z) (best k : Z) :
  In k (best :: rest) ->
  dict_get d k 0 <= dict_get d (max_from d best rest) 0.
Proof.
  revert best. induction rest as [|k0 rest IH]; intros best.
  - intros [<-|[]]. simpl. lia.
  - intros Hin. simpl.
    destruct (dict_get d best 0 <? dict_get d k0 0) eqn:E.
    + apply Z.ltb_lt in E.
      destruct Hin as [<-|Hin]; [|apply IH, Hin].
      pose proof (max_from_best d rest k0). lia.
    + apply Z.ltb_ge in E.
      destruct Hin as [<-|[<-|Hin]].
      * apply max_from_best.
      * pose proof (max_from_best d rest best). lia.
      * apply IH. right. exact Hin.
Qed.

End Dict.

Section DiagnosisLoop.

Lemma occurrences_snoc (k : Z) (seen : list string) (line : string) :
  occurrences k (seen ++ [line])
  = occurrences k seen + (if columns_of line =? k then 1 else 0).
Proof.
  unfold occurrences. rewrite filter_app, length_app. simpl.
  destruct (columns_of line =? k); simpl; lia.
Qed.

Lemma occurrences_nonneg (k : Z) (seen : list string) : 0 <= occurrences k seen.
Proof. unfold occurrences. lia. Qed.

Lemma diag_step_counted (st : diag_state) (seen : list string) (n : nat)
      (line : string) :
  counted st seen -> counted (diag_step st n line) (seen ++ [line]).
Proof.
  intros (Hc & Hget & Hkeys & Hnd & Hsum & Hout).
  unfold counted, diag_step. cbn [diag_line_count diag_col_counts diag_printed].
  fold (columns_of line).
  split; [rewrite length_app; simpl; lia|].
  split.
  { intros k. rewrite occurrences_snoc.
    destruct (columns_of line =? k) eqn:E.
    - apply Z.eqb_eq in E. subst k. rewrite dict_get_set_same, Hget. reflexivity.
    - rewrite dict_get_set_other, Hget; [lia|].
      intros Heq. rewrite Heq, Z.eqb_refl in E. discriminate. }
  split.
  { intros k. rewrite dict_set_keys, occurrences_snoc, Hkeys.
    pose proof (occurrences_nonneg k seen).
    destruct (columns_of line =? k) eqn:E.
    - apply Z.eqb_eq in E. split; [lia | intros _; left; auto].
    - split; [intros [->|Hk]; [rewrite Z.eqb_refl in E; discriminate | lia]
             | intros Hk; right; lia]. }
  split; [apply dict_set_NoDup, Hnd|].
  split; [rewrite dict_set_sum, Hsum, length_app; simpl; lia|].
  intros p Hp. destruct (n <=? 10)%nat; [|apply Hout, Hp].
  apply in_app_or in Hp as [Hp|[<-|[]]]; [apply Hout, Hp|]. eauto.
Qed.

Lemma diag_loop_counted (lines seen : list string) (st : diag_state) (n : nat) :
  counted st seen -> counted (diag_loop st n lines) (seen ++ lines).
Proof.
  revert seen st n. induction lines as [|line rest IH]; intros seen st n H; simpl.
  - rewrite app_nil_r. exact H.
  - replace (seen ++ line :: rest)%list with ((seen ++ [line]) ++ rest)%list
      by (rewrite <- app_assoc; reflexivity).
    apply IH, diag_step_counted, H.
Qed.

Lemma diag_loop_spec (lines : list string) :
  let st := diag_loop (mk_diag_state 0 [] []) 1 lines in
  diag_line_count st = Z.of_nat (List.length lines)
  /\ (forall k, dict_get (diag_col_counts st) k 0 = occurrences k lines)
  /\ (forall k, In k (map fst (diag_col_counts st)) <-> 0 < occurrences k lines)
  /\ NoDup (map fst (diag_col_counts st))
  /\ fold_right Z.add 0 (map snd (diag_col_counts st))
     = Z.of_nat (List.length lines)
  /\ (forall p, In p (diag_printed st) -> exists n c, p = LineColumns n c).
Proof.
  apply (diag_loop_counted lines [] (mk_diag_state 0 [] []) 1%nat).
  unfold counted. simpl.
  split; [reflexivity|]. split; [reflexivity|].
  split; [intros k; unfold occurrences; simpl; split; [intros [] | lia]|].
  split; [constructor|]. split; [reflexivity|]. intros p [].
Qed.

Lemma diagnosis_printed (f : TextFile) (p : printed) :
  (forall n c, p <> LineColumns n c) ->
  In p (_diagnose_csv_issues f) ->
  p = Diagnosing
  \/ (exists e, file_bytes f = Raise e /\ p = DiagnosisError e)
  \/ exists content, file_bytes f = Ok content
     /\ (p = FirstBytes (firstn 100 (firstn 1000 content))
         \/ (exists e, text_failure f = Some e /\ p = DiagnosisError e)
         \/ text_failure f = None
            /\ let st := diag_loop (mk_diag_state 0 [] []) 1 (text_lines f) in
               (p = TotalLines (diag_line_count st)
                \/ p = Distribution (diag_col_counts st)
                \/ (exists k, max_key (diag_col_counts st) = Ok k
                              /\ p = MostCommon k)
                \/ (exists e, max_key (diag_col_counts st) = Raise e
                              /\ p = DiagnosisError e))).
Proof.
  intros Hp. unfold _diagnose_csv_issues. intros [<-|H]; [left; reflexivity|].
  right. destruct (file_bytes f) as [content|e].
  - right. exists content. split; [reflexivity|].
    destruct H as [<-|H]; [left; reflexivity|]. right.
    apply in_app_or in H as [H|H].
    { destruct (diag_loop_spec (text_lines f)) as (_ & _ & _ & _ & _ & Hout).
      destruct (Hout p H) as (n & c & ->). exfalso. apply (Hp n c). reflexivity. }
    destruct (text_failure f) as [e|].
    + left. destruct H as [<-|[]]. exists e. auto.
    + right. split; [reflexivity|]. cbn zeta.
      destruct H as [<-|[<-|H]]; [left; reflexivity | right; left; reflexivity|].
      right. right.
      destruct (max_key _) as [k|e]; destruct H as [<-|[]]; [left|right]; eauto.
  - left. destruct H as [<-|[]]. eauto.
Qed.

Lemma max_key_spec (d : list (Z * Z)) :
  match max_key d with
  | Ok k => In k (map fst d)
            /\ forall k', In k' (map fst d) -> dict_get d k' 0 <= dict_get d k 0
  | Raise _ => d = []
  end.
Proof.
  unfold max_key. destruct d as [|[k v] d]; [reflexivity|].
  cbn [map fst]. split.
  - apply max_from_In.
  - intros k' Hk'. apply max_from_max, Hk'.
Qed.

End DiagnosisLoop.

(** X25. When the diagnosis prints a distribution of columns, it has
    also printed the number of lines of the file as the total; the
    distribution has one entry per number of columns that occurs, its
    count is the number of lines with that many columns (one more than
    the semicolons of the line), and the counts add up to the total. *)
Theorem diagnosis_distribution (f : TextFile) (col_counts : list (Z * Z)) :
  In (Distribution col_counts) (_diagnose_csv_issues f) ->
  In (TotalLines (Z.of_nat (List.length (text_lines f)))) (_diagnose_csv_issues f)
  /\ NoDup (map fst col_counts)
  /\ (forall k n, In (k, n) col_counts
                  <-> n = occurrences k (text_lines f) /\ 0 < n)
  /\ fold_right Z.add 0 (map snd col_counts)
     = Z.of_nat (List.length (text_lines f)).
Proof.
  intros H.
  pose proof H as H0.
  apply diagnosis_printed in H0; [|discriminate].
  destruct H0 as [H0|[(e & _ & H0)|(content & Hb & H0)]]; try discriminate.
  destruct H0 as [H0|[(e & _ & H0)|(Hf & H0)]]; try discriminate.
  cbn zeta in H0.
  destruct H0 as [H0|[H0|[(k & _ & H0)|(e & _ & H0)]]]; try discriminate.
  injection H0 as ->.
  destruct (diag_loop_spec (text_lines f)) as (Hc & Hget & Hkeys & Hnd & Hsum & _).
  cbn zeta in *.
  set (st := diag_loop (mk_diag_state 0 [] []) 1 (text_lines f)) in *.
  split.
  { unfold _diagnose_csv_issues. rewrite Hb, Hf. fold st. right. right.
    apply in_or_app. right. left. rewrite Hc. reflexivity. }
  split; [exact Hnd|]. split; [|exact Hsum].
  assert (Hlook : forall d k n, NoDup (map fst d) ->
            (In (k, n) d <-> In k (map fst d) /\ dict_get d k 0 = n)).
  { clear. induction d as [|[k0 v0] d IH]; intros k n Hnd; simpl.
    - tauto.
    - inversion Hnd as [|? ? Hk0 Hd]; subst.
      destruct (k0 =? k) eqn:E.
      + apply Z.eqb_eq in E. subst k0. split.
        * intros [Heq|Hin]; [injection Heq as <-; auto|].
          exfalso. apply Hk0. apply in_map_iff. exists (k, n). auto.
        * intros [_ <-]. left. reflexivity.
      + assert (k0 <> k) by (intros ->; rewrite Z.eqb_refl in E; discriminate).
        rewrite (IH k n Hd). split.
        * intros [Heq|Hin]; [injection Heq as Heq _; contradiction|].
          destruct Hin. auto.
        * intros [[Heq|Hin] Hg]; [contradiction|]. right. auto. }
  intros k n. rewrite (Hlook _ k n Hnd), Hkeys, Hget. split.
  - intros [Hpos <-]. auto.
  - intros [-> Hpos]. auto.
Qed.

Lemma diagnosis_distribution_witness :
  In (TotalLines 3) (_diagnose_csv_issues (text_file_of ["a;b;c"; "1;2;3"; "4;5"]))
  /\ NoDup (map fst [(3, 2); (2, 1)])
  /\ (forall k n, In (k, n) [(3, 2); (2, 1)]
                  <-> n = occurrences k ["a;b;c"; "1;2;3"; "4;5"] /\ 0 < n)
  /\ fold_right Z.add 0 (map snd [(3, 2); (2, 1)]) = 3.
Proof.
  apply (diagnosis_distribution (text_file_of ["a;b;c"; "1;2;3"; "4;5"])
                                [(3, 2); (2, 1)]).
  vm_compute. right. right. right. right. right. right. left. reflexivity.
Defined.

(** X26. The number of columns the diagnosis prints as the most common
    one occurs in the file, and no number of columns occurs in more
    lines. *)
Theorem diagnosis_most_common (f : TextFile) (most_common_cols : Z) :
  In (MostCommon most_common_cols) (_diagnose_csv_issues f) ->
  0 < occurrences most_common_cols (text_lines f)
  /\ forall k, occurrences k (text_lines f)
               <= occurrences most_common_cols (text_lines f).
Proof.
  intros H.
  apply diagnosis_printed in H; [|discriminate].
  destruct H as [H|[(e & _ & H)|(content & Hb & H)]]; try discriminate.
  destruct H as [H|[(e & _ & H)|(Hf & H)]]; try discriminate.
  cbn zeta in H.
  destruct H as [H|[H|[(k & Hmax & H)|(e & _ & H)]]]; try discriminate.
  injection H as ->.
  destruct (diag_loop_spec (text_lines f)) as (_ & Hget & Hkeys & _).
  cbn zeta in *.
  pose proof (max_key_spec (diag_col_counts
                              (diag_loop (mk_diag_state 0 [] []) 1 (text_lines f))))
    as Hspec.
  rewrite Hmax in Hspec. destruct Hspec as [Hin Hbest].
  split; [apply Hkeys, Hin|].
  intros k'. pose proof (occurrences_nonneg k' (text_lines f)) as Hnn.
  destruct (Z.eq_dec (occurrences k' (text_lines f)) 0) as [E|E].
  - rewrite E. apply Hkeys in Hin. lia.
  - rewrite <- !Hget. apply Hbest. apply Hkeys. lia.
Qed.

Lemma diagnosis_most_common_witness :
  0 < occurrences 3 ["a;b;c"; "1;2;3"; "4;5"]
  /\ forall k, occurrences k ["a;b;c"; "1;2;3"; "4;5"]
               <= occurrences 3 ["a;b;c"; "1;2;3"; "4;5"].
Proof.
  apply (diagnosis_most_common (text_file_of ["a;b;c"; "1;2;3"; "4;5"]) 3).
  vm_compute. do 7 right. left. reflexivity.
Defined.

(** X27. The diagnosis ends on an error message in three cases only:
    the file cannot be opened, reading it as text fails, or it has no
    line at all, for which [max] of the empty dict raises.  In every
    other case it prints a most common number of columns. *)
Theorem diagnosis_error_cases (f : TextFile) :
  (exists e, In (DiagnosisError e) (_diagnose_csv_issues f))
  <-> ((exists e, file_bytes f = Raise e)
       \/ text_failure f <> None
       \/ text_lines f = []).
Proof.
  split.
  - intros (e & H).
    apply diagnosis_printed in H; [|discriminate].
    destruct H as [H|[(e' & Hb & _)|(content & Hb & H)]];
      [discriminate | left; eauto |].
    destruct H as [H|[(e' & Hf & _)|(Hf & H)]]; [discriminate| |].
    + right. left. rewrite Hf. discriminate.
    + cbn zeta in H.
      destruct H as [H|[H|[(k & _ & H)|(e' & Hmax & _)]]]; try discriminate.
      right. right.
      pose proof (max_key_spec (diag_col_counts
                    (diag_loop (mk_diag_state 0 [] []) 1 (text_lines f)))) as Hs.
      rewrite Hmax in Hs.
      destruct (diag_loop_spec (text_lines f)) as (_ & _ & _ & _ & Hsum & _).
      cbn zeta in Hsum. rewrite Hs in Hsum. simpl in Hsum.
      destruct (text_lines f); [reflexivity | simpl in Hsum; lia].
  - unfold _diagnose_csv_issues.
    intros [(e & Hb)|H].
    + rewrite Hb. exists e. right. left. reflexivity.
    + destruct (file_bytes f) as [content|e];
        [|exists e; right; left; reflexivity].
      destruct (text_failure f) as [e|] eqn:Hf.
      * exists e. right. right. apply in_or_app. right. left. reflexivity.
      * destruct H as [H|H]; [contradiction|]. rewrite H. simpl.
        eexists. do 4 right. left. reflexivity.
Qed.
